(** * Meraki RF-profile updater: validation and upload of RF-profile assignments

    Shallow embedding of [validateAssignments] and [upload_profiles] of
    [update_rfprofiles.py], with the Python string and dictionary operations
    they rely on; then of the functions around them ([getRFProfiles],
    [collectNewRFprofiles], the end of [main]) and of [getTargetNetwork] and
    [writeData] of [export_rfprofiles.py].

    Conventions.
    - Python [str] values are modelled as [string]; the texts handled here
      (network names, profile names, serials, model identifiers) are taken to
      be ASCII, so [str.lower] acts on the letters A-Z and [str.strip] on the
      ASCII characters for which [str.isspace] holds.
    - The read-only dictionaries ([current], [new]/[profiles]) are [gmap]s.
      The change-set built by [validateAssignments] is iterated by
      [upload_profiles], so it is an insertion-ordered dictionary, modelled as
      an association list with Python's assignment semantics ([ODict.set]);
      its keys are distinct.
    - A CSV row is a record of its three columns; [read_row] is the reading
      of these columns off the dictionary the CSV reader yields. *)

From Stdlib Require Import ZArith Ascii.
From stdpp Require Import gmap strings list fin_maps.

(** ** Python string operations *)

Module PyStr.

(** [str.isspace] on one ASCII character: TAB, LF, VT, FF, CR, the four
    separators FS, GS, RS, US, and the space. *)
Definition isspace (c : ascii) : bool :=
  let n := Ascii.N_of_ascii c in
  ((9 <=? n) && (n <=? 13) || (28 <=? n) && (n <=? 32))%N.

(** [str.lower] on one ASCII character. *)
Definition lower_ascii (c : ascii) : ascii :=
  let n := Ascii.N_of_ascii c in
  if ((65 <=? n) && (n <=? 90))%N then Ascii.ascii_of_N (n + 32) else c.

(** [str.lower] on ASCII text. The bytes above 127 are left as they are,
    whereas Python also lower-cases the letters outside ASCII, which can
    change the length of the text; nothing below relies on the length of a
    lower-cased text or on what [lower] does to such letters. *)
Fixpoint lower (s : string) : string :=
  match s with
  | EmptyString => EmptyString
  | String c s' => String (lower_ascii c) (lower s')
  end.

Fixpoint lstrip (s : string) : string :=
  match s with
  | EmptyString => EmptyString
  | String c s' => if isspace c then lstrip s' else s
  end.

Fixpoint rstrip (s : string) : string :=
  match s with
  | EmptyString => EmptyString
  | String c s' =>
      match rstrip s' with
      | EmptyString => if isspace c then EmptyString else String c EmptyString
      | r => String c r
      end
  end.

(** [s.strip()] *)
Definition strip (s : string) : string := rstrip (lstrip s).

(** [s.split(sep)] for a one-character separator: the result always has
    at least one element, and [''.split(',')] is [['']]. *)
Fixpoint split (sep : ascii) (s : string) : list string :=
  match s with
  | EmptyString => [EmptyString]
  | String c s' =>
      if Ascii.eqb c sep then EmptyString :: split sep s'
      else match split sep s' with
           | w :: ws => String c w :: ws
           | [] => [String c EmptyString]
           end
  end.

(** [s.startswith(p)] *)
Fixpoint startswith (p s : string) : bool :=
  match p, s with
  | EmptyString, _ => true
  | String a p', String b s' => Ascii.eqb a b && startswith p' s'
  | String _ _, EmptyString => false
  end.

(** [sub in s] for strings: [sub] occurs somewhere in [s]. *)
Fixpoint contains (sub s : string) : bool :=
  startswith sub s ||
  match s with
  | EmptyString => false
  | String _ s' => contains sub s'
  end.

(** A list compared with a string, as in the tests of [aps] against the
    empty string: in Python [==] is [False] and [!=] is [True] whenever the
    left operand is a list, whatever it holds. *)
Definition list_eq_str (l : list string) (s : string) : bool := false.
Definition list_ne_str (l : list string) (s : string) : bool := true.

End PyStr.

(** ** Insertion-ordered dictionaries with string keys *)

Module ODict.

Definition t (V : Type) : Type := list (string * V).

(** [d.get(k)] / [d[k]] *)
Fixpoint get {V} (k : string) (d : t V) : option V :=
  match d with
  | [] => None
  | (k', v) :: d' => if String.eqb k k' then Some v else get k d'
  end.

(** [d[k] = v]: an existing key keeps its position, a new one goes last. *)
Fixpoint set {V} (k : string) (v : V) (d : t V) : t V :=
  match d with
  | [] => [(k, v)]
  | (k', v') :: d' =>
      if String.eqb k k' then (k, v) :: d' else (k', v') :: set k v d'
  end.

(** In-place change of the value stored under [k], as in [d[k][...] = x]. *)
Fixpoint alter {V} (f : V -> V) (k : string) (d : t V) : t V :=
  match d with
  | [] => []
  | (k', v) :: d' =>
      if String.eqb k k' then (k', f v) :: d' else (k', v) :: alter f k d'
  end.

Definition keys {V} (d : t V) : list string := map fst d.

End ODict.

(** ** Data model *)

(** One row of the assignment CSV, as [DictReader] yields it. *)
Record Row := mkRow {
  Network_Name : string;
  RF_Profiles : string;
  APs : string
}.

(** The template document of an RF profile: fields passed on to the
    dashboard as they are. *)
Definition Template : Type := list (string * string).

(** Baseline of one network, as built by [getRFProfiles]:
    [{"id": ..., "rf": {name: {"id": ...}}}]. *)
Record Baseline := mkBaseline {
  base_id : string;
  base_rf : gmap string string
}.

Inductive Oper := add | update.

(** [updates[network]["rf"][profile]]: keys ["aps"], ["oper"] and, when
    present, ["id"]. *)
Record ProfileChange := mkProfileChange {
  aps : list string;
  prof_id : option string;
  oper : Oper
}.

(** [updates[network]]: keys ["id"] and ["rf"]. *)
Record NetworkChange := mkNetworkChange {
  net_id : string;
  rf : ODict.t ProfileChange
}.

Definition ChangeSet : Type := ODict.t NetworkChange.

(** ** validateAssignments *)

(** The local variables of the validation loop. *)
Record VState := mkVState {
  good : nat;
  bad_network : list Row;
  bad_profiles : list Row;
  bad_aps : list Row;
  updates : ChangeSet
}.

Definition vstate0 : VState := mkVState 0 [] [] [] [].

(** [k in d.keys()] *)
Definition in_keys {V} (k : string) (d : gmap string V) : bool :=
  match d !! k with Some _ => true | None => false end.

(** [[p.strip() for p in s.split(",")]] *)
Definition split_strip (s : string) : list string :=
  map PyStr.strip (PyStr.split ","%char s).

(** [aps[0]] on a list known to come from [split]. *)
Definition first (l : list string) : string :=
  match l with a :: _ => a | [] => EmptyString end.

(** Lines 165-169: the loop over the row's profile names. It threads the
    report list and the flag [bad_profile]. *)
Definition check_profiles (new : gmap string Template) (entry : Row)
    (rf_profiles : list string) (bad : list Row) : list Row * bool :=
  fold_left
    (fun (acc : list Row * bool) (profile : string) =>
       if negb (in_keys profile new) then (acc.1 ++ [entry], true) else acc)
    rf_profiles (bad, false).

(** Lines 185-193: one profile of an accepted row. *)
Definition classify (base : Baseline) (aps : list string) (profile : string)
    : ProfileChange :=
  match base_rf base !! profile with
  | Some i => mkProfileChange aps (Some i) update
  | None => mkProfileChange aps None add
  end.

Definition store_profile (target_network : string) (base : Baseline)
    (aps : list string) (updates : ChangeSet) (profile : string) : ChangeSet :=
  ODict.alter
    (fun nc => mkNetworkChange (net_id nc)
                 (ODict.set profile (classify base aps profile) (rf nc)))
    target_network updates.

(** Lines 179-193: storage for the network, then its profiles. *)
Definition store_row (target_network : string) (base : Baseline)
    (rf_profiles aps : list string) (updates : ChangeSet) : ChangeSet :=
  let updates := ODict.set target_network (mkNetworkChange (base_id base) []) updates in
  fold_left (store_profile target_network base aps) rf_profiles updates.

(** The body of the loop over [assignments] (lines 157-194). *)
Definition validate_entry (current : gmap string Baseline)
    (new : gmap string Template) (st : VState) (entry : Row) : VState :=
  let rf_profiles := split_strip (RF_Profiles entry) in
  let aps := split_strip (APs entry) in
  let target_network := PyStr.lower (Network_Name entry) in
  match current !! target_network with
  | None =>
      mkVState (good st) (bad_network st ++ [entry]) (bad_profiles st)
               (bad_aps st) (updates st)
  | Some base =>
      let '(bad_profiles', bad_profile) :=
        check_profiles new entry rf_profiles (bad_profiles st) in
      if bad_profile then
        mkVState (good st) (bad_network st) bad_profiles' (bad_aps st) (updates st)
      else if (1 <? length rf_profiles)%nat
              && (PyStr.list_ne_str aps EmptyString
                  && negb (String.eqb (PyStr.lower (first aps)) "none")) then
        mkVState (good st) (bad_network st) bad_profiles' (bad_aps st ++ [entry])
                 (updates st)
      else
        mkVState (S (good st)) (bad_network st) bad_profiles' (bad_aps st)
                 (store_row target_network base rf_profiles aps (updates st))
  end.

Definition validate_loop (current : gmap string Baseline)
    (new : gmap string Template) (assignments : list Row) (st : VState) : VState :=
  fold_left (validate_entry current new) assignments st.

(** How a function ends: it returns, or [sys.exit(status)] ends the run. *)
Inductive Outcome (A : Type) :=
| Returned (a : A)
| SysExit (status : Z).
Arguments Returned {A} a.
Arguments SysExit {A} status.

(** Lines 201-214: the rows of the error table. *)
Definition error_table (st : VState) : list (string * Row) :=
  map (pair "Network Name Mismatch") (bad_network st)
  ++ map (pair "RF Profile Name Mismatch") (bad_profiles st)
  ++ map (pair "Cannot assign multiple profiles to APs") (bad_aps st).

(** Lines 196-220. [show_errors] is the operator's answer to the prompt
    "Show errors?"; the first component is the table printed, if any. *)
Definition validate_finish (assignments : list Row) (show_errors : bool)
    (st : VState) : option (list (string * Row)) * Outcome ChangeSet :=
  if (good st =? length assignments)%nat then (None, Returned (updates st))
  else
    let table := if show_errors then Some (error_table st) else None in
    if (good st =? 0)%nat then (table, SysExit 1)
    else (table, Returned (updates st)).

Definition validateAssignments (current : gmap string Baseline)
    (new : gmap string Template) (assignments : list Row) (show_errors : bool)
    : option (list (string * Row)) * Outcome ChangeSet :=
  validate_finish assignments show_errors
    (validate_loop current new assignments vstate0).

(** ** The dashboard *)

(** A device as [getNetworkDevices] lists it. *)
Record Device := mkDevice {
  serial : string;
  model : string
}.

(** The dashboard operations [upload_profiles] invokes. *)
Inductive Call :=
| createNetworkWirelessRfProfile (networkId : string) (profiledata : Template)
| updateNetworkWirelessRfProfile (networkId rfProfileId : string)
    (profiledata : Template)
| getNetworkDevices (networkId : string)
| updateDeviceWirelessRadioSettings (ap rfProfileId : string).

(** Exceptions that [upload_profiles] does not catch. [OtherError] stands
    for any exception of the client or of the transport that is not an
    [APIError]. *)
Inductive Exn :=
| KeyError (key : string)
| IndexError
| TypeError
| AttributeError
| OtherError (name : string).

(** A call answers, or raises [APIError] ([message] stands for
    [e.message["errors"][0]]), or raises something else: a [TypeError] when
    the template lacks an argument the client requires or holds one it does
    not take, an error of the transport, and so on. *)
Inductive Reply (A : Type) :=
| Ok (a : A)
| APIError (message : string)
| Raises (e : Exn).
Arguments Ok {A} a.
Arguments APIError {A} message.
Arguments Raises {A} e.

(** The remote system. What it answers may depend on the calls made so far,
    which each operation receives as its first argument. *)
Record Dashboard := mkDashboard {
  create_rf_profile : list Call -> string -> Template -> Reply string;
  update_rf_profile : list Call -> string -> string -> Template -> Reply unit;
  get_devices : list Call -> string -> Reply (list Device);
  update_radio : list Call -> string -> string -> Reply unit
}.

(** ** upload_profiles *)

(** An element of [errors]. *)
Record Failure := mkFailure {
  network : string;
  profile : string;
  error : string
}.

(** The calls made so far and the list [errors]. *)
Record UState := mkUState {
  calls : list Call;
  errors : list Failure
}.

Inductive Res (A : Type) :=
| Done (a : A) (st : UState)
| Raised (e : Exn) (st : UState).
Arguments Done {A} a st.
Arguments Raised {A} e st.

Definition res_bind {A B} (r : Res A) (k : A -> UState -> Res B) : Res B :=
  match r with
  | Done a st => k a st
  | Raised e st => Raised e st
  end.

Notation "'run' ( x , s ) <- r 'in' k" := (res_bind r (fun x s => k))
  (at level 10, x name, s name, r at level 100, k at level 200,
   format "'[v' 'run'  ( x ,  s )  <-  r  'in' '/' k ']'").

(** What a run did, leaving aside the change-set it hands back. *)
Definition res_state {A} (r : Res A) : Exn + UState :=
  match r with
  | Done _ st => inr st
  | Raised e _ => inl e
  end.

(** The [try] block of lines 243-255. *)
Inductive Mutation :=
| Mutated (pc : ProfileChange) (rfid : string) (c : Call)
| MutationFailed (c : Call) (message : string)
| MutationRaised (e : Exn).

(** A call [f(k=..., **profiledata)]: Python raises [TypeError] before [f]
    runs when [profiledata] has one of the keywords the call writes out. *)
Definition given_twice (keywords : list string) (profiledata : Template) : bool :=
  existsb (fun k => existsb (String.eqb k) keywords) (ODict.keys profiledata).

Definition mutate_profile (dashboard : Dashboard) (history : list Call)
    (netid : string) (profiledata : Template) (pc : ProfileChange) : Mutation :=
  match oper pc with
  | add =>
      if given_twice ["networkId"] profiledata then MutationRaised TypeError
      else
        let c := createNetworkWirelessRfProfile netid profiledata in
        match create_rf_profile dashboard history netid profiledata with
        | Ok i => Mutated (mkProfileChange (aps pc) (Some i) (oper pc)) i c
        | APIError message => MutationFailed c message
        | Raises e => MutationRaised e
        end
  | update =>
      match prof_id pc with
      | None => MutationRaised (KeyError "id")
      | Some i =>
          if given_twice ["networkId"; "rfProfileId"] profiledata then
            MutationRaised TypeError
          else
            let c := updateNetworkWirelessRfProfile netid i profiledata in
            match update_rf_profile dashboard history netid i profiledata with
            | Ok _ => Mutated pc i c
            | APIError message => MutationFailed c message
            | Raises e => MutationRaised e
            end
      end
  end.

(** Line 279: [[d["serial"] for d in response if "MR" in d["model"]]]. *)
Definition wireless_serials (response : list Device) : list string :=
  map serial (List.filter (fun d => PyStr.contains "MR" (model d)) response).

(** Lines 289-292: the calls of the loop over [aps], up to the first one
    that raises, and how the loop ends. *)
Fixpoint assign_aps (dashboard : Dashboard) (rfid : string) (aps : list string)
    (history : list Call) : list Call * Reply unit :=
  match aps with
  | [] => (history, Ok tt)
  | ap :: aps' =>
      let c := updateDeviceWirelessRadioSettings ap rfid in
      match update_radio dashboard history ap rfid with
      | Ok _ => assign_aps dashboard rfid aps' (history ++ [c])
      | APIError message => (history ++ [c], APIError message)
      | Raises e => (history ++ [c], Raises e)
      end
  end.

(** Lines 293-301: the handler of the second [try], which catches
    [APIError] alone. *)
Definition record_assignment (network profile : string) (errors : list Failure)
    (r : list Call * Reply unit) : Exn + UState :=
  match r.2 with
  | Ok _ => inr (mkUState r.1 errors)
  | APIError message =>
      inr (mkUState r.1 (errors ++ [mkFailure network profile message]))
  | Raises e => inl e
  end.

(** Lines 268-302: AP assignment once the profile is in place. *)
Definition assign_profile (dashboard : Dashboard) (network netid profile rfid : string)
    (aps : list string) (st : UState) : Exn + UState :=
  if PyStr.list_eq_str aps EmptyString then inr st
  else
    match aps with
    | [] => inl IndexError
    | a0 :: _ =>
        if String.eqb (PyStr.lower a0) "none" then inr st
        else if String.eqb (PyStr.lower a0) "all" then
          match get_devices dashboard (calls st) netid with
          | Ok response =>
              record_assignment network profile (errors st)
                (assign_aps dashboard rfid (wireless_serials response)
                   (calls st ++ [getNetworkDevices netid]))
          | APIError message =>
              inr (mkUState (calls st ++ [getNetworkDevices netid])
                     (errors st ++ [mkFailure network profile message]))
          | Raises e => inl e
          end
        else
          record_assignment network profile (errors st)
            (assign_aps dashboard rfid aps (calls st))
    end.

(** The body of the loop over the profiles of one network (lines 241-302).
    It hands back the entry, with the id of a profile just created. *)
Definition upload_profile (dashboard : Dashboard) (profiles : gmap string Template)
    (network netid profile : string) (pc : ProfileChange) (st : UState)
    : Res ProfileChange :=
  match profiles !! profile with
  | None => Raised (KeyError profile) st
  | Some profiledata =>
      match mutate_profile dashboard (calls st) netid profiledata pc with
      | MutationRaised e => Raised e st
      | MutationFailed c message =>
          Done pc (mkUState (calls st ++ [c])
                     (errors st ++ [mkFailure network profile message]))
      | Mutated pc' rfid c =>
          let st1 := mkUState (calls st ++ [c]) (errors st) in
          match assign_profile dashboard network netid profile rfid (aps pc) st1 with
          | inl e => Raised e st1
          | inr st2 => Done pc' st2
          end
      end
  end.

(** Lines 240-302: [for profile in rf]. *)
Fixpoint upload_rf (dashboard : Dashboard) (profiles : gmap string Template)
    (network netid : string) (rf : ODict.t ProfileChange) (st : UState)
    : Res (ODict.t ProfileChange) :=
  match rf with
  | [] => Done [] st
  | (profile, pc) :: rf' =>
      run (pc', st1) <- upload_profile dashboard profiles network netid profile pc st in
      run (rf'', st2) <- upload_rf dashboard profiles network netid rf' st1 in
      Done ((profile, pc') :: rf'') st2
  end.

(** Lines 234-304: [for network in changes]. *)
Fixpoint upload_networks (dashboard : Dashboard) (profiles : gmap string Template)
    (changes : ChangeSet) (st : UState) : Res ChangeSet :=
  match changes with
  | [] => Done [] st
  | (network, nc) :: changes' =>
      run (rf', st1) <- upload_rf dashboard profiles network (net_id nc) (rf nc) st in
      run (changes'', st2) <- upload_networks dashboard profiles changes' st1 in
      Done ((network, mkNetworkChange (net_id nc) rf') :: changes'') st2
  end.

Definition upload_profiles (changes : ChangeSet) (profiles : gmap string Template)
    (dashboard : Dashboard) : Res ChangeSet :=
  upload_networks dashboard profiles changes (mkUState [] []).

(** ** Vocabulary of the statements *)

(** The row's network is not a key of the baseline. *)
Definition unknown_network (current : gmap string Baseline) (entry : Row) : bool :=
  negb (in_keys (PyStr.lower (Network_Name entry)) current).

(** The profile names of a row that are not keys of the templates, with
    their repetitions. *)
Definition missing (new : gmap string Template) (rf_profiles : list string)
    : list string :=
  List.filter (fun profile => negb (in_keys profile new)) rf_profiles.

(** The profiles dictionary one accepted row stores for its network. *)
Definition row_rf (base : Baseline) (rf_profiles aps : list string)
    : ODict.t ProfileChange :=
  fold_left (fun rf profile => ODict.set profile (classify base aps profile) rf)
    rf_profiles [].

(** Two states of the validation loop that differ at most in
    [bad_network]. *)
Definition agree_off_network (st st' : VState) : Prop :=
  good st = good st' ∧ bad_profiles st = bad_profiles st' ∧
  bad_aps st = bad_aps st' ∧ updates st = updates st'.

(** Two states of the validation loop that differ at most in
    [bad_profiles]. *)
Definition agree_off_profiles (st st' : VState) : Prop :=
  good st = good st' ∧ bad_network st = bad_network st' ∧
  bad_aps st = bad_aps st' ∧ updates st = updates st'.

(** Every entry of the change-set is what some row with known profile names
    stores for its network, from the baseline of that network. *)
Definition from_baseline (current : gmap string Baseline)
    (new : gmap string Template) (u : ChangeSet) : Prop :=
  ∀ n nc, (n, nc) ∈ u →
    ∃ base rf_profiles aps,
      current !! n = Some base ∧
      missing new rf_profiles = [] ∧
      aps ≠ [] ∧
      nc = mkNetworkChange (base_id base) (row_rf base rf_profiles aps).

(** What [upload_profiles] reads of a profile entry without a handler: the
    template of the profile, the first AP target, the id of an [update]. *)
Definition readable (profiles : gmap string Template) (e : string * ProfileChange)
    : Prop :=
  is_Some (profiles !! e.1) ∧ aps e.2 ≠ [] ∧
  (oper e.2 = update → is_Some (prof_id e.2)).

Definition all_readable (profiles : gmap string Template) (changes : ChangeSet)
    : Prop :=
  Forall (fun e => Forall (readable profiles) (rf e.2)) changes.

(** No template has a key that the create and update calls write out
    themselves. *)
Definition plain (profiles : gmap string Template) : Prop :=
  map_Forall
    (fun _ profiledata => given_twice ["networkId"; "rfProfileId"] profiledata = false)
    profiles.

(** The client raises nothing but [APIError]: every call answers in the
    form the code reads, or raises an [APIError] whose message the handlers
    can read. *)
Definition raises_only_APIError (dashboard : Dashboard) : Prop :=
  (∀ h n t e, create_rf_profile dashboard h n t ≠ Raises e) ∧
  (∀ h n i t e, update_rf_profile dashboard h n i t ≠ Raises e) ∧
  (∀ h n e, get_devices dashboard h n ≠ Raises e) ∧
  (∀ h ap i e, update_radio dashboard h ap i ≠ Raises e).

(** [sub] occurs in [s]. *)
Definition is_substring (sub s : string) : Prop :=
  exists pre post : string, s = pre +:+ sub +:+ post.

(** ** Sample data *)

Module Sample.

Definition current : gmap string Baseline :=
  {[ "branch-a" := mkBaseline "N1" {[ "legacy" := "R1" ]} ]}.

Definition new : gmap string Template :=
  {[ "legacy" := [("name", "legacy")];
     "5ghz-boost" := [("name", "5ghz-boost")] ]}.

Definition row_legacy : Row := mkRow "Branch-A" "legacy" "none".
Definition row_boost : Row := mkRow "Branch-A" "5ghz-boost" "AP100, AP101".
Definition row_two_profiles : Row := mkRow "Branch-A" "legacy, 5ghz-boost" EmptyString.
Definition row_no_aps : Row := mkRow "Branch-A" "legacy" EmptyString.
Definition row_elsewhere : Row := mkRow "Branch-Z" "legacy" "none".
Definition row_misspelt : Row := mkRow "Branch-A" "legacy, 2ghz, 6ghz" "none".

(** A dashboard on which every call succeeds. *)
Definition devices : list Device :=
  [mkDevice "Q2AA-0001" "MR42"; mkDevice "Q2BB-0002" "MX64";
   mkDevice "Q2CC-0003" "CW9166I-MR"].

Definition dashboard : Dashboard :=
  mkDashboard (fun _ _ _ => Ok "R9") (fun _ _ _ _ => Ok tt)
    (fun _ _ => Ok devices) (fun _ _ _ => Ok tt).

(** A dashboard that refuses to create profiles and lists no access
    point. *)
Definition dashboard_ro : Dashboard :=
  mkDashboard (fun _ _ _ => APIError "read-only organization")
    (fun _ _ _ _ => Ok tt)
    (fun _ _ => Ok [mkDevice "Q2BB-0002" "MX64"]) (fun _ _ _ => Ok tt).

End Sample.

(** * The rest of the two scripts *)

(** ** More of Python *)

Module Py.

(** [x in l] for a list of strings. *)
Definition list_mem (x : string) (l : list string) : bool :=
  existsb (String.eqb x) l.

(** [sep.join(l)] *)
Fixpoint join (sep : string) (l : list string) : string :=
  match l with
  | [] => EmptyString
  | [w] => w
  | w :: ws => w +:+ sep +:+ join sep ws
  end.

(** [del d[k]]; [None] stands for the [KeyError] of a missing key. *)
Fixpoint del {V} (k : string) (d : ODict.t V) : option (ODict.t V) :=
  match d with
  | [] => None
  | (k', v) :: d' =>
      if String.eqb k k' then Some d' else cons (k', v) <$> del k d'
  end.

End Py.

(** ** update_rfprofiles.py: getRFProfiles *)

(** A network as [getOrganizationNetworks] lists it: keys ["id"],
    ["name"] and ["productTypes"]. *)
Record Network := mkNetwork {
  network_id : string;
  network_name : string;
  productTypes : list string
}.

(** What [getRFProfiles] reads of an RF profile of the dashboard: keys
    ["name"] and ["id"]. *)
Record RfProfile := mkRfProfile {
  rfp_name : string;
  rfp_id : string
}.

(** Line 94: [{n["name"]: {"id": n["id"]} for n in profiles}]. *)
Definition rf_info (profiles : list RfProfile) : gmap string string :=
  fold_left (fun info n => <[rfp_name n := rfp_id n]> info) profiles ∅.

(** Lines 90-95, with [results] as filled so far. The first argument is
    [dashboard.wireless.getNetworkWirelessRfProfiles]; what it raises is not
    caught. *)
Fixpoint getRFProfiles_from
    (getNetworkWirelessRfProfiles : string -> Reply (list RfProfile))
    (networks : list Network) (results : gmap string Baseline)
    : Reply (gmap string Baseline) :=
  match networks with
  | [] => Ok results
  | network :: networks' =>
      if negb (Py.list_mem "wireless" (productTypes network)) then
        getRFProfiles_from getNetworkWirelessRfProfiles networks' results
      else
        match getNetworkWirelessRfProfiles (network_id network) with
        | Ok profiles =>
            getRFProfiles_from getNetworkWirelessRfProfiles networks'
              (<[PyStr.lower (network_name network) :=
                   mkBaseline (network_id network) (rf_info profiles)]> results)
        | APIError message => APIError message
        | Raises e => Raises e
        end
  end.

Definition getRFProfiles
    (getNetworkWirelessRfProfiles : string -> Reply (list RfProfile))
    (networks : list Network) : Reply (gmap string Baseline) :=
  getRFProfiles_from getNetworkWirelessRfProfiles networks ∅.

(** ** update_rfprofiles.py: collectNewRFprofiles *)

(** Lines 106-108: the paths of a listing that are kept. *)
Definition yaml_paths (paths : list string) : list string :=
  List.filter (PyStr.contains ".yaml") paths.

(** Lines 114-118. [load] stands for opening a file and [yaml.load] where
    both succeed and the document is a mapping of texts; what [open], the
    parser, or [contents["name"]] on a document that is no mapping raise is
    not modelled, so that only the runs that end without such an exception
    are covered. *)
Fixpoint read_profiles (load : string -> Template) (file_list : list string)
    (rfprofiles : gmap string Template) : Exn + gmap string Template :=
  match file_list with
  | [] => inr rfprofiles
  | file :: file_list' =>
      let contents := load file in
      match ODict.get "name" contents with
      | None => inl (KeyError "name")
      | Some name => read_profiles load file_list' (<[name := contents]> rfprofiles)
      end
  end.

(** Lines 104-120. [answers] are the directories the operator enters, in
    turn; [None] means the function is still asking after them.
    [file_list] is the list of line 103, which the loop never resets. *)
Fixpoint collectNewRFprofiles_from (glob : string -> list string)
    (load : string -> Template) (answers : list string) (file_list : list string)
    : option (Exn + gmap string Template) :=
  match answers with
  | [] => None
  | dir :: answers' =>
      let file_list := file_list ++ yaml_paths (glob (dir +:+ "/*")) in
      if (length file_list =? 0)%nat then
        collectNewRFprofiles_from glob load answers' file_list
      else Some (read_profiles load file_list ∅)
  end.

Definition collectNewRFprofiles (glob : string -> list string)
    (load : string -> Template) (answers : list string)
    : option (Exn + gmap string Template) :=
  collectNewRFprofiles_from glob load answers [].

(** ** update_rfprofiles.py: main, from validation on *)

(** A row as [DictReader] yields it: the columns of the header, each with
    the text of the line, or with [None] where the line is too short. Lines
    with more fields than the header, whose surplus the reader keeps as a
    list under the key [None], are left out. *)
Definition RawRow : Type := ODict.t (option string).

(** [entry[column]] followed by a method of [str], as in lines 157-159:
    [KeyError] when the header has no such column, [AttributeError] when the
    line gave the column no value. *)
Definition text_of (entry : RawRow) (column : string) : Exn + string :=
  match ODict.get column entry with
  | None => inl (KeyError column)
  | Some None => inl AttributeError
  | Some (Some text) => inr text
  end.

(** Lines 157-159: what the validation loop reads of a row, in this order. *)
Definition read_row (entry : RawRow) : Exn + Row :=
  match text_of entry "RF Profiles" with
  | inl e => inl e
  | inr rf_profiles =>
      match text_of entry "APs" with
      | inl e => inl e
      | inr aps =>
          match text_of entry "Network Name" with
          | inl e => inl e
          | inr name => inr (mkRow name rf_profiles aps)
          end
      end
  end.

(** The rows as read down to the first one that raises; nothing catches
    that exception, which ends [validateAssignments] and [main]. *)
Fixpoint read_rows (assignments : list RawRow) : Exn + list Row :=
  match assignments with
  | [] => inr []
  | entry :: assignments' =>
      match read_row entry with
      | inl e => inl e
      | inr row =>
          match read_rows assignments' with
          | inl e => inl e
          | inr rows => inr (row :: rows)
          end
      end
  end.

(** Lines 355-363. [ready] is the operator's answer to "Ready to deploy
    changes. Continue?". *)
Definition main_apply (rf_profiles : gmap string Baseline)
    (new_profiles : gmap string Template) (assignments : list Row)
    (show_errors ready : bool) (dashboard : Dashboard) : Outcome (Res ChangeSet) :=
  match (validateAssignments rf_profiles new_profiles assignments show_errors).2 with
  | SysExit status => SysExit status
  | Returned proposed_changes =>
      if negb ready then SysExit 1
      else Returned (upload_profiles proposed_changes new_profiles dashboard)
  end.

(** Lines 354-363, on the rows as the CSV reader yields them. *)
Definition main_from_csv (rf_profiles : gmap string Baseline)
    (new_profiles : gmap string Template) (assignments : list RawRow)
    (show_errors ready : bool) (dashboard : Dashboard)
    : Exn + Outcome (Res ChangeSet) :=
  match read_rows assignments with
  | inl e => inl e
  | inr rows =>
      inr (main_apply rf_profiles new_profiles rows show_errors ready dashboard)
  end.

(** ** export_rfprofiles.py *)

Module Exporter.

(** Line 77: [{n["name"].lower(): n["id"] for n in networks}]. *)
Definition all_names (networks : list Network) : gmap string string :=
  fold_left (fun names n => <[PyStr.lower (network_name n) := network_id n]> names)
    networks ∅.

(** Lines 75-81. [answers] are the names the operator enters, in turn;
    [None] means the function is still asking after them. *)
Fixpoint getTargetNetwork (networks : list Network) (answers : list string)
    : option string :=
  match answers with
  | [] => None
  | net_name :: answers' =>
      match all_names networks !! PyStr.lower net_name with
      | None => getTargetNetwork networks answers'
      | Some i => Some i
      end
  end.

(** Line 102: ["_".join(profile["name"].lower().split(" "))]. *)
Definition filename_of (name : string) : string :=
  Py.join "_" (PyStr.split " "%char (PyStr.lower name)).

(** How [writeData] ends, with the files written by then. *)
Inductive Written :=
| WriteDone (files : gmap string string)
| WriteExit (status : Z) (files : gmap string string)
| WriteRaised (e : Exn) (files : gmap string string).

(** What is written for one profile (lines 100-104): the path and the
    document that is dumped; the error is the [KeyError] of a missing key. *)
Definition export_of (path : string) (profile : Template)
    : Exn + (string * Template) :=
  match Py.del "networkId" profile with
  | None => inl (KeyError "networkId")
  | Some profile1 =>
      match Py.del "id" profile1 with
      | None => inl (KeyError "id")
      | Some profile2 =>
          match ODict.get "name" profile2 with
          | None => inl (KeyError "name")
          | Some name =>
              inr (path +:+ "/" +:+ filename_of name +:+ ".yaml", profile2)
          end
      end
  end.

(** Lines 99-110. [can_open] tells whether a path can be opened for
    writing (if not, [open] raises [FileNotFoundError]); [dump] stands for
    [yaml.dump]; [files] maps the paths written so far to their content. *)
Fixpoint writeData (can_open : string -> bool) (dump : Template -> string)
    (path : string) (rf_profiles : list Template) (files : gmap string string)
    : Written :=
  match rf_profiles with
  | [] => WriteDone files
  | profile :: rf_profiles' =>
      match export_of path profile with
      | inl e => WriteRaised e files
      | inr (filepath, document) =>
          if can_open filepath then
            writeData can_open dump path rf_profiles'
              (<[filepath := dump document]> files)
          else WriteExit 1 files
      end
  end.

End Exporter.

(** ** Vocabulary of the further statements *)

(** The row names a known network and at least one unknown profile. *)
Definition profile_rejected (current : gmap string Baseline)
    (new : gmap string Template) (entry : Row) : bool :=
  in_keys (PyStr.lower (Network_Name entry)) current
  && negb (length (missing new (split_strip (RF_Profiles entry))) =? 0)%nat.

(** The row passes the three checks of the validation loop. *)
Definition accepted (current : gmap string Baseline) (new : gmap string Template)
    (entry : Row) : bool :=
  (good (validate_entry current new vstate0 entry) =? 1)%nat.

(** What a row adds to the profile-mismatch list. *)
Definition profile_report (current : gmap string Baseline)
    (new : gmap string Template) (entry : Row) : list Row :=
  if in_keys (PyStr.lower (Network_Name entry)) current then
    replicate (length (missing new (split_strip (RF_Profiles entry)))) entry
  else [].

(** An entry with several profiles has AP lists headed by [none]. *)
Definition several_without_aps (nc : NetworkChange) : Prop :=
  1 < length (rf nc) →
  ∀ p pc, (p, pc) ∈ rf nc → PyStr.lower (first (aps pc)) = "none".

(** The character [c] occurs in [s]. *)
Fixpoint has_char (c : ascii) (s : string) : bool :=
  match s with
  | EmptyString => false
  | String a s' => Ascii.eqb a c || has_char c s'
  end.

(** The calls that create or update a profile. *)
Definition is_mutation (c : Call) : bool :=
  match c with
  | createNetworkWirelessRfProfile _ _ | updateNetworkWirelessRfProfile _ _ _ => true
  | _ => false
  end.

(** The create or update call an entry asks for. *)
Definition mutation_call (profiles : gmap string Template) (netid : string)
    (e : string * ProfileChange) : list Call :=
  match profiles !! e.1 with
  | None => []
  | Some profiledata =>
      match oper e.2, prof_id e.2 with
      | add, _ => [createNetworkWirelessRfProfile netid profiledata]
      | update, Some i => [updateNetworkWirelessRfProfile netid i profiledata]
      | update, None => []
      end
  end.

Definition planned (profiles : gmap string Template) (changes : ChangeSet)
    : list Call :=
  flat_map (fun e => flat_map (mutation_call profiles (net_id e.2)) (rf e.2))
    changes.

(** The (network, profile) pairs of a change-set, in order. *)
Definition pairs_of (changes : ChangeSet) : list (string * string) :=
  flat_map (fun e => map (fun pe => (e.1, pe.1)) (rf e.2)) changes.

(** What processing the profiles [entries] of the network [net] leaves
    behind: the new calls [news], of which the creations and updates are
    [plan]; the new failure records [fs]; the profiles [entries'] handed
    back. *)
Definition entry_shape (pe : string * ProfileChange)
    : string * list string * Oper * option string :=
  (pe.1, aps pe.2, oper pe.2,
   match oper pe.2 with update => prof_id pe.2 | add => None end).

Definition step_summary (net : string) (news : list Call) (fs : list Failure)
    (plan : list Call) (entries entries' : ODict.t ProfileChange) : Prop :=
  List.filter is_mutation news = plan ∧
  map (fun f => (network f, profile f)) fs
    `sublist_of` map (fun pe => (net, pe.1)) entries ∧
  map entry_shape entries' = map entry_shape entries ∧
  ∀ ap rfid, updateDeviceWirelessRadioSettings ap rfid ∈ news →
    ∃ p pc, (p, pc) ∈ entries' ∧ prof_id pc = Some rfid.

(** The shape of a change-set: everything but the ids of the profiles to
    add. *)
Definition shape (changes : ChangeSet)
    : list (string * string * list (string * list string * Oper * option string)) :=
  map (fun e => (e.1, net_id e.2, map entry_shape (rf e.2))) changes.

(** A dictionary comprehension [{key(x): val(x) for x in l}], on top of
    [m]: later elements overwrite earlier ones. *)
Definition comprehension {A V : Type} (key : A → string) (val : A → V)
    (l : list A) (m : gmap string V) : gmap string V :=
  fold_left (fun m x => <[key x := val x]> m) l m.

(** The network can hold RF profiles. *)
Definition wireless (n : Network) : bool :=
  Py.list_mem "wireless" (productTypes n).

(** What line 102 does to one character of the lower-cased name: a space
    becomes an underscore. *)
Definition filename_char (c : ascii) : ascii :=
  if Ascii.eqb c " "%char then "_"%char else c.

Fixpoint map_string (f : ascii -> ascii) (s : string) : string :=
  match s with
  | EmptyString => EmptyString
  | String c s' => String (f c) (map_string f s')
  end.

Module Sample2.

Definition networks : list Network :=
  [mkNetwork "N1" "Branch-A" ["appliance"; "wireless"];
   mkNetwork "N2" "Warehouse" ["switch"];
   mkNetwork "N3" "BRANCH-a" ["wireless"]].

Definition listing (netid : string) : Reply (list RfProfile) :=
  if String.eqb netid "N1" then Ok [mkRfProfile "legacy" "R1"]
  else if String.eqb netid "N3" then
    Ok [mkRfProfile "legacy" "R7"; mkRfProfile "Legacy" "R8";
        mkRfProfile "legacy" "R9"]
  else APIError "not a wireless network".

Definition snapshot : gmap string Baseline :=
  match getRFProfiles listing networks with
  | Ok current => current
  | _ => ∅
  end.

Definition glob (pattern : string) : list string :=
  if String.eqb pattern "new/*" then
    ["new/legacy.yaml"; "new/notes.txt"; "new/boost.yaml.bak"]
  else [].

Definition load (file : string) : Template :=
  if String.eqb file "new/legacy.yaml" then [("name", "legacy"); ("minBitrate", "12")]
  else if String.eqb file "new/b.yaml" then
    [("name", "5ghz-boost"); ("bandSelectionType", "ap")]
  else [("name", "5ghz-boost")].

Definition loaded : gmap string Template :=
  match read_profiles load ["new/legacy.yaml"; "new/a.yaml"; "new/b.yaml"] ∅ with
  | inr new => new
  | inl _ => ∅
  end.

Definition remote_profiles : list Template :=
  [[("id", "R1"); ("networkId", "N1"); ("name", "Legacy 2GHz"); ("minBitrate", "12")];
   [("id", "R2"); ("networkId", "N1"); ("name", "legacy_2ghz")]].

Definition dump (t : Template) : string :=
  Py.join ";" (map (fun kv => kv.1 +:+ ": " +:+ kv.2) t).

Definition written : gmap string string :=
  match Exporter.writeData (fun _ => true) dump "out" remote_profiles ∅ with
  | Exporter.WriteDone files => files
  | _ => ∅
  end.

End Sample2.

(** * Properties *)

(** ** Strings and dictionaries *)

Lemma split_nonempty sep s : PyStr.split sep s ≠ [].
Proof.
  destruct s as [|c s]; simpl; [done|].
  destruct (Ascii.eqb c sep); [done|].
  by destruct (PyStr.split sep s).
Qed.

Lemma split_strip_nonempty s : split_strip s ≠ [].
Proof.
  unfold split_strip. pose proof (split_nonempty ","%char s).
  by destruct (PyStr.split _ s).
Qed.

Module ODictFacts.
Import ODict.

Section Facts.
Context {V : Type}.
Implicit Types (d : ODict.t V) (k : string) (v : V).

Lemma get_set_eq k v d : get k (set k v d) = Some v.
Proof.
  induction d as [|[k' v'] d IH]; simpl.
  - by rewrite String.eqb_refl.
  - destruct (String.eqb k k') eqn:E; simpl.
    + by rewrite String.eqb_refl.
    + by rewrite E.
Qed.

Lemma get_set_ne k k' v d : k ≠ k' → get k' (set k v d) = get k' d.
Proof.
  intros Hne. induction d as [|[k0 v0] d IH]; simpl.
  - destruct (String.eqb_spec k' k); congruence.
  - destruct (String.eqb_spec k k0) as [->|]; simpl.
    + destruct (String.eqb_spec k' k0); congruence.
    + by rewrite IH.
Qed.

Lemma alter_set f k v d : alter f k (set k v d) = set k (f v) d.
Proof.
  induction d as [|[k' v'] d IH]; simpl.
  - by rewrite String.eqb_refl.
  - destruct (String.eqb k k') eqn:E; simpl.
    + by rewrite String.eqb_refl.
    + by rewrite E, IH.
Qed.

Lemma keys_set_in k v d : k ∈ keys d → keys (set k v d) = keys d.
Proof.
  unfold keys. induction d as [|[k' v'] d IH]; simpl.
  - by intros ?%elem_of_nil.
  - destruct (String.eqb_spec k k') as [->|Hne]; simpl; [done|].
    intros [?|?]%elem_of_cons; [done|]. by rewrite IH.
Qed.

Lemma keys_set_notin k v d : k ∉ keys d → keys (set k v d) = keys d ++ [k].
Proof.
  unfold keys. induction d as [|[k' v'] d IH]; simpl; [done|].
  intros Hn. apply not_elem_of_cons in Hn as [Hne Hn].
  destruct (String.eqb_spec k k'); [done|]. simpl. by rewrite IH.
Qed.

Lemma keys_set_NoDup k v d : NoDup (keys d) → NoDup (keys (set k v d)).
Proof.
  intros Hd. destruct (decide (k ∈ keys d)) as [Hin|Hn].
  - by rewrite keys_set_in.
  - rewrite keys_set_notin by done. apply NoDup_app. split_and!; [done| |].
    + intros x Hx ->%list_elem_of_singleton. done.
    + apply NoDup_singleton.
Qed.

Lemma get_Some_elem k v d : get k d = Some v → (k, v) ∈ d.
Proof.
  induction d as [|[k' v'] d IH]; simpl; [done|].
  destruct (String.eqb_spec k k') as [->|].
  - intros [= ->]. apply elem_of_cons. by left.
  - intros H. apply elem_of_cons. right. auto.
Qed.

Lemma elem_set k v d k' v' :
  (k', v') ∈ set k v d → (k' = k ∧ v' = v) ∨ (k', v') ∈ d.
Proof.
  induction d as [|[k0 v0] d IH]; simpl.
  - intros [= -> ->]%list_elem_of_singleton. by left.
  - destruct (String.eqb_spec k k0) as [->|].
    + intros [[= -> ->]|?]%elem_of_cons; [by left|].
      right. apply elem_of_cons. by right.
    + intros [[= -> ->]|Hin]%elem_of_cons.
      * right. apply elem_of_cons. by left.
      * destruct (IH Hin) as [?|?]; [by left|].
        right. apply elem_of_cons. by right.
Qed.

End Facts.
End ODictFacts.

(** ** The loop body of validateAssignments, branch by branch *)

Section Validation.
Variable current : gmap string Baseline.
Variable new : gmap string Template.

Lemma check_profiles_acc entry rf_profiles bad flag :
  fold_left
    (fun (acc : list Row * bool) (profile : string) =>
       if negb (in_keys profile new) then (acc.1 ++ [entry], true) else acc)
    rf_profiles (bad, flag)
  = (bad ++ replicate (length (missing new rf_profiles)) entry,
     flag || negb (length (missing new rf_profiles) =? 0)%nat).
Proof.
  revert bad flag. induction rf_profiles as [|p ps IH]; intros bad flag; simpl.
  - by rewrite app_nil_r, orb_false_r.
  - destruct (negb (in_keys p new)); simpl.
    + rewrite IH. rewrite <- app_assoc. simpl. by rewrite orb_true_r.
    + apply IH.
Qed.

Lemma check_profiles_spec entry rf_profiles bad :
  check_profiles new entry rf_profiles bad
  = (bad ++ replicate (length (missing new rf_profiles)) entry,
     negb (length (missing new rf_profiles) =? 0)%nat).
Proof. unfold check_profiles. by rewrite check_profiles_acc. Qed.

Lemma store_row_eq target_network base rf_profiles aps updates :
  store_row target_network base rf_profiles aps updates
  = ODict.set target_network
      (mkNetworkChange (base_id base) (row_rf base rf_profiles aps)) updates.
Proof.
  unfold store_row, row_rf.
  generalize (@nil (string * ProfileChange)) as rf0.
  induction rf_profiles as [|p ps IH]; intros rf0; simpl; [done|].
  unfold store_profile at 2. rewrite ODictFacts.alter_set. simpl. apply IH.
Qed.


(** Unknown network: only [bad_network] grows. *)
Lemma validate_entry_unknown st entry :
  current !! PyStr.lower (Network_Name entry) = None →
  validate_entry current new st entry
  = mkVState (good st) (bad_network st ++ [entry]) (bad_profiles st)
      (bad_aps st) (updates st).
Proof. intros H. unfold validate_entry. by rewrite H. Qed.

(** Known network, some profile name unknown. *)
Lemma validate_entry_bad_profiles st entry base :
  current !! PyStr.lower (Network_Name entry) = Some base →
  missing new (split_strip (RF_Profiles entry)) ≠ [] →
  validate_entry current new st entry
  = mkVState (good st) (bad_network st)
      (bad_profiles st
         ++ replicate (length (missing new (split_strip (RF_Profiles entry)))) entry)
      (bad_aps st) (updates st).
Proof.
  intros H Hm. unfold validate_entry. rewrite H, check_profiles_spec.
  destruct (missing new _); [done|]. reflexivity.
Qed.

(** Known network and known profiles: the AP check decides. *)
Lemma validate_entry_known st entry base :
  current !! PyStr.lower (Network_Name entry) = Some base →
  missing new (split_strip (RF_Profiles entry)) = [] →
  validate_entry current new st entry
  = if (1 <? length (split_strip (RF_Profiles entry)))%nat
       && negb (String.eqb (PyStr.lower (first (split_strip (APs entry)))) "none")
    then mkVState (good st) (bad_network st) (bad_profiles st)
           (bad_aps st ++ [entry]) (updates st)
    else mkVState (S (good st)) (bad_network st) (bad_profiles st) (bad_aps st)
           (ODict.set (PyStr.lower (Network_Name entry))
              (mkNetworkChange (base_id base)
                 (row_rf base (split_strip (RF_Profiles entry))
                    (split_strip (APs entry))))
              (updates st)).
Proof.
  intros H Hm. unfold validate_entry.
  rewrite H, check_profiles_spec, Hm. simpl. rewrite app_nil_r.
  unfold PyStr.list_ne_str. simpl.
  destruct (_ && _); [done|]. by rewrite store_row_eq.
Qed.

End Validation.

(** ** The validation loop *)

Section ValidationLoop.
Variable current : gmap string Baseline.
Variable new : gmap string Template.

Lemma validate_loop_app l1 l2 st :
  validate_loop current new (l1 ++ l2) st
  = validate_loop current new l2 (validate_loop current new l1 st).
Proof. apply fold_left_app. Qed.

Lemma bad_network_step st entry :
  bad_network (validate_entry current new st entry)
  = bad_network st ++ (if unknown_network current entry then [entry] else []).
Proof.
  unfold validate_entry, unknown_network, in_keys.
  destruct (current !! _) as [base|]; simpl; [|done].
  rewrite check_profiles_spec.
  repeat (match goal with |- context [if ?b then _ else _] => destruct b end);
    simpl; by rewrite app_nil_r.
Qed.

Lemma bad_network_loop assignments st :
  bad_network (validate_loop current new assignments st)
  = bad_network st ++ List.filter (unknown_network current) assignments.
Proof.
  revert st. induction assignments as [|e l IH]; intros st; simpl.
  - by rewrite app_nil_r.
  - unfold validate_loop in *. simpl. rewrite IH, bad_network_step.
    rewrite <- app_assoc. by destruct (unknown_network current e).
Qed.

(** What a row does to the other variables does not depend on
    [bad_network]. *)
Lemma validate_entry_agree st st' entry :
  agree_off_network st st' →
  agree_off_network (validate_entry current new st entry)
    (validate_entry current new st' entry).
Proof.
  intros (Hg & Hp & Ha & Hu). unfold validate_entry.
  destruct (current !! _) as [base|]; [|by repeat split].
  rewrite !check_profiles_spec, Hp, Ha, Hu, Hg.
  repeat (match goal with |- context [if ?b then _ else _] => destruct b end);
    by repeat split.
Qed.

Lemma validate_loop_agree assignments st st' :
  agree_off_network st st' →
  agree_off_network (validate_loop current new assignments st)
    (validate_loop current new assignments st').
Proof.
  revert st st'. induction assignments as [|e l IH]; intros st st' H; [done|].
  apply IH. by apply validate_entry_agree.
Qed.

(** An accepted row went through every check. *)
Lemma validate_entry_accepted st entry :
  good (validate_entry current new st entry) = S (good st) →
  ∃ base,
    current !! PyStr.lower (Network_Name entry) = Some base ∧
    missing new (split_strip (RF_Profiles entry)) = [] ∧
    validate_entry current new st entry
    = mkVState (S (good st)) (bad_network st) (bad_profiles st) (bad_aps st)
        (ODict.set (PyStr.lower (Network_Name entry))
           (mkNetworkChange (base_id base)
              (row_rf base (split_strip (RF_Profiles entry))
                 (split_strip (APs entry))))
           (updates st)).
Proof.
  destruct (current !! PyStr.lower (Network_Name entry)) as [base|] eqn:Hn.
  - destruct (missing new (split_strip (RF_Profiles entry))) as [|m ms] eqn:Hm.
    + rewrite (validate_entry_known _ _ _ _ base Hn Hm).
      destruct (_ && _); simpl; [lia|]. intros _. by exists base.
    + rewrite (validate_entry_bad_profiles _ _ _ _ base Hn) by (by rewrite Hm).
      simpl. lia.
  - rewrite validate_entry_unknown by done. simpl. lia.
Qed.

Lemma from_baseline_step st entry :
  from_baseline current new (updates st) →
  from_baseline current new (updates (validate_entry current new st entry)).
Proof.
  intros Hinv.
  destruct (current !! PyStr.lower (Network_Name entry)) as [base|] eqn:Hn.
  - destruct (missing new (split_strip (RF_Profiles entry))) as [|m ms] eqn:Hm.
    + rewrite (validate_entry_known _ _ _ _ base Hn Hm).
      destruct (_ && _); simpl; [done|].
      intros n nc [[-> ->]|Hin]%ODictFacts.elem_set; [|by apply Hinv].
      exists base, (split_strip (RF_Profiles entry)), (split_strip (APs entry)).
      split_and!; [done|done|apply split_strip_nonempty|done].
    + by rewrite (validate_entry_bad_profiles _ _ _ _ base Hn) by (by rewrite Hm).
  - by rewrite validate_entry_unknown.
Qed.

Lemma from_baseline_loop assignments st :
  from_baseline current new (updates st) →
  from_baseline current new (updates (validate_loop current new assignments st)).
Proof.
  revert st. induction assignments as [|e l IH]; intros st H; [done|].
  apply IH. by apply from_baseline_step.
Qed.

Lemma row_rf_elem base rf_profiles aps p pc :
  (p, pc) ∈ row_rf base rf_profiles aps →
  p ∈ rf_profiles ∧ pc = classify base aps p.
Proof.
  unfold row_rf.
  assert (∀ rf0 : ODict.t ProfileChange,
    (p, pc) ∈ fold_left
      (fun rf profile => ODict.set profile (classify base aps profile) rf)
      rf_profiles rf0 →
    (p ∈ rf_profiles ∧ pc = classify base aps p) ∨ (p, pc) ∈ rf0) as Hgen.
  { induction rf_profiles as [|q qs IH]; intros rf0; simpl; [by right|].
    intros [[??]|[[-> ->]|?]%ODictFacts.elem_set]%IH; auto.
    - left. split; [|done]. apply elem_of_cons. by right.
    - left. split; [|done]. apply elem_of_cons. by left. }
  intros H. destruct (Hgen [] H) as [?|?%elem_of_nil]; done.
Qed.

(** The keys of the change-set stay distinct. *)
Lemma keys_NoDup_loop assignments st :
  NoDup (ODict.keys (updates st)) →
  NoDup (ODict.keys (updates (validate_loop current new assignments st))).
Proof.
  revert st. induction assignments as [|e l IH]; intros st H; [done|].
  apply IH.
  destruct (current !! PyStr.lower (Network_Name e)) as [base|] eqn:Hn.
  - destruct (missing new (split_strip (RF_Profiles e))) as [|m ms] eqn:Hm.
    + rewrite (validate_entry_known _ _ _ _ base Hn Hm).
      destruct (_ && _); simpl; [done|]. by apply ODictFacts.keys_set_NoDup.
    + by rewrite (validate_entry_bad_profiles _ _ _ _ base Hn) by (by rewrite Hm).
  - by rewrite validate_entry_unknown.
Qed.

End ValidationLoop.

(** ** Claims about validateAssignments *)

(** C1. Two accepted rows for the same network are not merged: storing the
    second row starts the network's entry afresh (line 179), so the profile
    of the first row is gone from the change-set. Here on the rows
    [Branch-A, legacy, none] and [Branch-A, 5ghz-boost, "AP100, AP101"]. *)
Theorem C1_later_row_replaces_entry :
  validateAssignments Sample.current Sample.new
    [Sample.row_legacy; Sample.row_boost] false
  = (None,
     Returned
       [("branch-a",
         mkNetworkChange "N1"
           [("5ghz-boost", mkProfileChange ["AP100"; "AP101"] None add)])]).
Proof. vm_compute. reflexivity. Qed.

(** The same in general: after an accepted row, the entry of its network
    holds the profiles of that row and no other. *)
Lemma accepted_row_entry current new st entry :
  good (validate_entry current new st entry) = S (good st) →
  ∃ base,
    current !! PyStr.lower (Network_Name entry) = Some base ∧
    ODict.get (PyStr.lower (Network_Name entry))
      (updates (validate_entry current new st entry))
    = Some (mkNetworkChange (base_id base)
              (row_rf base (split_strip (RF_Profiles entry))
                 (split_strip (APs entry)))).
Proof.
  intros (base & Hn & _ & ->)%validate_entry_accepted.
  exists base. split; [done|]. simpl. apply ODictFacts.get_set_eq.
Qed.

(** A row with several valid profiles on a valid network is rejected
    exactly when the first element of its AP list is not [none], in any
    letter case. *)
Lemma multi_profile_rejected_iff current new st entry base :
  current !! PyStr.lower (Network_Name entry) = Some base →
  missing new (split_strip (RF_Profiles entry)) = [] →
  1 < length (split_strip (RF_Profiles entry)) →
  bad_aps (validate_entry current new st entry) = bad_aps st ++ [entry]
  ↔ PyStr.lower (first (split_strip (APs entry))) ≠ "none".
Proof.
  intros Hn Hm Hlen. rewrite (validate_entry_known _ _ _ _ base Hn Hm).
  apply Nat.ltb_lt in Hlen. rewrite Hlen. simpl.
  destruct (String.eqb_spec (PyStr.lower (first (split_strip (APs entry)))) "none")
    as [Heq|Hne]; simpl.
  - split; [|done]. intros H. apply (f_equal length) in H.
    rewrite length_app in H. simpl in H. lia.
  - done.
Qed.

(** C2. A row with two valid profiles and an empty APs column is not
    accepted: the split of the empty column is the list whose one element is the empty string,
    whose first element is not [none], so the row is reported as a
    multi-profile AP conflict and, being the only row, ends the run. *)
Theorem C2_empty_aps_column_rejected :
  split_strip (APs Sample.row_two_profiles) = [EmptyString] ∧
  validateAssignments Sample.current Sample.new [Sample.row_two_profiles] true
  = (Some [("Cannot assign multiple profiles to APs", Sample.row_two_profiles)],
     SysExit 1).
Proof. split; vm_compute; reflexivity. Qed.

(** C4, as stated, fails on the empty list: no row is accepted and the
    function returns. *)
Lemma C4_empty_list_returns :
  good (validate_loop Sample.current Sample.new [] vstate0) = 0 ∧
  validateAssignments Sample.current Sample.new [] true = (None, Returned []).
Proof. split; reflexivity. Qed.

(** C4, amended. With at least one input row and none accepted, the run ends
    with exit status 1; with at least one row accepted, the change-set is
    returned, whether or not other rows were rejected; with no input row at
    all, the empty change-set is returned. *)
Theorem C4_exit_when_none_of_some current new assignments show_errors :
  let st := validate_loop current new assignments vstate0 in
  (assignments ≠ [] → good st = 0 →
   (validateAssignments current new assignments show_errors).2 = SysExit 1) ∧
  (0 < good st →
   (validateAssignments current new assignments show_errors).2
   = Returned (updates st)) ∧
  (assignments = [] →
   validateAssignments current new assignments show_errors = (None, Returned [])).
Proof.
  intros st. unfold validateAssignments, validate_finish. fold st.
  split_and!.
  - intros Hne H0. rewrite H0.
    destruct assignments; [done|]. simpl. by destruct show_errors.
  - intros Hpos. destruct (good st =? length assignments)%nat; [done|].
    destruct (Nat.eqb_spec (good st) 0); [lia|]. by destruct show_errors.
  - intros ->. reflexivity.
Qed.

Lemma C4_exit_when_none_of_some_witness :
  (validateAssignments Sample.current Sample.new [Sample.row_elsewhere] true).2
  = SysExit 1 ∧
  (validateAssignments Sample.current Sample.new
     [Sample.row_elsewhere; Sample.row_legacy] true).2
  = Returned
      (updates (validate_loop Sample.current Sample.new
                  [Sample.row_elsewhere; Sample.row_legacy] vstate0)) ∧
  validateAssignments Sample.current Sample.new [] true = (None, Returned []).
Proof.
  split_and!.
  - apply (C4_exit_when_none_of_some Sample.current Sample.new
             [Sample.row_elsewhere] true); [discriminate|reflexivity].
  - apply (C4_exit_when_none_of_some Sample.current Sample.new
             [Sample.row_elsewhere; Sample.row_legacy] true).
    vm_compute. lia.
  - apply (C4_exit_when_none_of_some Sample.current Sample.new [] true).
    reflexivity.
Defined.

(** C7. A row whose lower-cased network name is not in the baseline only
    adds itself, once, to the network-mismatch list: its profile and AP
    columns are not looked at, and the change-set, the count of good rows
    and the other two lists are what they are without the row. *)
Theorem C7_unknown_network_rejected current new entry :
  unknown_network current entry = true →
  (∀ st,
     validate_entry current new st entry
     = mkVState (good st) (bad_network st ++ [entry]) (bad_profiles st)
         (bad_aps st) (updates st)) ∧
  (∀ before after,
     agree_off_network
       (validate_loop current new (before ++ entry :: after) vstate0)
       (validate_loop current new (before ++ after) vstate0) ∧
     bad_network (validate_loop current new (before ++ entry :: after) vstate0)
     = List.filter (unknown_network current) before
       ++ entry :: List.filter (unknown_network current) after ∧
     bad_network (validate_loop current new (before ++ after) vstate0)
     = List.filter (unknown_network current) before
       ++ List.filter (unknown_network current) after).
Proof.
  intros Hunk.
  assert (current !! PyStr.lower (Network_Name entry) = None) as Hn.
  { unfold unknown_network, in_keys in Hunk. by destruct (current !! _). }
  split; [intros st; by apply validate_entry_unknown|].
  intros before after. split_and!.
  - rewrite !validate_loop_app. simpl. apply validate_loop_agree.
    rewrite validate_entry_unknown by done. by repeat split.
  - rewrite bad_network_loop. simpl. rewrite List.filter_app. simpl.
    by rewrite Hunk.
  - rewrite bad_network_loop. simpl. by rewrite List.filter_app.
Qed.

Lemma C7_unknown_network_rejected_witness :
  validate_entry Sample.current Sample.new vstate0 Sample.row_elsewhere
  = mkVState 0 [Sample.row_elsewhere] [] [] [] ∧
  bad_network
    (validate_loop Sample.current Sample.new
       ([Sample.row_legacy] ++ Sample.row_elsewhere :: [Sample.row_boost]) vstate0)
  = [Sample.row_elsewhere].
Proof.
  pose proof (C7_unknown_network_rejected Sample.current Sample.new
                Sample.row_elsewhere eq_refl) as [Hstep Hloop].
  split.
  - apply (Hstep vstate0).
  - apply (Hloop [Sample.row_legacy] [Sample.row_boost]).
Defined.

(** ** Substrings *)

Lemma startswith_spec p s :
  PyStr.startswith p s = true ↔ ∃ post, s = p +:+ post.
Proof.
  revert s. induction p as [|a p IH]; intros s; simpl.
  - split; [by exists s|done].
  - destruct s as [|b s]; simpl.
    + split; [done|]. by intros [post ?].
    + rewrite andb_true_iff, IH. split.
      * intros [Hab [post ->]]. apply Ascii.eqb_eq in Hab as ->. by exists post.
      * intros [post [= -> ->]]. split; [apply Ascii.eqb_refl|by exists post].
Qed.

Lemma contains_spec sub s :
  PyStr.contains sub s = true ↔ is_substring sub s.
Proof.
  unfold is_substring. split.
  - induction s as [|c s IH].
    + simpl. rewrite orb_false_r. intros [post ->]%startswith_spec.
      by exists EmptyString, post.
    + cbn [PyStr.contains]. intros [H|H]%orb_true_iff.
      * apply startswith_spec in H as [post ->]. by exists EmptyString, post.
      * destruct (IH H) as (pre & post & ->). by exists (String c pre), post.
  - intros (pre & post & ->). induction pre as [|c pre IH].
    + assert (PyStr.startswith sub (sub +:+ post) = true) as H
        by (apply startswith_spec; by exists post).
      simpl. destruct (sub +:+ post); simpl; by rewrite H.
    + change (String c pre +:+ sub +:+ post) with (String c (pre +:+ sub +:+ post)).
      cbn [PyStr.contains]. rewrite IH. apply orb_true_r.
Qed.

Lemma wireless_serials_spec response s :
  s ∈ wireless_serials response
  ↔ ∃ d, d ∈ response ∧ serial d = s ∧ is_substring "MR" (model d).
Proof.
  unfold wireless_serials. rewrite list_elem_of_fmap. split.
  - intros (d & -> & Hd). apply list_elem_of_In, List.filter_In in Hd as [Hd Hc].
    exists d. split_and!; [by apply list_elem_of_In|done|by apply contains_spec].
  - intros (d & Hd & <- & Hc). exists d. split; [done|].
    apply list_elem_of_In, List.filter_In. split; [by apply list_elem_of_In|].
    by apply contains_spec.
Qed.

(** ** The steps of upload_profiles *)

Section Upload.
Variable dashboard : Dashboard.
Variable profiles : gmap string Template.

(** The first element of the AP list is [none]: nothing is assigned. *)
Lemma assign_profile_none network netid profile rfid a0 rest st :
  PyStr.lower a0 = "none" →
  assign_profile dashboard network netid profile rfid (a0 :: rest) st = inr st.
Proof. intros H. unfold assign_profile. simpl. by rewrite H. Qed.

(** When no device call fails, every element of the list gets one. *)
Lemma assign_aps_all_ok rfid aps history :
  (∀ h ap, update_radio dashboard h ap rfid = Ok tt) →
  assign_aps dashboard rfid aps history
  = (history ++ map (fun ap => updateDeviceWirelessRadioSettings ap rfid) aps,
     Ok tt).
Proof.
  intros Hok. revert history.
  induction aps as [|ap aps IH]; intros history; simpl.
  - by rewrite app_nil_r.
  - rewrite Hok, IH. by rewrite <- app_assoc.
Qed.

(** The device calls only extend the history. *)
Lemma assign_aps_extends rfid aps history :
  ∃ more, (assign_aps dashboard rfid aps history).1 = history ++ more.
Proof.
  revert history. induction aps as [|ap aps IH]; intros history; simpl.
  - exists []. by rewrite app_nil_r.
  - destruct (update_radio dashboard history ap rfid).
    + destruct (IH (history ++ [updateDeviceWirelessRadioSettings ap rfid]))
        as [more ->].
      eexists. by rewrite <- app_assoc.
    + by eexists.
    + by eexists.
Qed.

(** A client that raises nothing but [APIError] lets the loop end. *)
Lemma assign_aps_no_raise rfid aps history e :
  raises_only_APIError dashboard →
  (assign_aps dashboard rfid aps history).2 ≠ Raises e.
Proof.
  intros (_ & _ & _ & Hr). revert history.
  induction aps as [|ap aps IH]; intros history; simpl; [done|].
  destruct (update_radio dashboard history ap rfid) as [u|m|e'] eqn:E;
    [apply IH|done|].
  by destruct (Hr history ap rfid e').
Qed.

Lemma record_assignment_done network profile errors0 rfid aps history :
  raises_only_APIError dashboard →
  ∃ st', record_assignment network profile errors0
           (assign_aps dashboard rfid aps history) = inr st'.
Proof.
  intros Hr. unfold record_assignment.
  pose proof (fun e => assign_aps_no_raise rfid aps history e Hr) as Hno.
  destruct (assign_aps dashboard rfid aps history).2 as [u|m|e];
    [by eexists|by eexists|by destruct (Hno e)].
Qed.

Lemma assign_profile_done network netid profile rfid aps st :
  raises_only_APIError dashboard →
  aps ≠ [] →
  ∃ st', assign_profile dashboard network netid profile rfid aps st = inr st'.
Proof.
  intros Hr Hne. unfold assign_profile. simpl.
  destruct aps as [|a0 rest]; [done|].
  destruct (String.eqb (PyStr.lower a0) "none"); [by eexists|].
  destruct (String.eqb (PyStr.lower a0) "all").
  - destruct (get_devices dashboard (calls st) netid) as [response|m|e] eqn:E.
    + by apply record_assignment_done.
    + by eexists.
    + destruct Hr as (_ & _ & Hg & _). by destruct (Hg (calls st) netid e).
  - by apply record_assignment_done.
Qed.

Lemma given_twice_networkId (profiledata : Template) :
  given_twice ["networkId"; "rfProfileId"] profiledata = false →
  given_twice ["networkId"] profiledata = false.
Proof.
  unfold given_twice. induction (ODict.keys profiledata) as [|k ks IH]; simpl;
    [done|].
  destruct (String.eqb k "networkId"); simpl; [done|].
  destruct (String.eqb k "rfProfileId"); simpl; [done|]. apply IH.
Qed.

(** With a template that can be passed and a client that raises nothing
    but [APIError], the creation or update of a readable entry is made. *)
Lemma mutate_profile_not_raised history netid profile profiledata pc e :
  readable profiles (profile, pc) →
  profiles !! profile = Some profiledata →
  plain profiles →
  raises_only_APIError dashboard →
  mutate_profile dashboard history netid profiledata pc ≠ MutationRaised e.
Proof.
  intros (_ & _ & Hid) Hp Hplain (Hc & Hu & _). simpl in *.
  pose proof (Hplain profile profiledata Hp) as Hk. simpl in Hk.
  unfold mutate_profile. destruct (oper pc).
  - rewrite (given_twice_networkId _ Hk).
    destruct (create_rf_profile dashboard history netid profiledata) as [i|m|e']
      eqn:E; [done|done|]. by destruct (Hc history netid profiledata e').
  - destruct (Hid eq_refl) as [i ->]. rewrite Hk.
    destruct (update_rf_profile dashboard history netid i profiledata) as [u|m|e']
      eqn:E; [done|done|]. by destruct (Hu history netid i profiledata e').
Qed.

Lemma upload_profile_done network netid profile pc st :
  plain profiles →
  raises_only_APIError dashboard →
  readable profiles (profile, pc) →
  ∃ pc' st', upload_profile dashboard profiles network netid profile pc st
             = Done pc' st'.
Proof.
  intros Hplain Hr Hread. pose proof Hread as ([profiledata Hp] & Haps & Hid).
  simpl in *. unfold upload_profile. rewrite Hp.
  pose proof (fun e => mutate_profile_not_raised (calls st) netid profile
                         profiledata pc e Hread Hp Hplain Hr) as Hm.
  destruct (mutate_profile _ _ _ _ _) as [pc' rfid c|c message|e];
    [|by eexists _, _|by destruct (Hm e)].
  destruct (assign_profile_done network netid profile rfid (aps pc)
              (mkUState (calls st ++ [c]) (errors st)) Hr Haps) as [st' ->].
  by eexists _, _.
Qed.

Lemma upload_rf_done network netid rf st :
  plain profiles →
  raises_only_APIError dashboard →
  Forall (readable profiles) rf →
  ∃ rf' st', upload_rf dashboard profiles network netid rf st = Done rf' st'.
Proof.
  intros Hplain Hr H. revert st.
  induction H as [|[profile pc] rf Hp _ IH]; intros st.
  - by eexists _, _.
  - simpl. destruct (upload_profile_done network netid profile pc st Hplain Hr Hp)
      as (pc' & st1 & ->). simpl.
    destruct (IH st1) as (rf' & st2 & ->). simpl. by eexists _, _.
Qed.

(** On a change-set whose entries are readable, with templates that can be
    passed and a client that raises nothing but [APIError], the run goes
    through all networks. *)
Lemma upload_networks_done changes st :
  plain profiles →
  raises_only_APIError dashboard →
  all_readable profiles changes →
  ∃ changes' st', upload_networks dashboard profiles changes st
                  = Done changes' st'.
Proof.
  intros Hplain Hr H. revert st.
  induction H as [|[network nc] changes Hn _ IH]; intros st.
  - by eexists _, _.
  - simpl in *.
    destruct (upload_rf_done network (net_id nc) (rf nc) st Hplain Hr Hn)
      as (rf' & st1 & ->). simpl.
    destruct (IH st1) as (changes' & st2 & ->). simpl. by eexists _, _.
Qed.

End Upload.

(** The change-set that validation builds is readable against the
    templates. *)
Lemma validate_loop_readable current new assignments :
  all_readable new (updates (validate_loop current new assignments vstate0)).
Proof.
  pose proof (from_baseline_loop current new assignments vstate0) as Hinv.
  apply Forall_forall. intros [n nc] Hin.
  destruct (Hinv ltac:(by intros ?? ?%elem_of_nil) n nc Hin)
    as (base & ps & a & _ & Hm & Ha & ->).
  apply Forall_forall. intros [p pc] [Hp ->]%row_rf_elem.
  unfold readable, classify. simpl. split_and!.
  - unfold missing in Hm.
    assert (negb (in_keys p new) = false) as Hk.
    { destruct (negb (in_keys p new)) eqn:E; [|done].
      assert (In p (List.filter (fun q => negb (in_keys q new)) ps)) as Hf
        by (apply List.filter_In; split; [by apply list_elem_of_In|done]).
      rewrite Hm in Hf. destruct Hf. }
    unfold in_keys in Hk. by destruct (new !! p).
  - by destruct (base_rf base !! p).
  - by destruct (base_rf base !! p).
Qed.

Lemma returned_is_loop_updates current new assignments show_errors u :
  (validateAssignments current new assignments show_errors).2 = Returned u →
  u = updates (validate_loop current new assignments vstate0).
Proof.
  intros H. unfold validateAssignments, validate_finish in H.
  repeat (match type of H with context [if ?b then _ else _] => destruct b end);
    simpl in H; congruence.
Qed.

(** With templates that can be passed and a client that raises nothing but
    [APIError], uploading a validated change-set runs to its end: no failure
    of a call stops it. *)
Lemma upload_validated_done current new assignments show_errors dashboard u :
  plain new →
  raises_only_APIError dashboard →
  (validateAssignments current new assignments show_errors).2 = Returned u →
  ∃ u' st', upload_profiles u new dashboard = Done u' st'.
Proof.
  intros Hplain Hr H. apply upload_networks_done; [done|done|].
  rewrite (returned_is_loop_updates _ _ _ _ _ H). apply validate_loop_readable.
Qed.

(** ** Claims about upload_profiles *)

(** C3. A row with an empty APs column does trigger an assignment call: the
    entry validation stores for it has the empty string as its one AP
    target; that list is neither equal to a string nor headed by [none], so
    [upload_profiles]
    updates the radio settings of a device with the empty serial. *)
Theorem C3_empty_aps_column_assigns :
  (validateAssignments Sample.current Sample.new [Sample.row_no_aps] false).2
  = Returned
      [("branch-a",
        mkNetworkChange "N1"
          [("legacy", mkProfileChange [EmptyString] (Some "R1") update)])] ∧
  res_state
    (upload_profiles
       [("branch-a",
         mkNetworkChange "N1"
           [("legacy", mkProfileChange [EmptyString] (Some "R1") update)])]
       Sample.new Sample.dashboard)
  = inr (mkUState
           [updateNetworkWirelessRfProfile "N1" "R1" [("name", "legacy")];
            updateDeviceWirelessRadioSettings EmptyString "R1"]
           []).
Proof. split; vm_compute; reflexivity. Qed.

(** The sentinel [none], in any letter case, at the head of the AP list:
    the profile is created or updated and no other call is made. *)
Lemma upload_profile_none dashboard profiles network netid profile pc st
    profiledata pc' rfid c a0 rest :
  profiles !! profile = Some profiledata →
  mutate_profile dashboard (calls st) netid profiledata pc = Mutated pc' rfid c →
  aps pc = a0 :: rest →
  PyStr.lower a0 = "none" →
  upload_profile dashboard profiles network netid profile pc st
  = Done pc' (mkUState (calls st ++ [c]) (errors st)).
Proof.
  intros Hp Hm Ha Hnone. unfold upload_profile.
  by rewrite Hp, Hm, Ha, assign_profile_none.
Qed.

(** C8. The head of the AP list is [all], the profile was created or
    updated, and the device listing succeeds but holds no wireless device:
    the step ends normally after the listing call, with no device call and
    no failure recorded. *)
Theorem C8_all_without_wireless_devices dashboard profiles network netid profile
    pc st profiledata pc' rfid c a0 rest response :
  profiles !! profile = Some profiledata →
  mutate_profile dashboard (calls st) netid profiledata pc = Mutated pc' rfid c →
  aps pc = a0 :: rest →
  PyStr.lower a0 = "all" →
  get_devices dashboard (calls st ++ [c]) netid = Ok response →
  wireless_serials response = [] →
  upload_profile dashboard profiles network netid profile pc st
  = Done pc' (mkUState (calls st ++ [c; getNetworkDevices netid]) (errors st)).
Proof.
  intros Hp Hm Ha Hall Hdev Hnone. unfold upload_profile.
  rewrite Hp, Hm, Ha. unfold assign_profile. simpl.
  rewrite Hall, Hdev, Hnone. unfold record_assignment. simpl.
  by rewrite <- app_assoc.
Qed.

Lemma C8_all_without_wireless_devices_witness :
  upload_profile Sample.dashboard_ro Sample.new "branch-a" "N1" "legacy"
    (mkProfileChange ["ALL"] (Some "R1") update) (mkUState [] [])
  = Done (mkProfileChange ["ALL"] (Some "R1") update)
      (mkUState
         [updateNetworkWirelessRfProfile "N1" "R1" [("name", "legacy")];
          getNetworkDevices "N1"]
         []).
Proof.
  apply (C8_all_without_wireless_devices Sample.dashboard_ro Sample.new "branch-a"
           "N1" "legacy" (mkProfileChange ["ALL"] (Some "R1") update)
           (mkUState [] []) [("name", "legacy")]
           (mkProfileChange ["ALL"] (Some "R1") update) "R1"
           (updateNetworkWirelessRfProfile "N1" "R1" [("name", "legacy")])
           "ALL" [] [mkDevice "Q2BB-0002" "MX64"]);
    reflexivity.
Defined.

(** C9, as stated, fails: a device whose model identifier has [MR] inside
    but not in front is selected. *)
Lemma C9_MR_not_in_front :
  wireless_serials [mkDevice "Q2CC-0003" "CW9166I-MR"] = ["Q2CC-0003"] ∧
  PyStr.startswith "MR" (model (mkDevice "Q2CC-0003" "CW9166I-MR")) = false.
Proof. split; reflexivity. Qed.

(** C9, amended. Resolving [all] selects the serials of exactly the listed
    devices whose model identifier contains [MR] somewhere; and when the
    listing succeeds and no device call fails, the calls made are the
    listing and then one radio-settings update per selected serial, in the
    order of the listing. *)
Theorem C9_all_selects_models_containing_MR :
  (∀ response s,
     s ∈ wireless_serials response
     ↔ ∃ d, d ∈ response ∧ serial d = s ∧ is_substring "MR" (model d)) ∧
  (∀ dashboard network netid profile rfid a0 rest st response,
     PyStr.lower a0 = "all" →
     get_devices dashboard (calls st) netid = Ok response →
     (∀ h ap, update_radio dashboard h ap rfid = Ok tt) →
     assign_profile dashboard network netid profile rfid (a0 :: rest) st
     = inr (mkUState
              (calls st ++ getNetworkDevices netid
                 :: map (fun ap => updateDeviceWirelessRadioSettings ap rfid)
                      (wireless_serials response))
              (errors st))).
Proof.
  split; [apply wireless_serials_spec|].
  intros dashboard network netid profile rfid a0 rest st response Hall Hdev Hok.
  unfold assign_profile. simpl. rewrite Hall, Hdev. simpl.
  rewrite assign_aps_all_ok by done. unfold record_assignment. simpl.
  by rewrite <- app_assoc.
Qed.

Lemma C9_all_selects_models_containing_MR_witness :
  ("Q2CC-0003" ∈ wireless_serials Sample.devices
   ↔ ∃ d, d ∈ Sample.devices ∧ serial d = "Q2CC-0003"
          ∧ is_substring "MR" (model d)) ∧
  assign_profile Sample.dashboard "branch-a" "N1" "legacy" "R1" ["all"]
    (mkUState [] [])
  = inr (mkUState
           (getNetworkDevices "N1"
              :: map (fun ap => updateDeviceWirelessRadioSettings ap "R1")
                   (wireless_serials Sample.devices))
           []).
Proof.
  split.
  - apply (proj1 C9_all_selects_models_containing_MR).
  - apply (proj2 C9_all_selects_models_containing_MR Sample.dashboard "branch-a"
             "N1" "legacy" "R1" "all" [] (mkUState [] []) Sample.devices);
      reflexivity.
Defined.

(** * Further properties *)

(** ** validateAssignments: every row is judged once *)

Section MoreValidation.
Variable current : gmap string Baseline.
Variable new : gmap string Template.

(** A row is accepted or leaves the count and the change-set alone; which
    of the two does not depend on the rows before it. *)
Lemma validate_entry_cases st entry :
  (accepted current new entry = true ∧
   ∃ base,
     current !! PyStr.lower (Network_Name entry) = Some base ∧
     missing new (split_strip (RF_Profiles entry)) = [] ∧
     ((1 <? length (split_strip (RF_Profiles entry)))%nat
      && negb (String.eqb (PyStr.lower (first (split_strip (APs entry)))) "none")
      = false) ∧
     good (validate_entry current new st entry) = S (good st) ∧
     updates (validate_entry current new st entry)
     = ODict.set (PyStr.lower (Network_Name entry))
         (mkNetworkChange (base_id base)
            (row_rf base (split_strip (RF_Profiles entry))
               (split_strip (APs entry))))
         (updates st))
  ∨ (accepted current new entry = false ∧
     good (validate_entry current new st entry) = good st ∧
     updates (validate_entry current new st entry) = updates st).
Proof.
  unfold accepted.
  destruct (current !! PyStr.lower (Network_Name entry)) as [base|] eqn:Hn.
  - destruct (missing new (split_strip (RF_Profiles entry))) as [|m ms] eqn:Hm.
    + rewrite !(validate_entry_known _ _ _ _ base Hn Hm).
      destruct (_ && _) eqn:Hc; simpl.
      * by right.
      * left. split; [done|]. by exists base.
    + rewrite !(validate_entry_bad_profiles _ _ _ _ base Hn) by (by rewrite Hm).
      by right.
  - rewrite !validate_entry_unknown by done. by right.
Qed.

Lemma bad_profiles_step st entry :
  bad_profiles (validate_entry current new st entry)
  = bad_profiles st ++ profile_report current new entry.
Proof.
  unfold profile_report, in_keys.
  destruct (current !! PyStr.lower (Network_Name entry)) as [base|] eqn:Hn.
  - destruct (missing new (split_strip (RF_Profiles entry))) as [|m ms] eqn:Hm.
    + rewrite (validate_entry_known _ _ _ _ base Hn Hm).
      destruct (_ && _); simpl; by rewrite app_nil_r.
    + rewrite (validate_entry_bad_profiles _ _ _ _ base Hn) by (by rewrite Hm).
      by rewrite Hm.
  - rewrite validate_entry_unknown by done. simpl. by rewrite app_nil_r.
Qed.

Lemma bad_profiles_loop assignments st :
  bad_profiles (validate_loop current new assignments st)
  = bad_profiles st ++ flat_map (profile_report current new) assignments.
Proof.
  revert st. induction assignments as [|e l IH]; intros st; simpl.
  - by rewrite app_nil_r.
  - unfold validate_loop in *. simpl. rewrite IH, bad_profiles_step.
    by rewrite <- app_assoc.
Qed.

Lemma profile_report_nil entry :
  profile_report current new entry = [] ↔ profile_rejected current new entry = false.
Proof.
  unfold profile_report, profile_rejected.
  destruct (in_keys _ current); simpl; [|done].
  destruct (missing new _); simpl; done.
Qed.

Lemma rows_accounted_step st entry :
  good (validate_entry current new st entry)
  + length (bad_network (validate_entry current new st entry))
  + length (bad_aps (validate_entry current new st entry))
  + (if profile_rejected current new entry then 1 else 0)
  = S (good st + length (bad_network st) + length (bad_aps st)).
Proof.
  unfold profile_rejected, in_keys.
  destruct (current !! PyStr.lower (Network_Name entry)) as [base|] eqn:Hn.
  - destruct (missing new (split_strip (RF_Profiles entry))) as [|m ms] eqn:Hm.
    + rewrite (validate_entry_known _ _ _ _ base Hn Hm).
      destruct (_ && _); simpl; rewrite ?length_app; simpl; lia.
    + rewrite (validate_entry_bad_profiles _ _ _ _ base Hn) by (by rewrite Hm).
      simpl. lia.
  - rewrite validate_entry_unknown by done. simpl. rewrite length_app. simpl. lia.
Qed.

Lemma rows_accounted_from assignments st :
  good (validate_loop current new assignments st)
  + length (bad_network (validate_loop current new assignments st))
  + length (bad_aps (validate_loop current new assignments st))
  + length (List.filter (profile_rejected current new) assignments)
  = good st + length (bad_network st) + length (bad_aps st) + length assignments.
Proof.
  revert st. induction assignments as [|e l IH]; intros st; simpl; [lia|].
  unfold validate_loop in *. simpl.
  pose proof (rows_accounted_step st e) as Hs.
  specialize (IH (validate_entry current new st e)).
  destruct (profile_rejected current new e); simpl; lia.
Qed.

(** X1. Every row is counted once: as good, or in the network-mismatch list,
    or in the AP-conflict list, or among the rows with an unknown profile
    name (which the profile-mismatch list may hold several times). *)
Theorem rows_accounted assignments :
  good (validate_loop current new assignments vstate0)
  + length (bad_network (validate_loop current new assignments vstate0))
  + length (bad_aps (validate_loop current new assignments vstate0))
  + length (List.filter (profile_rejected current new) assignments)
  = length assignments.
Proof. by rewrite rows_accounted_from. Qed.

(** X2. The branch "No issues found!" is taken exactly when the three error
    lists are empty. *)
Theorem no_issues_iff_no_errors assignments :
  good (validate_loop current new assignments vstate0) = length assignments
  ↔ error_table (validate_loop current new assignments vstate0) = [].
Proof.
  pose proof (rows_accounted_from assignments vstate0) as Hacc. simpl in Hacc.
  pose proof (bad_profiles_loop assignments vstate0) as Hbp. simpl in Hbp.
  unfold error_table. rewrite Hbp.
  set (st := validate_loop current new assignments vstate0) in *.
  assert (flat_map (profile_report current new) assignments = []
          ↔ List.filter (profile_rejected current new) assignments = []) as Hrep.
  { clear. induction assignments as [|e l IH]; simpl; [done|].
    pose proof (profile_report_nil e) as He.
    destruct (profile_rejected current new e).
    - split; [|done]. intros [H _]%app_eq_nil. apply He in H. done.
    - rewrite <- IH. destruct He as [_ He]. rewrite He by done. done. }
  split.
  - intros Hg.
    assert (bad_network st = []) as -> by (apply length_zero_iff_nil; lia).
    assert (bad_aps st = []) as -> by (apply length_zero_iff_nil; lia).
    assert (List.filter (profile_rejected current new) assignments = []) as Hf
      by (apply length_zero_iff_nil; lia).
    apply Hrep in Hf as ->. done.
  - intros H. apply app_eq_nil in H as [H1 H2]. apply app_eq_nil in H2 as [H2 H3].
    apply fmap_nil_inv in H1, H2, H3. apply Hrep in H2.
    rewrite H1, H2, H3 in Hacc. simpl in Hacc. lia.
Qed.

Lemma updates_bound_from assignments st :
  length (updates st) ≤ good st → (updates st = [] → good st = 0) →
  length (updates (validate_loop current new assignments st))
  ≤ good (validate_loop current new assignments st) ∧
  (updates (validate_loop current new assignments st) = []
   → good (validate_loop current new assignments st) = 0).
Proof.
  revert st. induction assignments as [|e l IH]; intros st Hle Hnil; [done|].
  apply IH.
  - destruct (validate_entry_cases st e)
      as [(_ & base & _ & _ & _ & -> & ->)|(_ & -> & ->)]; [|done].
    assert (∀ (d : ChangeSet) k v, length (ODict.set k v d) ≤ S (length d)) as Hs.
    { intros d k v. induction d as [|[k' v'] d IHd]; simpl; [lia|].
      destruct (String.eqb k k'); simpl; lia. }
    specialize (Hs (updates st) (PyStr.lower (Network_Name e))
      (mkNetworkChange (base_id base)
         (row_rf base (split_strip (RF_Profiles e)) (split_strip (APs e))))).
    lia.
  - destruct (validate_entry_cases st e)
      as [(_ & base & _ & _ & _ & -> & ->)|(_ & -> & ->)]; [|done].
    intros H. destruct (updates st) as [|[k' v'] d]; simpl in H; [done|].
    by destruct (String.eqb _ k').
Qed.

(** X3. The change-set has at most one entry per accepted row, and when
    validateAssignments returns, the change-set is empty only if there was
    no row at all. *)
Theorem returned_changes_empty_iff assignments show_errors u :
  (validateAssignments current new assignments show_errors).2 = Returned u →
  length u ≤ good (validate_loop current new assignments vstate0) ∧
  (u = [] ↔ assignments = []).
Proof.
  intros H.
  destruct (updates_bound_from assignments vstate0) as [Hle Hnil]; [done..|].
  unfold validateAssignments, validate_finish in H.
  set (st := validate_loop current new assignments vstate0) in *.
  destruct (Nat.eqb_spec (good st) (length assignments)) as [Hg|Hg]; simpl in H.
  - injection H as <-. split; [done|]. split.
    + intros Hu. apply Hnil in Hu. apply length_zero_iff_nil. lia.
    + intros ->. done.
  - destruct (Nat.eqb_spec (good st) 0) as [H0|H0]; simpl in H; [done|].
    injection H as <-. split; [done|]. split.
    + intros Hu. apply Hnil in Hu. done.
    + intros ->. done.
Qed.

End MoreValidation.

Lemma returned_changes_empty_iff_witness :
  length
    [("branch-a",
      mkNetworkChange "N1"
        [("5ghz-boost", mkProfileChange ["AP100"; "AP101"] None add)])]
  ≤ good (validate_loop Sample.current Sample.new
            [Sample.row_elsewhere; Sample.row_boost] vstate0).
Proof.
  apply (returned_changes_empty_iff Sample.current Sample.new
           [Sample.row_elsewhere; Sample.row_boost] false).
  vm_compute. reflexivity.
Defined.

Lemma no_issues_iff_no_errors_witness :
  error_table
    (validate_loop Sample.current Sample.new [Sample.row_legacy; Sample.row_boost]
       vstate0) = [].
Proof.
  apply (proj1 (no_issues_iff_no_errors Sample.current Sample.new
                  [Sample.row_legacy; Sample.row_boost])).
  vm_compute. reflexivity.
Defined.

(** ** validateAssignments: what the change-set holds *)

Lemma row_rf_keys_NoDup base rf_profiles aps :
  NoDup (ODict.keys (row_rf base rf_profiles aps)).
Proof.
  unfold row_rf.
  assert (∀ rf0 : ODict.t ProfileChange, NoDup (ODict.keys rf0) →
    NoDup (ODict.keys
      (fold_left (fun rf profile => ODict.set profile (classify base aps profile) rf)
         rf_profiles rf0))) as Hgen.
  { induction rf_profiles as [|q qs IH]; intros rf0 H; simpl; [done|].
    apply IH. by apply ODictFacts.keys_set_NoDup. }
  apply Hgen. constructor.
Qed.

Lemma row_rf_length base rf_profiles aps :
  length (row_rf base rf_profiles aps) ≤ length rf_profiles.
Proof.
  unfold row_rf.
  assert (∀ rf0 : ODict.t ProfileChange,
    length (fold_left
              (fun rf profile => ODict.set profile (classify base aps profile) rf)
              rf_profiles rf0) ≤ length rf0 + length rf_profiles) as Hgen.
  { induction rf_profiles as [|q qs IH]; intros rf0; simpl; [lia|].
    etransitivity; [apply IH|].
    assert (length (ODict.set q (classify base aps q) rf0) ≤ S (length rf0)).
    { induction rf0 as [|[k' v'] d IHd]; simpl; [lia|].
      destruct (String.eqb q k'); simpl; lia. }
    lia. }
  apply (Hgen []).
Qed.

Lemma missing_nil_in_keys (new : gmap string Template) rf_profiles p :
  missing new rf_profiles = [] → p ∈ rf_profiles → is_Some (new !! p).
Proof.
  unfold missing. intros Hm Hp.
  destruct (negb (in_keys p new)) eqn:E.
  - assert (In p (List.filter (fun q => negb (in_keys q new)) rf_profiles)) as Hf
      by (apply List.filter_In; split; [by apply list_elem_of_In|done]).
    rewrite Hm in Hf. destruct Hf.
  - unfold in_keys in E. by destruct (new !! p).
Qed.

(** X4. Validation lets no unknown name through: the networks of the change-set
    are distinct keys of the baseline and carry the baseline's id; the
    profile names of each network are distinct keys of the templates. *)
Theorem changes_within_baseline_and_templates current new assignments n nc :
  ODict.get n (updates (validate_loop current new assignments vstate0)) = Some nc →
  NoDup (ODict.keys (updates (validate_loop current new assignments vstate0))) ∧
  (∃ base, current !! n = Some base ∧ net_id nc = base_id base) ∧
  NoDup (ODict.keys (rf nc)) ∧
  ∀ p, p ∈ ODict.keys (rf nc) → is_Some (new !! p).
Proof.
  intros Hget. apply ODictFacts.get_Some_elem in Hget.
  destruct (from_baseline_loop current new assignments vstate0) with n nc
    as (base & ps & a & Hb & Hm & _ & ->); [by intros ?? ?%elem_of_nil|done|].
  split_and!.
  - apply keys_NoDup_loop. constructor.
  - by exists base.
  - apply row_rf_keys_NoDup.
  - intros p Hp. unfold ODict.keys in Hp. apply list_elem_of_fmap in Hp
      as [[p' pc] [-> Hin]]. simpl in *.
    apply row_rf_elem in Hin as [Hin _]. by apply (missing_nil_in_keys new ps).
Qed.

Lemma changes_within_baseline_and_templates_witness :
  NoDup (ODict.keys
           (updates (validate_loop Sample.current Sample.new
                       [mkRow "Branch-A" "legacy,5ghz-boost" "none"] vstate0))) ∧
  (∃ base, Sample.current !! "branch-a" = Some base ∧ "N1" = base_id base) ∧
  NoDup ["legacy"; "5ghz-boost"] ∧
  is_Some (Sample.new !! "5ghz-boost").
Proof.
  destruct (changes_within_baseline_and_templates Sample.current Sample.new
              [mkRow "Branch-A" "legacy,5ghz-boost" "none"] "branch-a"
              (mkNetworkChange "N1"
                 [("legacy", mkProfileChange ["none"] (Some "R1") update);
                  ("5ghz-boost", mkProfileChange ["none"] None add)]))
    as (H1 & H2 & H3 & H4).
  - vm_compute. reflexivity.
  - split_and!; [exact H1|exact H2|exact H3|].
    apply (H4 "5ghz-boost"). simpl. apply elem_of_cons. right.
    apply elem_of_cons. by left.
Defined.

(** X5. Of the accepted rows that name one network, the last decides: the
    entry of the network is what that row stores. *)
Theorem last_accepted_row_decides current new before entry after :
  accepted current new entry = true →
  (∀ e, e ∈ after → accepted current new e = true →
        PyStr.lower (Network_Name e) ≠ PyStr.lower (Network_Name entry)) →
  ∃ base,
    current !! PyStr.lower (Network_Name entry) = Some base ∧
    ODict.get (PyStr.lower (Network_Name entry))
      (updates (validate_loop current new (before ++ entry :: after) vstate0))
    = Some (mkNetworkChange (base_id base)
              (row_rf base (split_strip (RF_Profiles entry))
                 (split_strip (APs entry)))).
Proof.
  intros Hacc Hafter. rewrite validate_loop_app. simpl.
  set (st := validate_loop current new before vstate0).
  destruct (validate_entry_cases current new st entry)
    as [(_ & base & Hn & _ & _ & _ & Hu)|(Hno & _)]; [|congruence].
  exists base. split; [done|].
  assert (ODict.get (PyStr.lower (Network_Name entry))
            (updates (validate_entry current new st entry))
          = Some (mkNetworkChange (base_id base)
                    (row_rf base (split_strip (RF_Profiles entry))
                       (split_strip (APs entry))))) as Hget
    by (rewrite Hu; apply ODictFacts.get_set_eq).
  clear Hu. revert Hget. generalize (validate_entry current new st entry) as st1.
  induction after as [|e l IH]; intros st1 Hget; [done|].
  apply IH.
  - intros e' He'. apply Hafter. apply elem_of_cons. by right.
  - destruct (validate_entry_cases current new st1 e)
      as [(Ha & base' & _ & _ & _ & _ & ->)|(_ & _ & ->)]; [|done].
    rewrite ODictFacts.get_set_ne; [done|].
    apply Hafter; [|done]. apply elem_of_cons. by left.
Qed.

Lemma last_accepted_row_decides_witness :
  ∃ base,
    Sample.current !! "branch-a" = Some base ∧
    ODict.get "branch-a"
      (updates (validate_loop Sample.current Sample.new
                  ([Sample.row_legacy] ++ Sample.row_boost
                     :: [Sample.row_two_profiles; Sample.row_elsewhere]) vstate0))
    = Some (mkNetworkChange (base_id base)
              (row_rf base ["5ghz-boost"] ["AP100"; "AP101"])).
Proof.
  apply (last_accepted_row_decides Sample.current Sample.new [Sample.row_legacy]
           Sample.row_boost [Sample.row_two_profiles; Sample.row_elsewhere]).
  - reflexivity.
  - intros e He Hacc. apply elem_of_cons in He as [->|He];
      [vm_compute in Hacc; discriminate|].
    apply list_elem_of_singleton in He as ->. vm_compute in Hacc. discriminate.
Defined.

(** The rows stored keep the rule of line 173. *)
Lemma several_without_aps_loop current new assignments st :
  (∀ n nc, (n, nc) ∈ updates st →
     (∀ p pc q qc, (p, pc) ∈ rf nc → (q, qc) ∈ rf nc → aps pc = aps qc) ∧
     several_without_aps nc) →
  ∀ n nc, (n, nc) ∈ updates (validate_loop current new assignments st) →
    (∀ p pc q qc, (p, pc) ∈ rf nc → (q, qc) ∈ rf nc → aps pc = aps qc) ∧
    several_without_aps nc.
Proof.
  revert st. induction assignments as [|e l IH]; intros st Hinv; [done|].
  apply IH.
  destruct (validate_entry_cases current new st e)
    as [(_ & base & _ & _ & Hc & _ & ->)|(_ & _ & ->)]; [|done].
  intros n nc [[-> ->]|Hin]%ODictFacts.elem_set; [|exact (Hinv n nc Hin)].
  simpl. split.
  - intros p pc q qc Hp Hq.
    apply row_rf_elem in Hp as [_ ->]. apply row_rf_elem in Hq as [_ ->].
    unfold classify. by destruct (base_rf base !! p), (base_rf base !! q).
  - intros Hlen p pc Hin. apply row_rf_elem in Hin as [_ ->]. simpl in Hlen.
    pose proof (row_rf_length base (split_strip (RF_Profiles e))
                  (split_strip (APs e))) as Hle.
    apply andb_false_iff in Hc as [Hc|Hc].
    + apply Nat.ltb_ge in Hc. lia.
    + apply negb_false_iff, String.eqb_eq in Hc.
      unfold classify. by destruct (base_rf base !! p).
Qed.

(** X6. In the change-set, the profiles of one network all carry the same AP
    list, and where a network has several profiles that list is headed by
    [none]: no entry asks to assign access points to more than one
    profile. *)
Theorem several_profiles_carry_no_aps current new assignments n nc :
  ODict.get n (updates (validate_loop current new assignments vstate0)) = Some nc →
  (∀ p pc q qc,
     ODict.get p (rf nc) = Some pc → ODict.get q (rf nc) = Some qc →
     aps pc = aps qc) ∧
  (1 < length (rf nc) →
   ∀ p pc, ODict.get p (rf nc) = Some pc → PyStr.lower (first (aps pc)) = "none").
Proof.
  intros Hget%ODictFacts.get_Some_elem.
  destruct (several_without_aps_loop current new assignments vstate0) with n nc
    as [Hsame Hnone]; [by intros ?? ?%elem_of_nil|done|].
  split.
  - intros p pc q qc Hp%ODictFacts.get_Some_elem Hq%ODictFacts.get_Some_elem.
    by apply (Hsame p pc q qc).
  - intros Hlen p pc Hp%ODictFacts.get_Some_elem. by apply (Hnone Hlen p pc).
Qed.

Lemma several_profiles_carry_no_aps_witness :
  PyStr.lower (first (aps (mkProfileChange ["None"] None add))) = "none".
Proof.
  refine (proj2 (several_profiles_carry_no_aps Sample.current Sample.new
                   [mkRow "Branch-A" "legacy,5ghz-boost" "None"] "branch-a"
                   (mkNetworkChange "N1"
                      [("legacy", mkProfileChange ["None"] (Some "R1") update);
                       ("5ghz-boost", mkProfileChange ["None"] None add)]) _)
            _ "5ghz-boost" (mkProfileChange ["None"] None add) _).
  - vm_compute. reflexivity.
  - simpl. lia.
  - reflexivity.
Defined.

(** ** validateAssignments: what the function ends with *)







Lemma validate_entry_agree_p current new st st' entry :
  agree_off_profiles st st' →
  agree_off_profiles (validate_entry current new st entry)
    (validate_entry current new st' entry).
Proof.
  intros (Hg & Hn & Ha & Hu). unfold validate_entry.
  destruct (current !! _) as [base|]; [|simpl; rewrite Hn; by repeat split].
  rewrite !check_profiles_spec, Hn, Ha, Hu, Hg.
  repeat (match goal with |- context [if ?b then _ else _] => destruct b end);
    by repeat split.
Qed.

Lemma validate_loop_agree_p current new assignments st st' :
  agree_off_profiles st st' →
  agree_off_profiles (validate_loop current new assignments st)
    (validate_loop current new assignments st').
Proof.
  revert st st'. induction assignments as [|e l IH]; intros st st' H; [done|].
  apply IH. by apply validate_entry_agree_p.
Qed.

(** C10. A row with a known network and [k] unknown profile names, [k] at
    least 1, stands [k] times, in a row, in the profile-mismatch list the
    loop ends with, between what the rows before it and the rows after it
    contribute; the count of good rows, the other two lists and the
    change-set are what they are without the row. So the table printed
    holds the row [k] times under "RF Profile Name Mismatch", and the run
    ends as it does without the row: with the same change-set, or with exit
    status 1 when no other row was accepted. *)
Theorem C10_profile_mismatch_once_per_name current new entry base :
  current !! PyStr.lower (Network_Name entry) = Some base →
  1 ≤ length (missing new (split_strip (RF_Profiles entry))) →
  ∀ before after,
    let k := length (missing new (split_strip (RF_Profiles entry))) in
    let with_row := validate_loop current new (before ++ entry :: after) vstate0 in
    let without := validate_loop current new (before ++ after) vstate0 in
    bad_profiles with_row
    = flat_map (profile_report current new) before
      ++ replicate k entry ++ flat_map (profile_report current new) after ∧
    bad_profiles without
    = flat_map (profile_report current new) before
      ++ flat_map (profile_report current new) after ∧
    agree_off_profiles with_row without ∧
    validateAssignments current new (before ++ entry :: after) true
    = (Some
         (map (pair "Network Name Mismatch") (bad_network without)
          ++ map (pair "RF Profile Name Mismatch")
               (flat_map (profile_report current new) before
                ++ replicate k entry
                ++ flat_map (profile_report current new) after)
          ++ map (pair "Cannot assign multiple profiles to APs") (bad_aps without)),
       if (good without =? 0)%nat then SysExit 1 else Returned (updates without)).
Proof.
  intros Hn Hk before after k with_row without.
  assert (profile_report current new entry = replicate k entry) as Hrep.
  { unfold profile_report, in_keys. by rewrite Hn. }
  assert (bad_profiles with_row
          = flat_map (profile_report current new) before
            ++ replicate k entry ++ flat_map (profile_report current new) after)
    as Hwith.
  { unfold with_row. rewrite bad_profiles_loop. simpl.
    rewrite flat_map_app. simpl. by rewrite Hrep. }
  assert (agree_off_profiles with_row without) as Hagree.
  { unfold with_row, without. rewrite !validate_loop_app.
    cbn [validate_loop fold_left]. apply validate_loop_agree_p.
    rewrite (validate_entry_bad_profiles _ _ _ _ base Hn)
      by (intros H; rewrite H in Hk; simpl in Hk; lia).
    by repeat split. }
  split_and!; [done| |done|].
  - unfold without. rewrite bad_profiles_loop. simpl. by rewrite flat_map_app.
  - destruct Hagree as (Hg & Hbn & Hba & Hu).
    unfold validateAssignments, validate_finish. fold with_row.
    pose proof (rows_accounted_from current new (before ++ entry :: after) vstate0)
      as Hacc. fold with_row in Hacc. simpl in Hacc.
    assert (1 ≤ length (List.filter (profile_rejected current new)
                          (before ++ entry :: after))) as Hrej.
    { rewrite List.filter_app, length_app. simpl.
      assert (profile_rejected current new entry = true) as ->.
      { unfold profile_rejected, in_keys. rewrite Hn. simpl.
        destruct (Nat.eqb_spec
                    (length (missing new (split_strip (RF_Profiles entry)))) 0);
          [lia|done]. }
      simpl. lia. }
    destruct (Nat.eqb_spec (good with_row) (length (before ++ entry :: after)))
      as [Heq|_]; [lia|].
    unfold error_table. rewrite Hwith, Hbn, Hba, Hg, Hu.
    by destruct (good without =? 0)%nat.
Qed.

Lemma C10_profile_mismatch_once_per_name_witness :
  bad_profiles
    (validate_loop Sample.current Sample.new
       ([Sample.row_legacy] ++ Sample.row_misspelt :: [Sample.row_boost]) vstate0)
  = [Sample.row_misspelt; Sample.row_misspelt] ∧
  validateAssignments Sample.current Sample.new
    ([Sample.row_legacy] ++ Sample.row_misspelt :: [Sample.row_boost]) true
  = (Some [("RF Profile Name Mismatch", Sample.row_misspelt);
           ("RF Profile Name Mismatch", Sample.row_misspelt)],
     Returned
       [("branch-a",
         mkNetworkChange "N1"
           [("5ghz-boost", mkProfileChange ["AP100"; "AP101"] None add)])]).
Proof.
  assert (1 ≤ length (missing Sample.new
                        (split_strip (RF_Profiles Sample.row_misspelt)))) as Hk
    by (vm_compute; lia).
  destruct (C10_profile_mismatch_once_per_name Sample.current Sample.new
              Sample.row_misspelt (mkBaseline "N1" {[ "legacy" := "R1" ]})
              eq_refl Hk [Sample.row_legacy] [Sample.row_boost])
    as (Hbad & _ & _ & Htable).
  split; [exact Hbad|exact Htable].
Defined.

(** ** The parsing of the list columns *)

Lemma split_no_sep sep s w :
  w ∈ PyStr.split sep s → has_char sep w = false.
Proof.
  revert w. induction s as [|c s IH]; intros w; simpl.
  - by intros ->%list_elem_of_singleton.
  - destruct (Ascii.eqb c sep) eqn:E.
    + intros [->|Hin]%elem_of_cons; [done|by apply IH].
    + pose proof (split_nonempty sep s) as Hne.
      destruct (PyStr.split sep s) as [|w0 ws]; [done|].
      intros [->|Hin]%elem_of_cons.
      * simpl. rewrite E. apply IH. apply elem_of_cons. by left.
      * apply IH. apply elem_of_cons. by right.
Qed.

Lemma lstrip_has_char c s :
  has_char c (PyStr.lstrip s) = true → has_char c s = true.
Proof.
  induction s as [|a s IH]; simpl; [done|].
  destruct (PyStr.isspace a); [|done].
  intros H%IH. rewrite H. apply orb_true_r.
Qed.

Lemma rstrip_has_char c s :
  has_char c (PyStr.rstrip s) = true → has_char c s = true.
Proof.
  induction s as [|a s IH]; simpl; [done|].
  destruct (PyStr.rstrip s) as [|b r].
  - destruct (PyStr.isspace a); simpl; [done|].
    rewrite orb_false_r. intros ->. done.
  - simpl in *. intros [->|H]%orb_true_iff; [done|].
    rewrite IH by done. apply orb_true_r.
Qed.

Lemma rstrip_cons a s :
  PyStr.rstrip (String a s)
  = match PyStr.rstrip s with
    | EmptyString => if PyStr.isspace a then EmptyString else String a EmptyString
    | r => String a r
    end.
Proof. reflexivity. Qed.

Lemma rstrip_idem s : PyStr.rstrip (PyStr.rstrip s) = PyStr.rstrip s.
Proof.
  induction s as [|a s IH]; [done|].
  rewrite rstrip_cons. destruct (PyStr.rstrip s) as [|b r] eqn:E.
  - destruct (PyStr.isspace a) eqn:Ea; [done|].
    rewrite rstrip_cons. simpl. by rewrite Ea.
  - rewrite rstrip_cons, IH. done.
Qed.

Lemma lstrip_rstrip_head s :
  PyStr.lstrip (PyStr.rstrip (PyStr.lstrip s)) = PyStr.rstrip (PyStr.lstrip s).
Proof.
  induction s as [|a s IH]; [done|].
  cbn [PyStr.lstrip]. destruct (PyStr.isspace a) eqn:Ea; [done|].
  rewrite rstrip_cons. destruct (PyStr.rstrip s) as [|b r].
  - rewrite Ea. cbn [PyStr.lstrip]. by rewrite Ea.
  - cbn [PyStr.lstrip]. by rewrite Ea.
Qed.

Lemma strip_idem s : PyStr.strip (PyStr.strip s) = PyStr.strip s.
Proof.
  unfold PyStr.strip. by rewrite lstrip_rstrip_head, rstrip_idem.
Qed.

(** X7. The lists read from the columns [RF Profiles] and [APs] are never
    empty, and none of their elements holds a comma or has white space
    around it. *)
Theorem split_strip_elements s :
  split_strip s ≠ [] ∧
  ∀ w, w ∈ split_strip s →
    has_char ","%char w = false ∧ PyStr.strip w = w.
Proof.
  split; [apply split_strip_nonempty|].
  unfold split_strip. intros w [x [-> Hx]]%list_elem_of_fmap. split.
  - apply split_no_sep in Hx.
    destruct (has_char ","%char (PyStr.strip x)) eqn:E; [|done].
    unfold PyStr.strip in E. apply rstrip_has_char, lstrip_has_char in E.
    congruence.
  - apply strip_idem.
Qed.

Lemma split_strip_elements_witness :
  has_char ","%char "AP101" = false ∧ PyStr.strip "AP101" = "AP101".
Proof.
  apply (proj2 (split_strip_elements " AP100 ,AP101  ") "AP101").
  vm_compute. apply elem_of_cons. right. apply elem_of_cons. by left.
Defined.

(** ** upload_profiles: the assignment loop *)

(** How the loop over the serials runs: either every call is answered and
    all are made, or some call is the first not to be answered, and it is
    the last one made. *)
Lemma assign_aps_trace dashboard rfid aps history :
  ((∀ i ap, aps !! i = Some ap →
      update_radio dashboard
        (history ++ map (fun ap => updateDeviceWirelessRadioSettings ap rfid)
                      (take i aps)) ap rfid = Ok tt) ∧
   assign_aps dashboard rfid aps history
   = (history ++ map (fun ap => updateDeviceWirelessRadioSettings ap rfid) aps,
      Ok tt))
  ∨ ∃ i ap r,
      aps !! i = Some ap ∧
      update_radio dashboard
        (history ++ map (fun ap => updateDeviceWirelessRadioSettings ap rfid)
                      (take i aps)) ap rfid = r ∧
      (∀ u, r ≠ Ok u) ∧
      (∀ j ap', j < i → aps !! j = Some ap' →
         update_radio dashboard
           (history ++ map (fun ap => updateDeviceWirelessRadioSettings ap rfid)
                         (take j aps)) ap' rfid = Ok tt) ∧
      assign_aps dashboard rfid aps history
      = (history ++ map (fun ap => updateDeviceWirelessRadioSettings ap rfid)
                      (take (S i) aps), r).
Proof.
  revert history. induction aps as [|a aps IH]; intros history.
  - left. split; [by intros i ap ?|]. simpl. by rewrite app_nil_r.
  - cbn [assign_aps].
    destruct (update_radio dashboard history a rfid) as [u|m|e] eqn:E.
    + destruct u.
      destruct (IH (history ++ [updateDeviceWirelessRadioSettings a rfid]))
        as [[Hall Hres]|(i & ap & r & Hi & Hr & Hne & Hbefore & Hres)].
      * left. split.
        -- intros [|i] ap Hi; simpl in *.
           ++ injection Hi as <-. by rewrite app_nil_r.
           ++ specialize (Hall i ap Hi). by rewrite <- app_assoc in Hall.
        -- rewrite Hres. simpl. by rewrite <- app_assoc.
      * right. exists (S i), ap, r. split_and!.
        -- done.
        -- rewrite <- app_assoc in Hr. done.
        -- done.
        -- intros [|j] ap' Hj Hap'; simpl in *.
           ++ injection Hap' as <-. by rewrite app_nil_r.
           ++ assert (j < i) as Hlt by lia.
              specialize (Hbefore j ap' Hlt Hap').
              by rewrite <- app_assoc in Hbefore.
        -- rewrite Hres. simpl. by rewrite <- app_assoc.
    + right. exists 0, a, (APIError m). simpl. rewrite app_nil_r.
      split_and!; [done|done|done|intros; lia|done].
    + right. exists 0, a, (Raises e). simpl. rewrite app_nil_r.
      split_and!; [done|done|done|intros; lia|done].
Qed.

(** X8. The loop that assigns a profile to its access points calls the
    dashboard for the serials in the order of the list, each call seeing
    the calls before it, and goes on as long as the calls are answered. If
    all are, every serial has had its call and nothing is recorded. If a
    call raises [APIError], the calls before it were answered, it is the
    last call made, and one failure record with its message is added. If a
    call raises anything else, that exception escapes. *)
Theorem assign_aps_stops_at_first_failure dashboard network profile rfid aps
    history errors0 :
  let call := fun ap => updateDeviceWirelessRadioSettings ap rfid in
  let answer :=
    fun i ap => update_radio dashboard (history ++ map call (take i aps)) ap rfid in
  let ended :=
    record_assignment network profile errors0
      (assign_aps dashboard rfid aps history) in
  ((∀ i ap, aps !! i = Some ap → answer i ap = Ok tt) ∧
   ended = inr (mkUState (history ++ map call aps) errors0))
  ∨ (∃ i ap message,
       aps !! i = Some ap ∧ answer i ap = APIError message ∧
       (∀ j ap', j < i → aps !! j = Some ap' → answer j ap' = Ok tt) ∧
       ended
       = inr (mkUState (history ++ map call (take (S i) aps))
                (errors0 ++ [mkFailure network profile message])))
  ∨ (∃ i ap e,
       aps !! i = Some ap ∧ answer i ap = Raises e ∧
       (∀ j ap', j < i → aps !! j = Some ap' → answer j ap' = Ok tt) ∧
       ended = inl e).
Proof.
  intros call answer ended. subst call answer ended. unfold record_assignment.
  destruct (assign_aps_trace dashboard rfid aps history)
    as [[Hall ->]|(i & ap & r & Hi & Hr & Hne & Hbefore & ->)].
  - left. by split.
  - right. destruct r as [u|message|e]; [by destruct (Hne u)| |].
    + left. by exists i, ap, message.
    + right. by exists i, ap, e.
Qed.

Lemma assign_aps_new_calls dashboard rfid aps history :
  ∃ more,
    (assign_aps dashboard rfid aps history).1 = history ++ more ∧
    ∀ c, c ∈ more → ∃ ap, c = updateDeviceWirelessRadioSettings ap rfid.
Proof.
  revert history. induction aps as [|ap aps IH]; intros history; simpl.
  - exists []. rewrite app_nil_r. split; [done|]. by intros c ?%elem_of_nil.
  - destruct (update_radio dashboard history ap rfid).
    + destruct (IH (history ++ [updateDeviceWirelessRadioSettings ap rfid]))
        as (more & -> & Hm).
      exists (updateDeviceWirelessRadioSettings ap rfid :: more).
      rewrite <- app_assoc. split; [done|].
      intros c [->|Hin]%elem_of_cons; [by exists ap|by apply Hm].
    + exists [updateDeviceWirelessRadioSettings ap rfid]. split; [done|].
      intros c ->%list_elem_of_singleton. by exists ap.
    + exists [updateDeviceWirelessRadioSettings ap rfid]. split; [done|].
      intros c ->%list_elem_of_singleton. by exists ap.
Qed.

(** ** upload_profiles: what one step and the whole run leave behind *)

Section UploadSummary.
Variable dashboard : Dashboard.
Variable profiles : gmap string Template.

Lemma mutate_profile_mutated history netid profile profiledata pc pc' rfid c :
  profiles !! profile = Some profiledata →
  mutate_profile dashboard history netid profiledata pc = Mutated pc' rfid c →
  mutation_call profiles netid (profile, pc) = [c] ∧ is_mutation c = true ∧
  entry_shape (profile, pc') = entry_shape (profile, pc) ∧
  prof_id pc' = Some rfid.
Proof.
  intros Hp. unfold mutate_profile, mutation_call, entry_shape. simpl. rewrite Hp.
  destruct pc as [a i o]; simpl. destruct o.
  - destruct (given_twice _ _); [done|].
    destruct (create_rf_profile _ _ _ _); [|done|done]. by intros [= <- <- <-].
  - destruct i as [i|]; [|done]. destruct (given_twice _ _); [done|].
    destruct (update_rf_profile _ _ _ _ _); [|done|done]. by intros [= <- <- <-].
Qed.

Lemma mutate_profile_failed history netid profile profiledata pc c message :
  profiles !! profile = Some profiledata →
  mutate_profile dashboard history netid profiledata pc = MutationFailed c message →
  mutation_call profiles netid (profile, pc) = [c] ∧ is_mutation c = true.
Proof.
  intros Hp. unfold mutate_profile, mutation_call. simpl. rewrite Hp.
  destruct pc as [a i o]; simpl. destruct o.
  - destruct (given_twice _ _); [done|].
    destruct (create_rf_profile _ _ _ _); [done| |done]. by intros [= <- _].
  - destruct i as [i|]; [|done]. destruct (given_twice _ _); [done|].
    destruct (update_rf_profile _ _ _ _ _); [done| |done]. by intros [= <- _].
Qed.

Lemma record_assignment_summary network profile rfid aps history errors0 st2 :
  record_assignment network profile errors0
    (assign_aps dashboard rfid aps history) = inr st2 →
  ∃ more fs,
    calls st2 = history ++ more ∧ errors st2 = errors0 ++ fs ∧
    (fs = [] ∨ ∃ m, fs = [mkFailure network profile m]) ∧
    ∀ c, c ∈ more → ∃ ap, c = updateDeviceWirelessRadioSettings ap rfid.
Proof.
  destruct (assign_aps_new_calls dashboard rfid aps history) as (more & Hc & Hm).
  unfold record_assignment.
  destruct (assign_aps dashboard rfid aps history) as [cs [u|m|e]]; simpl in *;
    [| |done].
  - intros [= <-]. exists more, []. rewrite app_nil_r. split_and!; eauto.
  - intros [= <-]. exists more, [mkFailure network profile m]. split_and!; eauto.
Qed.

Lemma assign_profile_summary network netid profile rfid aps st st2 :
  assign_profile dashboard network netid profile rfid aps st = inr st2 →
  ∃ more fs,
    calls st2 = calls st ++ more ∧ errors st2 = errors st ++ fs ∧
    (fs = [] ∨ ∃ m, fs = [mkFailure network profile m]) ∧
    ∀ c, c ∈ more →
      is_mutation c = false ∧
      ∀ ap r, c = updateDeviceWirelessRadioSettings ap r → r = rfid.
Proof.
  unfold assign_profile. simpl. destruct aps as [|a0 rest]; [done|].
  destruct (String.eqb (PyStr.lower a0) "none").
  { intros [= <-]. exists [], []. rewrite !app_nil_r.
    split_and!; auto. by intros c ?%elem_of_nil. }
  destruct (String.eqb (PyStr.lower a0) "all").
  - destruct (get_devices dashboard (calls st) netid) as [response|m|e];
      [| |done].
    + intros Hrec.
      destruct (record_assignment_summary network profile rfid
                  (wireless_serials response)
                  (calls st ++ [getNetworkDevices netid]) (errors st) st2 Hrec)
        as (more & fs & Hc & He & Hfs & Hm).
      exists (getNetworkDevices netid :: more), fs.
      rewrite Hc, He, <- app_assoc. split_and!; auto.
      intros c [->|Hin]%elem_of_cons; [done|].
      destruct (Hm c Hin) as [ap ->]. split; [done|]. by intros ?? [= _ ->].
    + intros [= <-]. exists [getNetworkDevices netid], [mkFailure network profile m].
      simpl. split_and!; eauto. by intros c ->%list_elem_of_singleton.
  - intros Hrec.
    destruct (record_assignment_summary network profile rfid (a0 :: rest)
                (calls st) (errors st) st2 Hrec)
      as (more & fs & Hc & He & Hfs & Hm).
    exists more, fs. split_and!; auto.
    intros c Hin. destruct (Hm c Hin) as [ap ->]. split; [done|].
    by intros ?? [= _ ->].
Qed.

Lemma filter_mutation_nil more :
  (∀ c, c ∈ more → is_mutation c = false) → List.filter is_mutation more = [].
Proof.
  induction more as [|c more IH]; intros H; simpl; [done|].
  rewrite (H c) by (apply elem_of_cons; by left).
  apply IH. intros c' Hc'. apply H. apply elem_of_cons. by right.
Qed.

Lemma upload_profile_summary network netid profile pc st pc' st' :
  upload_profile dashboard profiles network netid profile pc st = Done pc' st' →
  ∃ news fs,
    calls st' = calls st ++ news ∧ errors st' = errors st ++ fs ∧
    step_summary network news fs (mutation_call profiles netid (profile, pc))
      [(profile, pc)] [(profile, pc')].
Proof.
  unfold upload_profile.
  destruct (profiles !! profile) as [profiledata|] eqn:Hp; [|done].
  destruct (mutate_profile dashboard (calls st) netid profiledata pc)
    as [pc1 rfid c|c message|e] eqn:Hm; [| |done].
  - destruct (assign_profile dashboard network netid profile rfid (aps pc) _)
      as [e|st2] eqn:Ha; [done|].
    intros [= <- <-].
    apply (mutate_profile_mutated _ _ profile) in Hm as (Hplan & Hc & Hshape & Hid);
      [|done].
    apply assign_profile_summary in Ha as (more & fs & Hcalls & Herr & Hfs & Hmore).
    simpl in Hcalls, Herr.
    exists (c :: more), fs. rewrite Hcalls, Herr, <- app_assoc.
    split_and!; [done|done|]. unfold step_summary. split_and!.
    + simpl. rewrite Hc, Hplan. f_equal. apply filter_mutation_nil.
      intros c' Hc'. by apply Hmore.
    + destruct Hfs as [->|[m ->]]; simpl; [apply sublist_nil_l|done].
    + simpl. by rewrite Hshape.
    + intros ap r [Heq|Hin]%elem_of_cons.
      * subst c. done.
      * exists profile, pc1. split; [apply elem_of_cons; by left|].
        destruct (Hmore _ Hin) as [_ Hr]. by rewrite (Hr ap r eq_refl).
  - intros [= <- <-].
    apply (mutate_profile_failed _ _ profile) in Hm as (Hplan & Hc); [|done].
    exists [c], [mkFailure network profile message]. simpl.
    split_and!; [done|done|]. unfold step_summary. split_and!.
    + simpl. by rewrite Hc, Hplan.
    + done.
    + done.
    + intros ap r Heq%list_elem_of_singleton. subst c. done.
Qed.

Lemma step_summary_nil network : step_summary network [] [] [] [] [].
Proof.
  unfold step_summary. split_and!; try done. by intros ?? ?%elem_of_nil.
Qed.

Lemma step_summary_app network news1 fs1 plan1 es1 es1' news2 fs2 plan2 es2 es2' :
  step_summary network news1 fs1 plan1 es1 es1' →
  step_summary network news2 fs2 plan2 es2 es2' →
  step_summary network (news1 ++ news2) (fs1 ++ fs2) (plan1 ++ plan2)
    (es1 ++ es2) (es1' ++ es2').
Proof.
  intros (Hp1 & Hf1 & Hs1 & Hd1) (Hp2 & Hf2 & Hs2 & Hd2).
  unfold step_summary. split_and!.
  - by rewrite List.filter_app, Hp1, Hp2.
  - rewrite !map_app. by apply sublist_app.
  - by rewrite !map_app, Hs1, Hs2.
  - intros ap r [Hin|Hin]%elem_of_app.
    + destruct (Hd1 ap r Hin) as (p & pc & Hpc & Hid).
      exists p, pc. split; [|done]. apply elem_of_app. by left.
    + destruct (Hd2 ap r Hin) as (p & pc & Hpc & Hid).
      exists p, pc. split; [|done]. apply elem_of_app. by right.
Qed.

Lemma upload_rf_summary network netid rf st rf' st' :
  upload_rf dashboard profiles network netid rf st = Done rf' st' →
  ∃ news fs,
    calls st' = calls st ++ news ∧ errors st' = errors st ++ fs ∧
    step_summary network news fs (flat_map (mutation_call profiles netid) rf)
      rf rf'.
Proof.
  revert st rf' st'. induction rf as [|[profile pc] rf IH]; intros st rf' st'.
  - intros [= <- <-]. exists [], []. rewrite !app_nil_r.
    split_and!; [done|done|apply step_summary_nil].
  - cbn [upload_rf].
    destruct (upload_profile dashboard profiles network netid profile pc st)
      as [pc1 st1|e st1] eqn:H1; [|done]. cbn [res_bind].
    destruct (upload_rf dashboard profiles network netid rf st1)
      as [rf1 st2|e st2] eqn:H2; [|done]. cbn [res_bind].
    intros [= <- <-].
    apply upload_profile_summary in H1 as (n1 & f1 & Hc1 & He1 & Hs1).
    apply IH in H2 as (n2 & f2 & Hc2 & He2 & Hs2).
    exists (n1 ++ n2), (f1 ++ f2).
    rewrite Hc2, Hc1, He2, He1, <- !app_assoc. split_and!; [done|done|].
    apply (step_summary_app network n1 f1 _ [(profile, pc)] [(profile, pc1)]
             n2 f2 _ rf rf1); done.
Qed.

(** The whole run, from any state. *)
Lemma upload_networks_summary changes st changes' st' :
  upload_networks dashboard profiles changes st = Done changes' st' →
  ∃ news fs,
    calls st' = calls st ++ news ∧ errors st' = errors st ++ fs ∧
    List.filter is_mutation news = planned profiles changes ∧
    map (fun f => (network f, profile f)) fs `sublist_of` pairs_of changes ∧
    shape changes' = shape changes ∧
    ∀ ap rfid, updateDeviceWirelessRadioSettings ap rfid ∈ news →
      ∃ n nc p pc, (n, nc) ∈ changes' ∧ (p, pc) ∈ rf nc ∧ prof_id pc = Some rfid.
Proof.
  revert st changes' st'.
  induction changes as [|[network nc] changes IH]; intros st changes' st'.
  - intros [= <- <-]. exists [], []. rewrite !app_nil_r.
    split_and!; try done. by intros ?? ?%elem_of_nil.
  - cbn [upload_networks].
    destruct (upload_rf dashboard profiles network (net_id nc) (rf nc) st)
      as [rf1 st1|e st1] eqn:H1; [|done]. cbn [res_bind].
    destruct (upload_networks dashboard profiles changes st1)
      as [ch1 st2|e st2] eqn:H2; [|done]. cbn [res_bind].
    intros [= <- <-].
    apply upload_rf_summary in H1 as (n1 & f1 & Hc1 & He1 & Hp1 & Hf1 & Hs1 & Hd1).
    apply IH in H2 as (n2 & f2 & Hc2 & He2 & Hp2 & Hf2 & Hs2 & Hd2).
    exists (n1 ++ n2), (f1 ++ f2).
    rewrite Hc2, Hc1, He2, He1, <- !app_assoc. split_and!; try done.
    + unfold planned. simpl. by rewrite List.filter_app, Hp1, Hp2.
    + unfold pairs_of. simpl. rewrite map_app. by apply sublist_app.
    + unfold shape. simpl. unfold shape in Hs2. by rewrite Hs1, Hs2.
    + intros ap r [Hin|Hin]%elem_of_app.
      * destruct (Hd1 ap r Hin) as (p & pc & Hpc & Hid).
        exists network, (mkNetworkChange (net_id nc) rf1), p, pc.
        split_and!; [apply elem_of_cons; by left|done|done].
      * destruct (Hd2 ap r Hin) as (n & nc' & p & pc & Hn & Hpc & Hid).
        exists n, nc', p, pc. split_and!; [apply elem_of_cons; by right|done|done].
Qed.

End UploadSummary.

(** ** upload_profiles: the whole run *)

(** X9. With templates that have no key [networkId] or [rfProfileId] and a
    client that raises nothing but [APIError], a run over a readable
    change-set ends normally whatever the dashboard answers, and the
    creations and updates it has attempted are exactly one per profile
    entry, in the order of the change-set: a creation for an [add], an
    update with the stored id for an [update]. *)
Theorem every_profile_attempted_once dashboard profiles changes :
  plain profiles →
  raises_only_APIError dashboard →
  all_readable profiles changes →
  ∃ changes' st',
    upload_profiles changes profiles dashboard = Done changes' st' ∧
    List.filter is_mutation (calls st') = planned profiles changes.
Proof.
  intros Hplain Hraise Hr. unfold upload_profiles.
  destruct (upload_networks_done dashboard profiles changes (mkUState [] [])
              Hplain Hraise Hr) as (changes' & st' & Hrun).
  exists changes', st'. split; [done|].
  apply upload_networks_summary in Hrun as (news & fs & Hc & _ & Hp & _).
  simpl in Hc. by rewrite Hc.
Qed.

Lemma every_profile_attempted_once_witness :
  ∃ changes' st',
    upload_profiles
      [("branch-a",
        mkNetworkChange "N1"
          [("5ghz-boost", mkProfileChange ["AP100"] None add);
           ("legacy", mkProfileChange ["all"] (Some "R1") update)])]
      Sample.new Sample.dashboard_ro
    = Done changes' st' ∧
    List.filter is_mutation (calls st')
    = [createNetworkWirelessRfProfile "N1" [("name", "5ghz-boost")];
       updateNetworkWirelessRfProfile "N1" "R1" [("name", "legacy")]].
Proof.
  apply (every_profile_attempted_once Sample.dashboard_ro Sample.new
           [("branch-a",
             mkNetworkChange "N1"
               [("5ghz-boost", mkProfileChange ["AP100"] None add);
                ("legacy", mkProfileChange ["all"] (Some "R1") update)])]).
  - apply (bool_decide_unpack _). by vm_compute.
  - by repeat split.
  - repeat constructor; simpl; try done; by eexists.
Defined.

(** X10. The failure records of a run name profile entries of the change-set, in
    its order, and none of them twice: a (network, profile) pair has at
    most one record, whether its creation, its update, the device listing
    or a device assignment failed. *)
Theorem failures_name_profiles_once dashboard profiles changes changes' st' :
  upload_profiles changes profiles dashboard = Done changes' st' →
  map (fun f => (network f, profile f)) (errors st') `sublist_of` pairs_of changes.
Proof.
  intros Hrun. apply upload_networks_summary in Hrun
    as (news & fs & _ & He & _ & Hf & _).
  simpl in He. by rewrite He.
Qed.

Lemma failures_name_profiles_once_witness :
  [("branch-a", "5ghz-boost")]
  `sublist_of` [("branch-a", "5ghz-boost"); ("branch-a", "legacy")].
Proof.
  apply (failures_name_profiles_once Sample.dashboard_ro Sample.new
           [("branch-a",
             mkNetworkChange "N1"
               [("5ghz-boost", mkProfileChange ["AP100"] None add);
                ("legacy", mkProfileChange ["all"] (Some "R1") update)])]
           [("branch-a",
             mkNetworkChange "N1"
               [("5ghz-boost", mkProfileChange ["AP100"] None add);
                ("legacy", mkProfileChange ["all"] (Some "R1") update)])]
           (mkUState
              [createNetworkWirelessRfProfile "N1" [("name", "5ghz-boost")];
               updateNetworkWirelessRfProfile "N1" "R1" [("name", "legacy")];
               getNetworkDevices "N1"]
              [mkFailure "branch-a" "5ghz-boost" "read-only organization"])).
  reflexivity.
Defined.

(** X11. The change-set a run hands back has the networks, ids, profile names,
    AP lists and operations it was given, in the same order, and the ids of
    the profiles to update: only the id of a profile to add may change. *)
Theorem upload_keeps_shape dashboard profiles changes changes' st' :
  upload_profiles changes profiles dashboard = Done changes' st' →
  shape changes' = shape changes.
Proof.
  intros Hrun. by apply upload_networks_summary in Hrun
    as (news & fs & _ & _ & _ & _ & Hs & _).
Qed.

Lemma upload_keeps_shape_witness :
  shape
    [("branch-a",
      mkNetworkChange "N1"
        [("5ghz-boost", mkProfileChange ["AP100"] (Some "R9") add)])]
  = shape
      [("branch-a",
        mkNetworkChange "N1" [("5ghz-boost", mkProfileChange ["AP100"] None add)])].
Proof.
  apply (upload_keeps_shape Sample.dashboard Sample.new
           [("branch-a",
             mkNetworkChange "N1"
               [("5ghz-boost", mkProfileChange ["AP100"] None add)])]
           [("branch-a",
             mkNetworkChange "N1"
               [("5ghz-boost", mkProfileChange ["AP100"] (Some "R9") add)])]
           (mkUState
              [createNetworkWirelessRfProfile "N1" [("name", "5ghz-boost")];
               updateDeviceWirelessRadioSettings "AP100" "R9"]
              [])).
  reflexivity.
Defined.

(** X12. Every device call of a run binds the id that some profile entry of the
    change-set handed back holds: for a profile just created, the id the
    dashboard returned for it. *)
Theorem devices_bound_to_returned_ids dashboard profiles changes changes' st'
    ap rfid :
  upload_profiles changes profiles dashboard = Done changes' st' →
  updateDeviceWirelessRadioSettings ap rfid ∈ calls st' →
  ∃ n nc p pc, (n, nc) ∈ changes' ∧ (p, pc) ∈ rf nc ∧ prof_id pc = Some rfid.
Proof.
  intros Hrun Hin. apply upload_networks_summary in Hrun
    as (news & fs & Hc & _ & _ & _ & _ & Hd).
  simpl in Hc. rewrite Hc in Hin. by apply (Hd ap rfid).
Qed.

Lemma devices_bound_to_returned_ids_witness :
  ∃ n nc p pc,
    (n, nc) ∈ [("branch-a",
                mkNetworkChange "N1"
                  [("5ghz-boost", mkProfileChange ["AP100"] (Some "R9") add)])]
    ∧ (p, pc) ∈ rf nc ∧ prof_id pc = Some "R9".
Proof.
  apply (devices_bound_to_returned_ids Sample.dashboard Sample.new
           [("branch-a",
             mkNetworkChange "N1"
               [("5ghz-boost", mkProfileChange ["AP100"] None add)])]
           [("branch-a",
             mkNetworkChange "N1"
               [("5ghz-boost", mkProfileChange ["AP100"] (Some "R9") add)])]
           (mkUState
              [createNetworkWirelessRfProfile "N1" [("name", "5ghz-boost")];
               updateDeviceWirelessRadioSettings "AP100" "R9"]
              [])
           "AP100" "R9").
  - reflexivity.
  - simpl. apply elem_of_cons. right. apply elem_of_cons. by left.
Defined.

(** ** upload_profiles: a creation or update that fails *)

Section UploadParts.
Variable dashboard : Dashboard.
Variable profiles : gmap string Template.

Lemma upload_rf_app net netid rf1 rf2 st :
  upload_rf dashboard profiles net netid (rf1 ++ rf2) st
  = run (rf1', st1) <- upload_rf dashboard profiles net netid rf1 st in
    run (rf2', st2) <- upload_rf dashboard profiles net netid rf2 st1 in
    Done (rf1' ++ rf2') st2.
Proof.
  revert st. induction rf1 as [|[p pc] rf1 IH]; intros st.
  - simpl. by destruct (upload_rf dashboard profiles net netid rf2 st).
  - cbn [app upload_rf].
    destruct (upload_profile dashboard profiles net netid p pc st)
      as [pc' st1|e st1]; [|done]. cbn [res_bind]. rewrite IH.
    destruct (upload_rf dashboard profiles net netid rf1 st1)
      as [rf1' st2|e st2]; [|done]. cbn [res_bind].
    by destruct (upload_rf dashboard profiles net netid rf2 st2).
Qed.

Lemma upload_networks_app changes1 changes2 st :
  upload_networks dashboard profiles (changes1 ++ changes2) st
  = run (changes1', st1) <- upload_networks dashboard profiles changes1 st in
    run (changes2', st2) <- upload_networks dashboard profiles changes2 st1 in
    Done (changes1' ++ changes2') st2.
Proof.
  revert st. induction changes1 as [|[n nc] changes1 IH]; intros st.
  - simpl. by destruct (upload_networks dashboard profiles changes2 st).
  - cbn [app upload_networks].
    destruct (upload_rf dashboard profiles n (net_id nc) (rf nc) st)
      as [rf' st1|e st1]; [|done]. cbn [res_bind]. rewrite IH.
    destruct (upload_networks dashboard profiles changes1 st1)
      as [changes1' st2|e st2]; [|done]. cbn [res_bind].
    by destruct (upload_networks dashboard profiles changes2 st2).
Qed.

(** A failed creation or update ends the step at once. *)
Lemma upload_profile_failed net netid prof pc st profiledata c message :
  profiles !! prof = Some profiledata →
  mutate_profile dashboard (calls st) netid profiledata pc
  = MutationFailed c message →
  upload_profile dashboard profiles net netid prof pc st
  = Done pc (mkUState (calls st ++ [c])
               (errors st ++ [mkFailure net prof message])).
Proof. intros Hp Hm. unfold upload_profile. by rewrite Hp, Hm. Qed.

End UploadParts.

Lemma filter_pair_absent (fs : list Failure) (l : list (string * string)) x :
  map (fun f => (network f, profile f)) fs `sublist_of` l →
  x ∉ l →
  List.filter (fun f => bool_decide ((network f, profile f) = x)) fs = [].
Proof.
  intros Hsub Hx. induction fs as [|f fs IH]; simpl; [done|].
  rewrite bool_decide_eq_false_2.
  - apply IH. etransitivity; [|exact Hsub]. simpl. by apply sublist_cons.
  - intros Heq. apply Hx.
    apply (elem_of_submseteq
             (map (fun f' => (network f', profile f')) (f :: fs)));
      [|by apply sublist_submseteq].
    simpl. rewrite Heq. apply elem_of_cons. by left.
Qed.

(** C6. The run has come to a profile entry, and the creation or update call
    for it raises [APIError]. Then, with templates that have no key
    [networkId] or [rfProfileId], a client that raises nothing but
    [APIError] and readable entries after this one, the run is not aborted:
    it ends normally and hands the whole change-set back, this entry
    unchanged. The failed call is the only call made for the entry, so no
    access point is assigned for it, and one failure record with the
    network, the profile and the message is appended for it. What follows
    is the processing of the later profiles of the network and then of the
    later networks, from that state: each of them gets its creation or
    update call, and the failure records added later name later entries
    only. When no (network, profile) pair occurs twice in the change-set,
    the final failure list holds exactly one record for the pair. *)
Theorem C6_failed_mutation_isolated_in_run dashboard profiles nets_before net netid
    rf_before prof pc rf_after nets_after nets_before' st_net rf_before' st_at
    profiledata c message :
  let changes :=
    nets_before
    ++ (net, mkNetworkChange netid (rf_before ++ (prof, pc) :: rf_after))
    :: nets_after in
  let st_fail :=
    mkUState (calls st_at ++ [c]) (errors st_at ++ [mkFailure net prof message]) in
  plain profiles →
  raises_only_APIError dashboard →
  Forall (readable profiles) rf_after →
  all_readable profiles nets_after →
  upload_networks dashboard profiles nets_before (mkUState [] [])
  = Done nets_before' st_net →
  upload_rf dashboard profiles net netid rf_before st_net = Done rf_before' st_at →
  profiles !! prof = Some profiledata →
  mutate_profile dashboard (calls st_at) netid profiledata pc
  = MutationFailed c message →
  ∃ rf_after' st_mid nets_after' st' rest_calls rest_errors,
    upload_profile dashboard profiles net netid prof pc st_at = Done pc st_fail ∧
    upload_rf dashboard profiles net netid rf_after st_fail
    = Done rf_after' st_mid ∧
    upload_networks dashboard profiles nets_after st_mid = Done nets_after' st' ∧
    upload_profiles changes profiles dashboard
    = Done (nets_before'
            ++ (net, mkNetworkChange netid (rf_before' ++ (prof, pc) :: rf_after'))
            :: nets_after') st' ∧
    calls st' = calls st_at ++ c :: rest_calls ∧
    errors st' = errors st_at ++ mkFailure net prof message :: rest_errors ∧
    List.filter is_mutation rest_calls
    = flat_map (mutation_call profiles netid) rf_after ++ planned profiles nets_after ∧
    map (fun f => (network f, profile f)) rest_errors
      `sublist_of` (map (fun pe => (net, pe.1)) rf_after ++ pairs_of nets_after) ∧
    (NoDup (pairs_of changes) →
     List.filter (fun f => bool_decide ((network f, profile f) = (net, prof)))
       (errors st')
     = [mkFailure net prof message]).
Proof.
  intros changes st_fail Hplain Hraise Hrf Hnets Hbefore Hrfb Hp Hm.
  pose proof (upload_profile_failed dashboard profiles net netid prof pc st_at
                profiledata c message Hp Hm) as Hstep. fold st_fail in Hstep.
  destruct (upload_rf_done dashboard profiles net netid rf_after st_fail
              Hplain Hraise Hrf) as (rf_after' & st_mid & Hafter).
  destruct (upload_networks_done dashboard profiles nets_after st_mid
              Hplain Hraise Hnets) as (nets_after' & st' & Hrest).
  pose proof Hafter as (n1 & f1 & Hc1 & He1 & Hp1 & Hf1 & _)%upload_rf_summary.
  pose proof Hrest
    as (n2 & f2 & Hc2 & He2 & Hp2 & Hf2 & _)%upload_networks_summary.
  pose proof Hbefore
    as (n0 & f0 & Hc0 & He0 & _ & Hf0 & _)%upload_networks_summary.
  pose proof Hrfb as (n3 & f3 & Hc3 & He3 & _ & Hf3 & _)%upload_rf_summary.
  simpl in Hc1, He1, He0.
  exists rf_after', st_mid, nets_after', st', (n1 ++ n2), (f1 ++ f2).
  assert (errors st'
          = errors st_at ++ mkFailure net prof message :: f1 ++ f2) as Herr.
  { rewrite He2, He1, <- !app_assoc. done. }
  split_and!; [done|done|done| | |done| | |].
  - unfold upload_profiles, changes. rewrite upload_networks_app, Hbefore.
    cbn [res_bind upload_networks net_id rf].
    rewrite upload_rf_app, Hrfb. cbn [res_bind upload_rf].
    rewrite Hstep. cbn [res_bind]. rewrite Hafter. cbn [res_bind].
    rewrite Hrest. cbn [res_bind]. done.
  - rewrite Hc2, Hc1, <- !app_assoc. done.
  - by rewrite List.filter_app, Hp1, Hp2.
  - rewrite map_app. by apply sublist_app.
  - intros Hnd. rewrite Herr, He3, He0. simpl.
    assert (pairs_of changes
            = pairs_of nets_before
              ++ map (fun pe => (net, pe.1)) rf_before
              ++ (net, prof)
                 :: (map (fun pe => (net, pe.1)) rf_after ++ pairs_of nets_after))
      as Hpairs.
    { unfold changes, pairs_of. rewrite flat_map_app. cbn [flat_map fst snd rf].
      rewrite map_app. cbn [map fst]. by rewrite <- !app_assoc. }
    rewrite Hpairs in Hnd.
    apply NoDup_app in Hnd as (_ & Hout & Hnd).
    apply NoDup_app in Hnd as (_ & Hin & Hnd).
    apply NoDup_cons in Hnd as [Hlater _].
    assert (List.filter
              (fun f => bool_decide ((network f, profile f) = (net, prof))) f0 = [])
      as H0.
    { apply (filter_pair_absent f0 (pairs_of nets_before)); [done|].
      intros H. apply (Hout _ H). apply elem_of_app. right.
      apply elem_of_cons. by left. }
    assert (List.filter
              (fun f => bool_decide ((network f, profile f) = (net, prof))) f3 = [])
      as H3.
    { apply (filter_pair_absent f3 (map (fun pe => (net, pe.1)) rf_before));
        [done|].
      intros H. apply (Hin _ H). apply elem_of_cons. by left. }
    assert (List.filter
              (fun f => bool_decide ((network f, profile f) = (net, prof))) f1 = [])
      as H1.
    { apply (filter_pair_absent f1 (map (fun pe => (net, pe.1)) rf_after));
        [done|].
      intros H. apply Hlater. apply elem_of_app. by left. }
    assert (List.filter
              (fun f => bool_decide ((network f, profile f) = (net, prof))) f2 = [])
      as H2.
    { apply (filter_pair_absent f2 (pairs_of nets_after)); [done|].
      intros H. apply Hlater. apply elem_of_app. by right. }
    rewrite !List.filter_app. cbn [List.filter].
    rewrite bool_decide_eq_true_2 by done.
    rewrite List.filter_app, H0, H3, H1, H2. done.
Qed.

Lemma C6_failed_mutation_isolated_in_run_witness :
  ∃ changes' st',
    upload_profiles
      ([("branch-a",
         mkNetworkChange "N1"
           [("legacy", mkProfileChange ["none"] (Some "R1") update)])]
       ++ ("branch-b",
           mkNetworkChange "N2"
             ([] ++ ("5ghz-boost", mkProfileChange ["AP100"] None add)
                 :: [("legacy", mkProfileChange ["all"] (Some "R7") update)]))
       :: [("branch-c",
            mkNetworkChange "N3"
              [("5ghz-boost", mkProfileChange ["none"] (Some "R8") update)])])
      Sample.new Sample.dashboard_ro
    = Done changes' st' ∧
    List.filter
      (fun f => bool_decide ((network f, profile f) = ("branch-b", "5ghz-boost")))
      (errors st')
    = [mkFailure "branch-b" "5ghz-boost" "read-only organization"] ∧
    ∃ rest_calls,
      calls st'
      = [updateNetworkWirelessRfProfile "N1" "R1" [("name", "legacy")]]
        ++ createNetworkWirelessRfProfile "N2" [("name", "5ghz-boost")]
        :: rest_calls ∧
      List.filter is_mutation rest_calls
      = [updateNetworkWirelessRfProfile "N2" "R7" [("name", "legacy")];
         updateNetworkWirelessRfProfile "N3" "R8" [("name", "5ghz-boost")]].
Proof.
  destruct (C6_failed_mutation_isolated_in_run Sample.dashboard_ro Sample.new
              [("branch-a",
                mkNetworkChange "N1"
                  [("legacy", mkProfileChange ["none"] (Some "R1") update)])]
              "branch-b" "N2" []
              "5ghz-boost" (mkProfileChange ["AP100"] None add)
              [("legacy", mkProfileChange ["all"] (Some "R7") update)]
              [("branch-c",
                mkNetworkChange "N3"
                  [("5ghz-boost", mkProfileChange ["none"] (Some "R8") update)])]
              [("branch-a",
                mkNetworkChange "N1"
                  [("legacy", mkProfileChange ["none"] (Some "R1") update)])]
              (mkUState
                 [updateNetworkWirelessRfProfile "N1" "R1" [("name", "legacy")]] [])
              []
              (mkUState
                 [updateNetworkWirelessRfProfile "N1" "R1" [("name", "legacy")]] [])
              [("name", "5ghz-boost")]
              (createNetworkWirelessRfProfile "N2" [("name", "5ghz-boost")])
              "read-only organization")
    as (rf_after' & st_mid & nets_after' & st' & rest_calls & rest_errors
        & _ & _ & _ & Hrun & Hcalls & _ & Hplan & _ & Hone).
  - apply (bool_decide_unpack _). by vm_compute.
  - by repeat split.
  - repeat constructor; simpl; try done; by eexists.
  - repeat constructor; simpl; try done; by eexists.
  - reflexivity.
  - reflexivity.
  - reflexivity.
  - reflexivity.
  - eexists _, st'. split_and!.
    + exact Hrun.
    + apply Hone. apply (bool_decide_unpack _). by vm_compute.
    + exists rest_calls. split; [exact Hcalls|exact Hplan].
Defined.

(** ** Validation and upload together *)

Lemma upload_profile_none_calls dashboard profiles network netid profile pc st
    pc' st' :
  upload_profile dashboard profiles network netid profile pc st = Done pc' st' →
  PyStr.lower (first (aps pc)) = "none" →
  calls st' = calls st ++ mutation_call profiles netid (profile, pc).
Proof.
  unfold upload_profile.
  destruct (profiles !! profile) as [profiledata|] eqn:Hp; [|done].
  destruct (mutate_profile dashboard (calls st) netid profiledata pc)
    as [pc1 rfid c|c message|e] eqn:Hm; [| |done].
  - apply (mutate_profile_mutated _ profiles _ _ profile) in Hm as (-> & _);
      [|done].
    destruct (aps pc) as [|a0 rest]; [done|]. simpl.
    intros Hdone Hnone. rewrite assign_profile_none in Hdone by done.
    by injection Hdone as _ <-.
  - apply (mutate_profile_failed _ profiles _ _ profile) in Hm as (-> & _);
      [|done].
    by intros [= _ <-] _.
Qed.

(** X13. For a network to which validation gave several profiles, an upload
    of its profiles that runs to its end has made the creation or update
    call of each of these profiles, in their order, and no other call: it
    has neither listed the devices of the network nor assigned a profile to
    any. *)
Theorem several_profiles_only_mutate current new assignments dashboard n nc st
    rf' st' :
  ODict.get n (updates (validate_loop current new assignments vstate0)) = Some nc →
  1 < length (rf nc) →
  upload_rf dashboard new n (net_id nc) (rf nc) st = Done rf' st' →
  calls st' = calls st ++ flat_map (mutation_call new (net_id nc)) (rf nc).
Proof.
  intros Hget Hlen.
  apply ODictFacts.get_Some_elem in Hget.
  destruct (several_without_aps_loop current new assignments vstate0) with n nc
    as [_ Hsev]; [by intros ?? ?%elem_of_nil|done|].
  pose proof (Hsev Hlen) as Hall.
  clear Hsev Hget Hlen. revert st rf'.
  induction (rf nc) as [|[p pc] d IH]; intros st rf'.
  - intros [= _ <-]. simpl. by rewrite app_nil_r.
  - cbn [upload_rf].
    destruct (upload_profile dashboard new n (net_id nc) p pc st)
      as [pc1 st1|e st1] eqn:Hstep; [|done]. cbn [res_bind].
    destruct (upload_rf dashboard new n (net_id nc) d st1)
      as [d1 st2|e st2] eqn:Hrest; [|done]. cbn [res_bind].
    intros [= _ <-].
    apply upload_profile_none_calls in Hstep;
      [|apply (Hall p pc); apply elem_of_cons; by left].
    apply IH in Hrest.
    + rewrite Hrest, Hstep, <- app_assoc. done.
    + intros q qc Hin. apply (Hall q qc). apply elem_of_cons. by right.
Qed.

Lemma several_profiles_only_mutate_witness :
  calls
    (mkUState
       [updateNetworkWirelessRfProfile "N1" "R1" [("name", "legacy")];
        createNetworkWirelessRfProfile "N1" [("name", "5ghz-boost")]] [])
  = calls (mkUState [] [])
    ++ flat_map (mutation_call Sample.new "N1")
         [("legacy", mkProfileChange ["none"] (Some "R1") update);
          ("5ghz-boost", mkProfileChange ["none"] None add)].
Proof.
  apply (several_profiles_only_mutate Sample.current Sample.new
           [mkRow "Branch-A" "legacy,5ghz-boost" "none"] Sample.dashboard
           "branch-a"
           (mkNetworkChange "N1"
              [("legacy", mkProfileChange ["none"] (Some "R1") update);
               ("5ghz-boost", mkProfileChange ["none"] None add)])
           (mkUState [] [])
           [("legacy", mkProfileChange ["none"] (Some "R1") update);
            ("5ghz-boost", mkProfileChange ["none"] (Some "R9") add)]
           (mkUState
              [updateNetworkWirelessRfProfile "N1" "R1" [("name", "legacy")];
               createNetworkWirelessRfProfile "N1" [("name", "5ghz-boost")]] [])).
  - vm_compute. reflexivity.
  - simpl. lia.
  - reflexivity.
Defined.

Lemma read_rows_raises assignments e :
  read_rows assignments = inl e →
  ∃ before entry after,
    assignments = before ++ entry :: after ∧
    (∀ r, r ∈ before → ∃ row, read_row r = inr row) ∧
    read_row entry = inl e.
Proof.
  induction assignments as [|r l IH]; simpl; [done|].
  destruct (read_row r) as [e'|row] eqn:Hr.
  - intros [= ->]. exists [], r, l. split_and!; [done| |done].
    by intros r' ?%elem_of_nil.
  - destruct (read_rows l) as [e'|rows]; [|done].
    intros [= ->]. destruct (IH eq_refl) as (before & entry & after & -> & Hb & He).
    exists (r :: before), entry, after. split_and!; [done| |done].
    intros r' [->|Hin]%elem_of_cons; [by exists row|by apply Hb].
Qed.

Lemma read_row_raises entry e :
  read_row entry = inl e →
  e = AttributeError
  ∨ e = KeyError "RF Profiles" ∨ e = KeyError "APs" ∨ e = KeyError "Network Name".
Proof.
  unfold read_row, text_of.
  destruct (ODict.get "RF Profiles" entry) as [[t1|]|];
    [|intros [= <-]; by left|intros [= <-]; right; by left].
  destruct (ODict.get "APs" entry) as [[t2|]|];
    [|intros [= <-]; by left|intros [= <-]; right; right; by left].
  destruct (ODict.get "Network Name" entry) as [[t3|]|];
    [done|intros [= <-]; by left|intros [= <-]; right; right; by right].
Qed.

(** X14. From the reading of the rows on, with templates that have no key
    [networkId] or [rfProfileId] and a client that raises nothing but
    [APIError], [main] ends in one of these ways: with the [KeyError] or
    [AttributeError] of the first row that lacks a column or a value in it;
    with exit status 1 because there were rows and none was accepted; with
    exit status 1 because the operator declined; or with the upload of the
    validated change-set run to its end, its shape unchanged. *)
Theorem main_from_csv_ends rf_profiles new_profiles assignments show_errors ready
    dashboard :
  plain new_profiles →
  raises_only_APIError dashboard →
  match main_from_csv rf_profiles new_profiles assignments show_errors ready
          dashboard with
  | inl e =>
      (e = AttributeError
       ∨ e = KeyError "RF Profiles" ∨ e = KeyError "APs"
       ∨ e = KeyError "Network Name") ∧
      ∃ before entry after,
        assignments = before ++ entry :: after ∧
        (∀ r, r ∈ before → ∃ row, read_row r = inr row) ∧
        read_row entry = inl e
  | inr (SysExit status) =>
      status = 1%Z ∧
      ∃ rows,
        read_rows assignments = inr rows ∧
        ((rows ≠ []
          ∧ good (validate_loop rf_profiles new_profiles rows vstate0) = 0)
         ∨ ready = false)
  | inr (Returned r) =>
      ready = true ∧
      ∃ rows changes' st',
        read_rows assignments = inr rows ∧
        r = Done changes' st' ∧
        shape changes'
        = shape (updates (validate_loop rf_profiles new_profiles rows vstate0))
  end.
Proof.
  intros Hplain Hraise. unfold main_from_csv.
  destruct (read_rows assignments) as [e|rows] eqn:Hrows.
  - destruct (read_rows_raises _ _ Hrows) as (before & entry & after & H1 & H2 & H3).
    split; [by apply (read_row_raises entry)|]. by exists before, entry, after.
  - unfold main_apply.
    destruct (validateAssignments rf_profiles new_profiles rows show_errors).2
      as [u|status] eqn:Hv.
    + destruct ready; simpl.
      * split; [done|].
        destruct (upload_validated_done rf_profiles new_profiles rows
                    show_errors dashboard u Hplain Hraise Hv)
          as (changes' & st' & Hrun).
        exists rows, changes', st'. split_and!; [done|done|].
        pose proof Hrun as Hsum. apply upload_networks_summary in Hsum
          as (_ & _ & _ & _ & _ & _ & -> & _).
        by rewrite (returned_is_loop_updates _ _ _ _ _ Hv).
      * split; [done|]. exists rows. split; [done|]. by right.
    + unfold validateAssignments, validate_finish in Hv.
      destruct (Nat.eqb_spec
                  (good (validate_loop rf_profiles new_profiles rows vstate0))
                  (length rows)) as [Hg|Hg]; simpl in Hv; [done|].
      destruct (Nat.eqb_spec
                  (good (validate_loop rf_profiles new_profiles rows vstate0))
                  0) as [H0|H0]; simpl in Hv; [|done].
      injection Hv as <-. split; [done|]. exists rows. split; [done|].
      left. split; [|done]. intros ->. simpl in Hg. done.
Qed.

Lemma main_from_csv_ends_witness :
  match main_from_csv Sample.current Sample.new
          [[("Network Name", Some "Branch-A"); ("RF Profiles", Some "legacy");
            ("APs", None)]]
          true true Sample.dashboard with
  | inl e =>
      (e = AttributeError
       ∨ e = KeyError "RF Profiles" ∨ e = KeyError "APs"
       ∨ e = KeyError "Network Name") ∧
      ∃ before entry after,
        [[("Network Name", Some "Branch-A"); ("RF Profiles", Some "legacy");
          ("APs", None)]] = before ++ entry :: after ∧
        (∀ r, r ∈ before → ∃ row, read_row r = inr row) ∧
        read_row entry = inl e
  | inr _ => False
  end.
Proof.
  pose proof (main_from_csv_ends Sample.current Sample.new
                [[("Network Name", Some "Branch-A"); ("RF Profiles", Some "legacy");
                  ("APs", None)]]
                true true Sample.dashboard) as H.
  assert (plain Sample.new) as Hplain
    by (apply (bool_decide_unpack _); by vm_compute).
  assert (raises_only_APIError Sample.dashboard) as Hraise by (by repeat split).
  exact (H Hplain Hraise).
Defined.

(** ** Dictionaries built by a comprehension *)

Section Comprehension.
Context {A V : Type} (key : A → string) (val : A → V).

Lemma comprehension_cons x l (m : gmap string V) :
  comprehension key val (x :: l) m
  = comprehension key val l (<[key x := val x]> m).
Proof. reflexivity. Qed.

Lemma comprehension_keys l (m : gmap string V) k :
  is_Some (comprehension key val l m !! k)
  ↔ is_Some (m !! k) ∨ ∃ x, x ∈ l ∧ key x = k.
Proof.
  revert m. induction l as [|x l IH]; intros m.
  - simpl. split; [by left|]. intros [?|(x & ?%elem_of_nil & _)]; done.
  - rewrite comprehension_cons, IH, lookup_insert_is_Some. split.
    + intros [[Hk|[_ ?]]|(y & Hy & Hk)].
      * right. exists x. split; [apply elem_of_cons; by left|done].
      * by left.
      * right. exists y. split; [apply elem_of_cons; by right|done].
    + intros [?|(y & Hy & Hk)].
      * left. destruct (decide (key x = k)); [by left|by right].
      * apply elem_of_cons in Hy as [->|Hy]; [left; by left|].
        right. by exists y.
Qed.

Lemma comprehension_frame l (m : gmap string V) k :
  (∀ x, x ∈ l → key x ≠ k) → comprehension key val l m !! k = m !! k.
Proof.
  revert m. induction l as [|x l IH]; intros m H; [done|].
  rewrite comprehension_cons, IH.
  - apply lookup_insert_ne. apply H. apply elem_of_cons. by left.
  - intros y Hy. apply H. apply elem_of_cons. by right.
Qed.

Lemma comprehension_last before x after (m : gmap string V) :
  (∀ y, y ∈ after → key y ≠ key x) →
  comprehension key val (before ++ x :: after) m !! key x = Some (val x).
Proof.
  intros H. unfold comprehension. rewrite fold_left_app. simpl.
  change (fold_left _ after ?m') with (comprehension key val after m').
  rewrite comprehension_frame by done. apply lookup_insert_eq.
Qed.

End Comprehension.

(** ** getRFProfiles of the update script *)

Lemma lower_ascii_idem c :
  PyStr.lower_ascii (PyStr.lower_ascii c) = PyStr.lower_ascii c.
Proof. by destruct c as [[] [] [] [] [] [] [] []]. Qed.

Lemma lower_idem s : PyStr.lower (PyStr.lower s) = PyStr.lower s.
Proof.
  induction s as [|c s IH]; simpl; [done|]. by rewrite lower_ascii_idem, IH.
Qed.

Section Snapshot.
Variable fetch : string → Reply (list RfProfile).

Lemma getRFProfiles_from_app l1 l2 results :
  getRFProfiles_from fetch (l1 ++ l2) results
  = match getRFProfiles_from fetch l1 results with
    | Ok r1 => getRFProfiles_from fetch l2 r1
    | APIError message => APIError message
    | Raises e => Raises e
    end.
Proof.
  revert results. induction l1 as [|n l1 IH]; intros results; simpl; [done|].
  destruct (negb (Py.list_mem "wireless" (productTypes n))); [apply IH|].
  destruct (fetch (network_id n)); [apply IH|done|done].
Qed.

Lemma getRFProfiles_from_ok networks results :
  (∃ r, getRFProfiles_from fetch networks results = Ok r)
  ↔ ∀ n, n ∈ networks → wireless n = true → ∃ ps, fetch (network_id n) = Ok ps.
Proof.
  revert results. induction networks as [|n l IH]; intros results; simpl.
  - split; [by intros _ n ?%elem_of_nil|by eexists].
  - fold (wireless n). destruct (wireless n) eqn:Hw; simpl.
    + destruct (fetch (network_id n)) as [ps|m|e] eqn:Hf.
      * rewrite IH. split.
        -- intros H n' [->|Hin]%elem_of_cons Hw'; [by exists ps|by apply H].
        -- intros H n' Hin. apply H. apply elem_of_cons. by right.
      * split; [by intros [r ?]|].
        intros H. destruct (H n) as [ps Hps]; [apply elem_of_cons; by left|done|].
        congruence.
      * split; [by intros [r ?]|].
        intros H. destruct (H n) as [ps Hps]; [apply elem_of_cons; by left|done|].
        congruence.
    + rewrite IH. split.
      * intros H n' [->|Hin]%elem_of_cons Hw'; [congruence|by apply H].
      * intros H n' Hin. apply H. apply elem_of_cons. by right.
Qed.

Lemma getRFProfiles_from_keys networks results r k :
  getRFProfiles_from fetch networks results = Ok r →
  is_Some (r !! k)
  ↔ is_Some (results !! k)
    ∨ ∃ n, n ∈ networks ∧ wireless n = true ∧ PyStr.lower (network_name n) = k.
Proof.
  revert results. induction networks as [|n l IH]; intros results; simpl.
  - intros [= <-]. split; [by left|].
    intros [?|(n & ?%elem_of_nil & _)]; done.
  - fold (wireless n). destruct (wireless n) eqn:Hw; simpl.
    + destruct (fetch (network_id n)) as [ps|m|e]; [|done|done].
      intros H. rewrite (IH _ H), lookup_insert_is_Some. split.
      * intros [[Hk|[_ ?]]|(n' & Hin & Hw' & Hk)].
        -- right. exists n. split_and!; [apply elem_of_cons; by left|done|done].
        -- by left.
        -- right. exists n'. split_and!; [apply elem_of_cons; by right|done|done].
      * intros [?|(n' & Hin & Hw' & Hk)].
        -- left. destruct (decide (PyStr.lower (network_name n) = k));
             [by left|by right].
        -- apply elem_of_cons in Hin as [->|Hin]; [left; by left|].
           right. by exists n'.
    + intros H. rewrite (IH _ H). split.
      * intros [?|(n' & Hin & Hw' & Hk)]; [by left|].
        right. exists n'. split_and!; [apply elem_of_cons; by right|done|done].
      * intros [?|(n' & Hin & Hw' & Hk)]; [by left|].
        apply elem_of_cons in Hin as [->|Hin]; [congruence|].
        right. by exists n'.
Qed.

Lemma getRFProfiles_from_frame networks results r k :
  getRFProfiles_from fetch networks results = Ok r →
  (∀ n, n ∈ networks → wireless n = true → PyStr.lower (network_name n) ≠ k) →
  r !! k = results !! k.
Proof.
  revert results. induction networks as [|n l IH]; intros results; simpl.
  - by intros [= <-].
  - fold (wireless n). destruct (wireless n) eqn:Hw; simpl.
    + destruct (fetch (network_id n)) as [ps|m|e]; [|done|done].
      intros H Hne. rewrite (IH _ H).
      * apply lookup_insert_ne. apply Hne; [apply elem_of_cons; by left|done].
      * intros n' Hin. apply Hne. apply elem_of_cons. by right.
    + intros H Hne. apply (IH _ H).
      intros n' Hin. apply Hne. apply elem_of_cons. by right.
Qed.

(** X15. The snapshot is built exactly when the listing succeeds for every
    network with the product type [wireless]; the other networks are not
    asked about, so what the dashboard would answer for them is of no
    account. *)
Theorem snapshot_built_iff networks :
  (∃ current, getRFProfiles fetch networks = Ok current)
  ↔ ∀ n, n ∈ networks → wireless n = true → ∃ ps, fetch (network_id n) = Ok ps.
Proof. apply getRFProfiles_from_ok. Qed.

Lemma snapshot_keys_aux networks current k :
  getRFProfiles fetch networks = Ok current →
  (is_Some (current !! k)
   ↔ ∃ n, n ∈ networks ∧ wireless n = true ∧ PyStr.lower (network_name n) = k) ∧
  (is_Some (current !! k) → PyStr.lower k = k).
Proof.
  intros H.
  assert (is_Some (current !! k)
          ↔ ∃ n, n ∈ networks ∧ wireless n = true
                 ∧ PyStr.lower (network_name n) = k) as Hk.
  { rewrite (getRFProfiles_from_keys _ _ _ k H), lookup_empty. split.
    - by intros [[? [=]]|?].
    - by right. }
  split; [done|].
  intros (n & _ & _ & <-)%Hk. apply lower_idem.
Qed.

(** X16. The keys of the snapshot are the lower-cased names of the wireless
    networks, and each key is its own lower-casing. *)
Theorem snapshot_keys networks current k :
  getRFProfiles fetch networks = Ok current →
  (is_Some (current !! k)
   ↔ ∃ n, n ∈ networks ∧ wireless n = true ∧ PyStr.lower (network_name n) = k) ∧
  (is_Some (current !! k) → PyStr.lower k = k).
Proof. apply snapshot_keys_aux. Qed.

(** X17. When the names of several wireless networks differ only in the case of
    their letters, the snapshot keeps the last of them: its id and the
    profiles listed for it. *)
Theorem snapshot_last_network_wins before n after current :
  getRFProfiles fetch (before ++ n :: after) = Ok current →
  wireless n = true →
  (∀ n', n' ∈ after → wireless n' = true →
         PyStr.lower (network_name n') ≠ PyStr.lower (network_name n)) →
  ∃ ps,
    fetch (network_id n) = Ok ps ∧
    current !! PyStr.lower (network_name n)
    = Some (mkBaseline (network_id n) (rf_info ps)).
Proof.
  unfold getRFProfiles. rewrite getRFProfiles_from_app.
  destruct (getRFProfiles_from fetch before ∅) as [r1|m|e]; [|done|done].
  simpl. fold (wireless n). intros H Hw Hafter. rewrite Hw in H. simpl in H.
  destruct (fetch (network_id n)) as [ps|m|e]; [|done|done].
  exists ps. split; [done|].
  rewrite (getRFProfiles_from_frame _ _ _ _ H Hafter). apply lookup_insert_eq.
Qed.

(** X18. With the snapshot as baseline, a row's network is known exactly when
    its name is, up to the case of the letters, the name of a wireless
    network. *)
Theorem network_match_ignores_case networks current entry :
  getRFProfiles fetch networks = Ok current →
  unknown_network current entry = false
  ↔ ∃ n, n ∈ networks ∧ wireless n = true
         ∧ PyStr.lower (network_name n) = PyStr.lower (Network_Name entry).
Proof.
  intros H.
  rewrite <- (proj1 (snapshot_keys_aux networks current
                       (PyStr.lower (Network_Name entry)) H)).
  unfold unknown_network, in_keys.
  destruct (current !! PyStr.lower (Network_Name entry)); simpl.
  - split; [by eexists|done].
  - split; [done|]. by intros [? [=]].
Qed.

End Snapshot.

Lemma snapshot_built_iff_witness :
  ∃ current, getRFProfiles Sample2.listing Sample2.networks = Ok current.
Proof.
  apply (snapshot_built_iff Sample2.listing Sample2.networks).
  intros n Hn Hw. repeat (apply elem_of_cons in Hn as [->|Hn]);
    [by eexists|discriminate Hw|by eexists|by apply elem_of_nil in Hn].
Defined.

Lemma snapshot_keys_witness :
  (is_Some (Sample2.snapshot !! "branch-a")
   ↔ ∃ n, n ∈ Sample2.networks ∧ wireless n = true
          ∧ PyStr.lower (network_name n) = "branch-a") ∧
  (is_Some (Sample2.snapshot !! "branch-a") → PyStr.lower "branch-a" = "branch-a").
Proof.
  apply (snapshot_keys Sample2.listing Sample2.networks Sample2.snapshot).
  vm_compute. reflexivity.
Defined.

Lemma snapshot_last_network_wins_witness :
  ∃ ps,
    Sample2.listing "N3" = Ok ps ∧
    Sample2.snapshot !! "branch-a" = Some (mkBaseline "N3" (rf_info ps)).
Proof.
  apply (snapshot_last_network_wins Sample2.listing
           [mkNetwork "N1" "Branch-A" ["appliance"; "wireless"];
            mkNetwork "N2" "Warehouse" ["switch"]]
           (mkNetwork "N3" "BRANCH-a" ["wireless"]) [] Sample2.snapshot).
  - vm_compute. reflexivity.
  - reflexivity.
  - by intros n' ?%elem_of_nil.
Defined.

Lemma network_match_ignores_case_witness :
  unknown_network Sample2.snapshot (mkRow "bRANCH-A" "legacy" "none") = false
  ↔ ∃ n, n ∈ Sample2.networks ∧ wireless n = true
         ∧ PyStr.lower (network_name n) = "branch-a".
Proof.
  apply (network_match_ignores_case Sample2.listing Sample2.networks
           Sample2.snapshot (mkRow "bRANCH-A" "legacy" "none")).
  vm_compute. reflexivity.
Defined.

(** X19. The ids of a network's profiles in the snapshot: a name is known
    exactly when the listing holds a profile of that name, and of several
    profiles with one name the id of the last is kept. *)
Theorem rf_info_last_id_wins profiles :
  (∀ k, is_Some (rf_info profiles !! k) ↔ ∃ p, p ∈ profiles ∧ rfp_name p = k) ∧
  (∀ before p after,
     profiles = before ++ p :: after →
     (∀ q, q ∈ after → rfp_name q ≠ rfp_name p) →
     rf_info profiles !! rfp_name p = Some (rfp_id p)).
Proof.
  split.
  - intros k. change (rf_info profiles) with (comprehension rfp_name rfp_id profiles ∅).
    rewrite (comprehension_keys rfp_name rfp_id profiles ∅ k), lookup_empty.
    split; [by intros [[? [=]]|?]|by right].
  - intros before p after -> H.
    apply (comprehension_last rfp_name rfp_id before p after ∅ H).
Qed.

Lemma rf_info_last_id_wins_witness :
  rf_info [mkRfProfile "legacy" "R7"; mkRfProfile "Legacy" "R8";
           mkRfProfile "legacy" "R9"] !! "legacy" = Some "R9".
Proof.
  apply (proj2 (rf_info_last_id_wins
                  [mkRfProfile "legacy" "R7"; mkRfProfile "Legacy" "R8";
                   mkRfProfile "legacy" "R9"])
           [mkRfProfile "legacy" "R7"; mkRfProfile "Legacy" "R8"]
           (mkRfProfile "legacy" "R9") []).
  - reflexivity.
  - by intros q ?%elem_of_nil.
Defined.

(** ** collectNewRFprofiles *)

Section Templates.
Variable glob : string → list string.
Variable load : string → Template.

Lemma read_profiles_app l1 l2 m :
  read_profiles load (l1 ++ l2) m
  = match read_profiles load l1 m with
    | inr m1 => read_profiles load l2 m1
    | inl e => inl e
    end.
Proof.
  revert m. induction l1 as [|f l1 IH]; intros m; simpl; [done|].
  destruct (ODict.get "name" (load f)); [apply IH|done].
Qed.

Lemma read_profiles_ok files m :
  (∃ r, read_profiles load files m = inr r)
  ↔ ∀ f, f ∈ files → is_Some (ODict.get "name" (load f)).
Proof.
  revert m. induction files as [|f l IH]; intros m; simpl.
  - split; [by intros _ f ?%elem_of_nil|by eexists].
  - destruct (ODict.get "name" (load f)) as [name|] eqn:Hn.
    + rewrite IH. split.
      * intros H f' [->|Hin]%elem_of_cons; [by rewrite Hn|by apply H].
      * intros H f' Hin. apply H. apply elem_of_cons. by right.
    + split; [by intros [r ?]|].
      intros H. destruct (H f) as [x Hx]; [apply elem_of_cons; by left|].
      congruence.
Qed.

Lemma read_profiles_lookup files m r k t :
  read_profiles load files m = inr r → r !! k = Some t →
  m !! k = Some t
  ∨ ∃ f, f ∈ files ∧ t = load f ∧ ODict.get "name" t = Some k.
Proof.
  revert m. induction files as [|f l IH]; intros m; simpl.
  - intros [= <-] ?. by left.
  - destruct (ODict.get "name" (load f)) as [name|] eqn:Hn; [|done].
    intros H Hk. destruct (IH _ H Hk) as [Hm|(f' & Hin & Ht & Hname)].
    + apply lookup_insert_Some in Hm as [[<- <-]|[_ Hm]].
      * right. exists f. split_and!; [apply elem_of_cons; by left|done|done].
      * by left.
    + right. exists f'. split_and!; [apply elem_of_cons; by right|done|done].
Qed.

Lemma read_profiles_frame files m r k :
  read_profiles load files m = inr r →
  (∀ f, f ∈ files → ODict.get "name" (load f) ≠ Some k) →
  r !! k = m !! k.
Proof.
  revert m. induction files as [|f l IH]; intros m; simpl.
  - by intros [= <-].
  - destruct (ODict.get "name" (load f)) as [name|] eqn:Hn; [|done].
    intros H Hne. rewrite (IH _ H).
    + apply lookup_insert_ne. intros ->.
      apply (Hne f); [apply elem_of_cons; by left|done].
    + intros f' Hin. apply Hne. apply elem_of_cons. by right.
Qed.

Lemma collect_from_nil answers :
  collectNewRFprofiles_from glob load answers []
  = match answers with
    | [] => None
    | dir :: answers' =>
        match yaml_paths (glob (dir +:+ "/*")) with
        | [] => collectNewRFprofiles_from glob load answers' []
        | file_list => Some (read_profiles load file_list ∅)
        end
    end.
Proof.
  destruct answers as [|dir answers']; simpl; [done|].
  by destruct (yaml_paths (glob (dir +:+ "/*"))).
Qed.

Lemma collect_skips skipped answers :
  (∀ d, d ∈ skipped → yaml_paths (glob (d +:+ "/*")) = []) →
  collectNewRFprofiles_from glob load (skipped ++ answers) []
  = collectNewRFprofiles_from glob load answers [].
Proof.
  induction skipped as [|d l IH]; intros H; [done|].
  rewrite <- app_comm_cons, collect_from_nil, (H d) by (apply elem_of_cons; by left).
  apply IH. intros d' Hin. apply H. apply elem_of_cons. by right.
Qed.

(** X20. The operator is asked again for every directory whose listing has no
    path containing [.yaml]; the first directory that has one decides, and
    the templates are read from its matching paths alone. The function is
    still asking exactly when no directory entered so far has such a
    path. *)
Theorem first_directory_with_yaml_decides answers :
  (collectNewRFprofiles glob load answers = None
   ↔ ∀ d, d ∈ answers → yaml_paths (glob (d +:+ "/*")) = []) ∧
  (∀ skipped dir later,
     answers = skipped ++ dir :: later →
     (∀ d, d ∈ skipped → yaml_paths (glob (d +:+ "/*")) = []) →
     yaml_paths (glob (dir +:+ "/*")) ≠ [] →
     collectNewRFprofiles glob load answers
     = Some (read_profiles load (yaml_paths (glob (dir +:+ "/*"))) ∅)).
Proof.
  unfold collectNewRFprofiles. split.
  - induction answers as [|d l IH]; rewrite collect_from_nil.
    + split; [by intros _ d ?%elem_of_nil|done].
    + destruct (yaml_paths (glob (d +:+ "/*"))) as [|f fs] eqn:E.
      * rewrite IH. split.
        -- intros H d' [->|Hin]%elem_of_cons; [done|by apply H].
        -- intros H d' Hin. apply H. apply elem_of_cons. by right.
      * split; [done|]. intros H.
        specialize (H d ltac:(apply elem_of_cons; by left)). congruence.
  - intros skipped dir later -> Hskip Hdir.
    rewrite collect_skips, collect_from_nil by done.
    by destruct (yaml_paths (glob (dir +:+ "/*"))).
Qed.

(** X21. Every template that is returned is stored under the name it holds,
    and was read from a path that contains [.yaml], listed for a directory
    the operator entered. *)
Theorem templates_stored_under_own_name answers new k t :
  collectNewRFprofiles glob load answers = Some (inr new) →
  new !! k = Some t →
  ODict.get "name" t = Some k ∧
  ∃ dir file,
    dir ∈ answers ∧ file ∈ glob (dir +:+ "/*") ∧ is_substring ".yaml" file ∧
    t = load file.
Proof.
  unfold collectNewRFprofiles. intros Hrun Hk.
  induction answers as [|d l IH]; rewrite collect_from_nil in Hrun; [done|].
  destruct (yaml_paths (glob (d +:+ "/*"))) as [|f fs] eqn:E.
  - destruct (IH Hrun) as (Hname & dir & file & Hd & Hrest).
    split; [done|]. exists dir, file. split; [apply elem_of_cons; by right|done].
  - assert (read_profiles load (f :: fs) ∅ = inr new) as Hrun'
      by (by injection Hrun).
    destruct (read_profiles_lookup _ _ _ _ _ Hrun' Hk)
      as [Hm|(file & Hin & -> & Hname)]; [by rewrite lookup_empty in Hm|].
    split; [done|]. exists d, file.
    rewrite <- E in Hin. unfold yaml_paths in Hin.
    apply list_elem_of_In, List.filter_In in Hin as [Hin Hc].
    split_and!; [apply elem_of_cons; by left|by apply list_elem_of_In|
                 by apply contains_spec|done].
Qed.

(** X22. When the templates have been read, of several files that hold one
    name the last in the list is the one kept under that name. *)
Theorem last_loaded_template_wins before file after new k :
  read_profiles load (before ++ file :: after) ∅ = inr new →
  ODict.get "name" (load file) = Some k →
  (∀ f, f ∈ after → ODict.get "name" (load f) ≠ Some k) →
  new !! k = Some (load file).
Proof.
  intros Hrun Hname Hafter.
  rewrite read_profiles_app in Hrun.
  destruct (read_profiles load before ∅) as [e|m1]; [done|].
  simpl in Hrun. rewrite Hname in Hrun.
  rewrite (read_profiles_frame _ _ _ _ Hrun Hafter). apply lookup_insert_eq.
Qed.

End Templates.

Lemma first_directory_with_yaml_decides_witness :
  collectNewRFprofiles Sample2.glob Sample2.load ["old"; "new"; "newer"]
  = Some (read_profiles Sample2.load
            (yaml_paths (Sample2.glob ("new" +:+ "/*"))) ∅).
Proof.
  apply (proj2 (first_directory_with_yaml_decides Sample2.glob Sample2.load
                  ["old"; "new"; "newer"]) ["old"] "new" ["newer"]).
  - reflexivity.
  - intros d ->%list_elem_of_singleton. reflexivity.
  - discriminate.
Defined.

Lemma templates_stored_under_own_name_witness :
  ODict.get "name" [("name", "5ghz-boost")] = Some "5ghz-boost" ∧
  ∃ dir file,
    dir ∈ ["old"; "new"] ∧ file ∈ Sample2.glob (dir +:+ "/*")
    ∧ is_substring ".yaml" file ∧ [("name", "5ghz-boost")] = Sample2.load file.
Proof.
  apply (templates_stored_under_own_name Sample2.glob Sample2.load ["old"; "new"]
           (match collectNewRFprofiles Sample2.glob Sample2.load ["old"; "new"] with
            | Some (inr new) => new
            | _ => ∅
            end)
           "5ghz-boost" [("name", "5ghz-boost")]);
    vm_compute; reflexivity.
Defined.

Lemma last_loaded_template_wins_witness :
  ∃ new,
    read_profiles Sample2.load ["new/a.yaml"; "new/b.yaml"; "new/legacy.yaml"] ∅
    = inr new ∧
    new !! "5ghz-boost" = Some (Sample2.load "new/b.yaml").
Proof.
  eexists. split; [reflexivity|].
  apply (last_loaded_template_wins Sample2.load
           ["new/a.yaml"] "new/b.yaml" ["new/legacy.yaml"] _ "5ghz-boost");
    [reflexivity|reflexivity|].
  intros f ->%list_elem_of_singleton. discriminate.
Defined.

(** ** The export script: getTargetNetwork *)

(** X23. The operator is asked again for every name that is no network's name
    up to the case of the letters; the first name that is one decides, and
    of several networks with that name the id of the last is returned. The
    function is still asking exactly when no name entered so far matches. *)
Theorem target_network_found networks answers :
  (Exporter.getTargetNetwork networks answers = None
   ↔ ∀ a n, a ∈ answers → n ∈ networks →
            PyStr.lower (network_name n) ≠ PyStr.lower a) ∧
  (∀ skipped a later before n after,
     answers = skipped ++ a :: later →
     (∀ s n', s ∈ skipped → n' ∈ networks →
              PyStr.lower (network_name n') ≠ PyStr.lower s) →
     networks = before ++ n :: after →
     PyStr.lower (network_name n) = PyStr.lower a →
     (∀ n', n' ∈ after → PyStr.lower (network_name n') ≠ PyStr.lower a) →
     Exporter.getTargetNetwork networks answers = Some (network_id n)).
Proof.
  assert (∀ a, Exporter.all_names networks !! PyStr.lower a = None
               ↔ ∀ n, n ∈ networks → PyStr.lower (network_name n) ≠ PyStr.lower a)
    as Hnone.
  { intros a. rewrite eq_None_not_Some.
    change (Exporter.all_names networks)
      with (comprehension (fun n => PyStr.lower (network_name n)) network_id
              networks ∅).
    rewrite comprehension_keys, lookup_empty. split.
    - intros H n Hn Heq. apply H. right. by exists n.
    - intros H [[? [=]]|(n & Hn & Heq)]. by apply (H n). }
  split.
  - induction answers as [|a l IH]; simpl.
    + split; [by intros _ a n ?%elem_of_nil|done].
    + destruct (Exporter.all_names networks !! PyStr.lower a) as [i|] eqn:E.
      * split; [done|]. intros H.
        assert (Exporter.all_names networks !! PyStr.lower a = None) as E'
          by (apply Hnone; intros n; apply H; apply elem_of_cons; by left).
        congruence.
      * rewrite IH. pose proof (proj1 (Hnone a) E) as E'. split.
        -- intros H a' n [->|Hin]%elem_of_cons; [apply E'|by apply H].
        -- intros H a' n Hin. apply H. apply elem_of_cons. by right.
  - intros skipped a later before n after -> Hskip -> Hn Hafter.
    induction skipped as [|s l IH]; simpl.
    + assert (Exporter.all_names (before ++ n :: after) !! PyStr.lower a
              = Some (network_id n)) as ->; [|done].
      rewrite <- Hn.
      apply (comprehension_last (fun n => PyStr.lower (network_name n)) network_id
               before n after ∅).
      intros n' Hin. rewrite Hn. by apply Hafter.
    + assert (Exporter.all_names (before ++ n :: after) !! PyStr.lower s = None)
        as -> by (apply Hnone; intros n'; apply Hskip; apply elem_of_cons; by left).
      apply IH. intros s' n' Hin. apply Hskip. apply elem_of_cons. by right.
Qed.

Lemma target_network_found_witness :
  Exporter.getTargetNetwork Sample2.networks ["branch b"; "branch-A"; "Warehouse"]
  = Some "N3".
Proof.
  apply (proj2 (target_network_found Sample2.networks
                  ["branch b"; "branch-A"; "Warehouse"])
           ["branch b"] "branch-A" ["Warehouse"]
           [mkNetwork "N1" "Branch-A" ["appliance"; "wireless"];
            mkNetwork "N2" "Warehouse" ["switch"]]
           (mkNetwork "N3" "BRANCH-a" ["wireless"]) []).
  - reflexivity.
  - intros s n' ->%list_elem_of_singleton Hn'.
    repeat (apply elem_of_cons in Hn' as [->|Hn']); try discriminate.
    by apply elem_of_nil in Hn'.
  - reflexivity.
  - reflexivity.
  - by intros n' ?%elem_of_nil.
Defined.

(** ** The export script: file names *)

Lemma append_nil_r s : s +:+ EmptyString = s.
Proof.
  induction s as [|c s IH]; [done|].
  change (String c (s +:+ EmptyString) = String c s). by rewrite IH.
Qed.

Lemma append_assoc s1 s2 s3 : (s1 +:+ s2) +:+ s3 = s1 +:+ s2 +:+ s3.
Proof.
  induction s1 as [|c s IH]; [done|].
  change (String c ((s +:+ s2) +:+ s3) = String c (s +:+ s2 +:+ s3)).
  by rewrite IH.
Qed.

Lemma join_cons_cons sep w ws :
  ws ≠ [] → Py.join sep (w :: ws) = w +:+ sep +:+ Py.join sep ws.
Proof. by destruct ws. Qed.

Lemma join_split c d s :
  Py.join (String d EmptyString) (PyStr.split c s)
  = map_string (fun x => if Ascii.eqb x c then d else x) s.
Proof.
  induction s as [|a s IH]; [done|].
  cbn [PyStr.split map_string]. pose proof (split_nonempty c s) as Hne.
  destruct (Ascii.eqb a c).
  - rewrite join_cons_cons by done. simpl. by rewrite IH.
  - destruct (PyStr.split c s) as [|w ws]; [done|].
    rewrite <- IH. destruct ws as [|w' ws]; [done|].
    rewrite !join_cons_cons by done. done.
Qed.

Lemma map_string_length f s : String.length (map_string f s) = String.length s.
Proof. induction s as [|a s IH]; simpl; [done|]. by rewrite IH. Qed.

(** Joining the pieces of a split with the separator gives the text
    back. *)
Lemma join_split_same c s : Py.join (String c EmptyString) (PyStr.split c s) = s.
Proof.
  rewrite join_split. induction s as [|a s IH]; simpl; [done|].
  rewrite IH. destruct (Ascii.eqb_spec a c) as [->|]; done.
Qed.

(** X24. The file name of a profile is its lower-cased name with each space
    replaced by an underscore and nothing else changed: it is as long as
    the lower-cased name and holds no space. *)
Theorem filename_of_spec name :
  Exporter.filename_of name = map_string filename_char (PyStr.lower name) ∧
  String.length (Exporter.filename_of name) = String.length (PyStr.lower name) ∧
  has_char " "%char (Exporter.filename_of name) = false.
Proof.
  assert (Exporter.filename_of name = map_string filename_char (PyStr.lower name))
    as Heq by apply join_split.
  rewrite Heq. split_and!; [done| |].
  - by rewrite map_string_length.
  - generalize (PyStr.lower name) as s. induction s as [|a s IH]; simpl; [done|].
    rewrite IH, orb_false_r. unfold filename_char.
    destruct (Ascii.eqb_spec a " "%char) as [->|]; [done|].
    by apply Ascii.eqb_neq.
Qed.

(** ** The export script: what is written *)

Lemma del_Some_keys {V} k (d d' : ODict.t V) :
  Py.del k d = Some d' →
  k ∈ ODict.keys d ∧
  (NoDup (ODict.keys d) →
   d' = List.filter (fun kv => negb (String.eqb kv.1 k)) d) ∧
  ∀ k', k' ≠ k → ODict.get k' d' = ODict.get k' d.
Proof.
  revert d'. induction d as [|[k0 v0] d IH]; intros d'; simpl; [done|].
  destruct (String.eqb_spec k k0) as [->|Hne].
  - intros [= <-]. split_and!.
    + apply elem_of_cons. by left.
    + intros [Hk Hd]%NoDup_cons. rewrite String.eqb_refl. simpl.
      symmetry. clear -Hk. unfold ODict.keys in Hk.
      induction d as [|[k1 v1] d IH]; simpl; [done|].
      simpl in Hk. apply not_elem_of_cons in Hk as [Hne Hk].
      destruct (String.eqb_spec k1 k0); [done|]. simpl. by rewrite IH.
    + intros k' Hk'. by destruct (String.eqb_spec k' k0).
  - destruct (Py.del k d) as [d1|] eqn:Hd; [|done]. simpl.
    intros [= <-]. destruct (IH d1 eq_refl) as (Hin & Hfil & Hget). split_and!.
    + apply elem_of_cons. by right.
    + intros [Hk Hnd]%NoDup_cons.
      destruct (String.eqb_spec k0 k); [congruence|]. simpl. by rewrite <- Hfil.
    + intros k' Hk'. simpl. rewrite Hget by done. done.
Qed.

Lemma del_None_keys {V} k (d : ODict.t V) :
  Py.del k d = None ↔ k ∉ ODict.keys d.
Proof.
  induction d as [|[k0 v0] d IH]; simpl.
  - split; [intros _; apply not_elem_of_nil|done].
  - destruct (String.eqb_spec k k0) as [->|Hne].
    + split; [done|]. intros H. destruct H. apply elem_of_cons. by left.
    + rewrite not_elem_of_cons. destruct (Py.del k d); simpl.
      * split; [done|]. intros [_ H]. by apply IH in H.
      * split; [|done]. intros _. split; [done|]. by apply IH.
Qed.

Lemma get_Some_keys {V} k (d : ODict.t V) :
  is_Some (ODict.get k d) ↔ k ∈ ODict.keys d.
Proof.
  induction d as [|[k0 v0] d IH]; simpl.
  - split; [by intros [? ?]|by intros ?%elem_of_nil].
  - destruct (String.eqb_spec k k0) as [->|Hne].
    + split; [intros _; apply elem_of_cons; by left|by eexists].
    + rewrite IH, elem_of_cons. split; [by right|by intros [?|?]].
Qed.

Lemma filter_filter_keys (d : Template) :
  List.filter (fun kv => negb (String.eqb kv.1 "id"))
    (List.filter (fun kv => negb (String.eqb kv.1 "networkId")) d)
  = List.filter
      (fun kv => negb (String.eqb kv.1 "networkId") && negb (String.eqb kv.1 "id"))
      d.
Proof.
  induction d as [|[k v] d IH]; simpl; [done|].
  destruct (negb (String.eqb k "networkId")); simpl; [|done].
  destruct (negb (String.eqb k "id")); simpl; by rewrite IH.
Qed.

Lemma filter_keys_NoDup {V} (f : string * V → bool) (d : ODict.t V) :
  NoDup (ODict.keys d) → NoDup (ODict.keys (List.filter f d)).
Proof.
  unfold ODict.keys. induction d as [|[k v] d IH]; simpl; [done|].
  intros [Hk Hd]%NoDup_cons. destruct (f (k, v)); simpl; [|by apply IH].
  apply NoDup_cons. split; [|by apply IH].
  intros Hin. apply Hk. apply list_elem_of_fmap in Hin as ([k' v'] & -> & Hin).
  apply list_elem_of_In, List.filter_In in Hin as [Hin _].
  apply list_elem_of_fmap. exists (k', v'). split; [done|by apply list_elem_of_In].
Qed.

(** X25. A profile is exported exactly when it has the keys [networkId], [id]
    and [name]; a missing one is a [KeyError]. What is then dumped is the
    profile without the fields [networkId] and [id], the others in their
    order, under the path made of the directory, the file name of the
    profile's name and the extension [.yaml]. *)
Theorem export_strips_remote_fields path profile :
  ((∃ x, Exporter.export_of path profile = inr x)
   ↔ "networkId" ∈ ODict.keys profile ∧ "id" ∈ ODict.keys profile
     ∧ "name" ∈ ODict.keys profile) ∧
  (∀ filepath document,
     NoDup (ODict.keys profile) →
     Exporter.export_of path profile = inr (filepath, document) →
     document
     = List.filter
         (fun kv => negb (String.eqb kv.1 "networkId") && negb (String.eqb kv.1 "id"))
         profile ∧
     ODict.get "networkId" document = None ∧ ODict.get "id" document = None ∧
     ∃ name,
       ODict.get "name" profile = Some name ∧
       filepath = path +:+ "/" +:+ Exporter.filename_of name +:+ ".yaml").
Proof.
  unfold Exporter.export_of. split.
  - destruct (Py.del "networkId" profile) as [p1|] eqn:H1.
    + destruct (del_Some_keys _ _ _ H1) as (Hin1 & _ & Hget1).
      destruct (Py.del "id" p1) as [p2|] eqn:H2.
      * destruct (del_Some_keys _ _ _ H2) as (Hin2 & _ & Hget2).
        apply get_Some_keys in Hin2. rewrite Hget1 in Hin2 by done.
        apply get_Some_keys in Hin2.
        destruct (ODict.get "name" p2) as [name|] eqn:H3.
        -- split; [|by eexists]. intros _. split_and!; [done|done|].
           apply get_Some_keys. rewrite <- Hget1, <- Hget2 by done. by eexists.
        -- split; [by intros [x ?]|]. intros (_ & _ & Hn%get_Some_keys).
           rewrite <- Hget1, <- Hget2, H3 in Hn by done. by destruct Hn.
      * split; [by intros [x ?]|]. intros (_ & Hi%get_Some_keys & _).
        rewrite <- Hget1 in Hi by done. apply get_Some_keys in Hi.
        by apply del_None_keys in H2.
    + split; [by intros [x ?]|]. intros (Hn & _). by apply del_None_keys in H1.
  - intros filepath document Hnd.
    destruct (Py.del "networkId" profile) as [p1|] eqn:H1; [|done].
    destruct (del_Some_keys _ _ _ H1) as (_ & Hf1 & Hget1).
    specialize (Hf1 Hnd). subst p1.
    destruct (Py.del "id" _) as [p2|] eqn:H2; [|done].
    destruct (del_Some_keys _ _ _ H2) as (_ & Hf2 & Hget2).
    specialize (Hf2 (filter_keys_NoDup _ _ Hnd)). subst p2.
    rewrite filter_filter_keys in *.
    destruct (ODict.get "name" _) as [name|] eqn:H3; [|done].
    intros [= <- <-]. split_and!; [done| | |].
    + destruct (ODict.get "networkId" _) eqn:E; [|done].
      apply ODictFacts.get_Some_elem, list_elem_of_In, List.filter_In in E
        as [_ E]. done.
    + destruct (ODict.get "id" _) eqn:E; [|done].
      apply ODictFacts.get_Some_elem, list_elem_of_In, List.filter_In in E
        as [_ E]. done.
    + exists name. split; [|done].
      rewrite <- Hget1, <- (filter_filter_keys profile) in * by done.
      rewrite <- Hget2 by done. done.
Qed.

Lemma export_strips_remote_fields_witness :
  [("name", "Legacy 2GHz"); ("minBitrate", "12")]
  = List.filter
      (fun kv => negb (String.eqb kv.1 "networkId") && negb (String.eqb kv.1 "id"))
      [("id", "R1"); ("networkId", "N1"); ("name", "Legacy 2GHz");
       ("minBitrate", "12")] ∧
  ODict.get "networkId" [("name", "Legacy 2GHz"); ("minBitrate", "12")] = None ∧
  ODict.get "id" [("name", "Legacy 2GHz"); ("minBitrate", "12")] = None ∧
  ∃ name,
    ODict.get "name"
      [("id", "R1"); ("networkId", "N1"); ("name", "Legacy 2GHz");
       ("minBitrate", "12")] = Some name ∧
    "out/legacy_2ghz.yaml" = "out" +:+ "/" +:+ Exporter.filename_of name +:+ ".yaml".
Proof.
  apply (proj2 (export_strips_remote_fields "out"
                  [("id", "R1"); ("networkId", "N1"); ("name", "Legacy 2GHz");
                   ("minBitrate", "12")])
           "out/legacy_2ghz.yaml" [("name", "Legacy 2GHz"); ("minBitrate", "12")]).
  - apply (bool_decide_unpack _). by vm_compute.
  - reflexivity.
Defined.

Lemma contains_suffix sub pre : PyStr.contains sub (pre +:+ sub) = true.
Proof.
  apply contains_spec. exists pre, EmptyString. by rewrite append_nil_r.
Qed.

(** X26. Every path the export script writes contains [.yaml], so the update
    script keeps it when it lists the directory. *)
Theorem exported_paths_pass_loader path profile filepath document :
  Exporter.export_of path profile = inr (filepath, document) →
  yaml_paths [filepath] = [filepath].
Proof.
  unfold Exporter.export_of.
  destruct (Py.del "networkId" profile) as [p1|]; [|done].
  destruct (Py.del "id" p1) as [p2|]; [|done].
  destruct (ODict.get "name" p2) as [name|]; [|done].
  intros [= <- _]. unfold yaml_paths. simpl.
  replace (path +:+ "/" +:+ Exporter.filename_of name +:+ ".yaml")
    with ((path +:+ "/" +:+ Exporter.filename_of name) +:+ ".yaml")
    by (by rewrite !append_assoc).
  by rewrite contains_suffix.
Qed.

Lemma exported_paths_pass_loader_witness :
  yaml_paths ["out/legacy_2ghz.yaml"] = ["out/legacy_2ghz.yaml"].
Proof.
  apply (exported_paths_pass_loader "out"
           [("id", "R2"); ("networkId", "N1"); ("name", "legacy_2ghz")]
           "out/legacy_2ghz.yaml" [("name", "legacy_2ghz")]).
  reflexivity.
Defined.

Section WriteData.
Variable can_open : string → bool.
Variable dump : Template → string.
Variable path : string.

Lemma writeData_app l1 l2 files :
  Exporter.writeData can_open dump path (l1 ++ l2) files
  = match Exporter.writeData can_open dump path l1 files with
    | Exporter.WriteDone files1 => Exporter.writeData can_open dump path l2 files1
    | r => r
    end.
Proof.
  revert files. induction l1 as [|p l1 IH]; intros files; simpl; [done|].
  destruct (Exporter.export_of path p) as [e|[fp doc]]; [done|].
  destruct (can_open fp); [apply IH|done].
Qed.

Lemma writeData_done l files :
  (∃ files', Exporter.writeData can_open dump path l files
             = Exporter.WriteDone files')
  ↔ ∀ p, p ∈ l →
      ∃ fp doc, Exporter.export_of path p = inr (fp, doc) ∧ can_open fp = true.
Proof.
  revert files. induction l as [|p l IH]; intros files; simpl.
  - split; [by intros _ p ?%elem_of_nil|by eexists].
  - destruct (Exporter.export_of path p) as [e|[fp doc]] eqn:Hx.
    + split; [by intros [? ?]|]. intros H.
      destruct (H p) as (fp' & doc' & Hx' & _); [apply elem_of_cons; by left|].
      congruence.
    + destruct (can_open fp) eqn:Ho.
      * rewrite IH. split.
        -- intros H p' [->|Hin]%elem_of_cons; [by exists fp, doc|by apply H].
        -- intros H p' Hin. apply H. apply elem_of_cons. by right.
      * split; [by intros [? ?]|]. intros H.
        destruct (H p) as (fp' & doc' & Hx' & Ho'); [apply elem_of_cons; by left|].
        congruence.
Qed.

Lemma writeData_frame l files files' fp :
  Exporter.writeData can_open dump path l files = Exporter.WriteDone files' →
  (∀ p fp' doc', p ∈ l → Exporter.export_of path p = inr (fp', doc') → fp' ≠ fp) →
  files' !! fp = files !! fp.
Proof.
  revert files. induction l as [|p l IH]; intros files; simpl.
  - by intros [= <-].
  - destruct (Exporter.export_of path p) as [e|[fp0 doc0]] eqn:Hx; [done|].
    destruct (can_open fp0); [|done].
    intros H Hne. rewrite (IH _ H).
    + apply lookup_insert_ne. apply (Hne p fp0 doc0); [apply elem_of_cons; by left|done].
    + intros p' fp' doc' Hin. apply Hne. apply elem_of_cons. by right.
Qed.

Lemma writeData_grows l files fp :
  is_Some (files !! fp) →
  ∀ files',
    (Exporter.writeData can_open dump path l files = Exporter.WriteDone files'
     ∨ (∃ s, Exporter.writeData can_open dump path l files
             = Exporter.WriteExit s files')
     ∨ ∃ e, Exporter.writeData can_open dump path l files
            = Exporter.WriteRaised e files') →
    is_Some (files' !! fp).
Proof.
  revert files. induction l as [|p l IH]; intros files Hfp files'; simpl.
  - intros [[= <-]|[[s [=]]|[e [=]]]]. done.
  - destruct (Exporter.export_of path p) as [e|[fp0 doc0]] eqn:Hx.
    + intros [[=]|[[s [=]]|[e' [= _ <-]]]]. done.
    + destruct (can_open fp0).
      * apply IH. apply lookup_insert_is_Some.
        destruct (decide (fp0 = fp)); [by left|by right].
      * intros [[=]|[[s [= _ <-]]|[e' [=]]]]. done.
Qed.

(** X27. The export writes every profile exactly when each has its three keys
    and a path that can be opened; then, of several profiles that go to one
    path, the file holds the last. *)
Theorem export_done_last_profile_wins rf_profiles files :
  ((∃ files', Exporter.writeData can_open dump path rf_profiles files
              = Exporter.WriteDone files')
   ↔ ∀ p, p ∈ rf_profiles →
       ∃ fp doc, Exporter.export_of path p = inr (fp, doc) ∧ can_open fp = true) ∧
  (∀ files' before profile after fp doc,
     Exporter.writeData can_open dump path rf_profiles files
     = Exporter.WriteDone files' →
     rf_profiles = before ++ profile :: after →
     Exporter.export_of path profile = inr (fp, doc) →
     (∀ p fp' doc', p ∈ after → Exporter.export_of path p = inr (fp', doc') →
                    fp' ≠ fp) →
     files' !! fp = Some (dump doc)).
Proof.
  split; [apply writeData_done|].
  intros files' before profile after fp doc Hrun -> Hx Hafter.
  rewrite writeData_app in Hrun.
  destruct (Exporter.writeData can_open dump path before files)
    as [files1|s f1|e f1]; [|done|done].
  simpl in Hrun. rewrite Hx in Hrun. destruct (can_open fp); [|done].
  rewrite (writeData_frame _ _ _ _ Hrun Hafter). apply lookup_insert_eq.
Qed.

(** X28. The export stops at the first profile whose path cannot be opened,
    with exit status 1: the files of the profiles before it are written and
    stay, the profiles after it are not looked at. *)
Theorem export_stops_at_unwritable before profile after files fp doc :
  (∀ p, p ∈ before →
     ∃ fp' doc', Exporter.export_of path p = inr (fp', doc') ∧ can_open fp' = true) →
  Exporter.export_of path profile = inr (fp, doc) →
  can_open fp = false →
  ∃ files',
    Exporter.writeData can_open dump path before files = Exporter.WriteDone files' ∧
    Exporter.writeData can_open dump path (before ++ profile :: after) files
    = Exporter.WriteExit 1 files' ∧
    (∀ p fp' doc', p ∈ before → Exporter.export_of path p = inr (fp', doc') →
                   is_Some (files' !! fp')) ∧
    (∀ fp', is_Some (files !! fp') → is_Some (files' !! fp')).
Proof.
  intros Hbefore Hx Ho.
  destruct (proj2 (writeData_done before files) Hbefore) as [files' Hrun].
  exists files'. split_and!.
  - done.
  - rewrite writeData_app, Hrun. simpl. by rewrite Hx, Ho.
  - clear Hbefore. revert files Hrun.
    induction before as [|p0 l IH]; intros files Hrun p fp' doc' Hin Hp;
      [by apply elem_of_nil in Hin|].
    simpl in Hrun.
    destruct (Exporter.export_of path p0) as [e|[fp0 doc0]] eqn:Hx0; [done|].
    destruct (can_open fp0); [|done].
    apply elem_of_cons in Hin as [->|Hin].
    + rewrite Hx0 in Hp. injection Hp as -> ->.
      apply (writeData_grows l (<[fp':=dump doc']> files) fp');
        [by rewrite lookup_insert_eq|by left].
    + by apply (IH _ Hrun p fp' doc').
  - intros fp' Hfp'. apply (writeData_grows before files fp' Hfp'). by left.
Qed.

End WriteData.

Lemma export_done_last_profile_wins_witness :
  Sample2.written !! "out/legacy_2ghz.yaml"
  = Some (Sample2.dump [("name", "legacy_2ghz")]).
Proof.
  apply (proj2 (export_done_last_profile_wins (fun _ => true) Sample2.dump "out"
                  Sample2.remote_profiles ∅)
           Sample2.written
           [[("id", "R1"); ("networkId", "N1"); ("name", "Legacy 2GHz");
             ("minBitrate", "12")]]
           [("id", "R2"); ("networkId", "N1"); ("name", "legacy_2ghz")] []
           "out/legacy_2ghz.yaml" [("name", "legacy_2ghz")]);
    [vm_compute; reflexivity|reflexivity|reflexivity|
     by intros p fp' doc' ?%elem_of_nil].
Defined.

Lemma export_stops_at_unwritable_witness :
  ∃ files',
    Exporter.writeData (fun fp => negb (String.eqb fp "out/a/b.yaml")) Sample2.dump
      "out" [[("id", "R1"); ("networkId", "N1"); ("name", "legacy")]] ∅
    = Exporter.WriteDone files' ∧
    Exporter.writeData (fun fp => negb (String.eqb fp "out/a/b.yaml")) Sample2.dump
      "out"
      ([[("id", "R1"); ("networkId", "N1"); ("name", "legacy")]]
         ++ [("id", "R2"); ("networkId", "N1"); ("name", "a/b")] :: [])
      ∅
    = Exporter.WriteExit 1 files'.
Proof.
  destruct (export_stops_at_unwritable
              (fun fp => negb (String.eqb fp "out/a/b.yaml")) Sample2.dump "out"
              [[("id", "R1"); ("networkId", "N1"); ("name", "legacy")]]
              [("id", "R2"); ("networkId", "N1"); ("name", "a/b")] [] ∅
              "out/a/b.yaml" [("name", "a/b")])
    as (files' & H1 & H2 & _).
  - intros p ->%list_elem_of_singleton. by eexists _, _.
  - reflexivity.
  - reflexivity.
  - by exists files'.
Defined.
